(** * AsyncAWS: the AWS Signature Version 4 request adapter and the SQS client

    A shallow embedding of [sns.py] (class [AWSRequest]) and [sqs.py]
    (class [SQS]) together with the Python 2 library calls they rely on
    ([str.split], [str.join], [sorted], [str.encode], [strftime],
    [hashlib.sha256], [hmac.new], [urllib.urlencode], tornado's
    [url_concat]).  Python 2 [str] values are byte strings and are modelled
    by [string]; dictionaries are [gmap]s; a dictionary that is shared with
    the caller lives in an explicit store of objects. *)

From Stdlib Require Import ZArith List Ascii String Lia Sorted Permutation Bool.
From Stdlib Require Import DecimalString DecimalN.
From stdpp Require Import gmap strings list fin_maps sorting.
Import ListNotations.

Local Open Scope string_scope.

(** ** Exceptions and fallible computations *)

Inductive exn : Type :=
  | IndexError
  | ValueError
  | TypeError
  | AttributeError
  | UnicodeDecodeError
  | UnicodeEncodeError
  | XMLSyntaxError.

Inductive result (A : Type) : Type :=
  | Ok (a : A)
  | Raise (e : exn).

Arguments Ok {A} a.
Arguments Raise {A} e.

#[global] Instance result_ret : MRet result := fun A a => Ok a.

#[global] Instance result_bind : MBind result := fun A B k r =>
  match r with
  | Ok a => k a
  | Raise e => Raise e
  end.

Definition succeeds {A : Type} (r : result A) : bool :=
  match r with Ok _ => true | Raise _ => false end.

(** ** hashlib and hmac

    [hashlib.sha256] and [hmac.new] are standard-library calls.  They are
    written out here (FIPS 180-4 and RFC 2104, on 32-bit words held in [Z])
    so that signatures can be evaluated. *)

Module Hashlib.

Local Open Scope Z_scope.
Local Open Scope list_scope.

Definition w32 (x : Z) : Z := x mod 2 ^ 32.

Definition add32 (x y : Z) : Z := w32 (x + y).

Definition rotr (n x : Z) : Z :=
  Z.lor (Z.shiftr x n) (w32 (Z.shiftl x (32 - n))).

Definition not32 (x : Z) : Z := Z.lxor x (2 ^ 32 - 1).

Definition Ch (x y z : Z) : Z :=
  Z.lxor (Z.land x y) (Z.land (not32 x) z).

Definition Maj (x y z : Z) : Z :=
  Z.lxor (Z.lxor (Z.land x y) (Z.land x z)) (Z.land y z).

Definition bsig0 (x : Z) : Z := Z.lxor (Z.lxor (rotr 2 x) (rotr 13 x)) (rotr 22 x).
Definition bsig1 (x : Z) : Z := Z.lxor (Z.lxor (rotr 6 x) (rotr 11 x)) (rotr 25 x).
Definition ssig0 (x : Z) : Z := Z.lxor (Z.lxor (rotr 7 x) (rotr 18 x)) (Z.shiftr x 3).
Definition ssig1 (x : Z) : Z := Z.lxor (Z.lxor (rotr 17 x) (rotr 19 x)) (Z.shiftr x 10).

(** The round constants are the first 32 bits of the fractional parts of
    the cube roots of the first 64 primes, the initial chaining value those
    of the square roots of the first 8. *)
Definition primes64 : list Z :=
  [2; 3; 5; 7; 11; 13; 17; 19; 23; 29; 31; 37; 41; 43; 47; 53; 59; 61; 67; 71;
   73; 79; 83; 89; 97; 101; 103; 107; 109; 113; 127; 131; 137; 139; 149; 151;
   157; 163; 167; 173; 179; 181; 191; 193; 197; 199; 211; 223; 227; 229; 233;
   239; 241; 251; 257; 263; 269; 271; 277; 281; 283; 293; 307; 311].

(** The largest [r] below [2 ^ bits] with [r ^ 3 <= n]. *)
Fixpoint cube_root (bits : nat) (n r : Z) : Z :=
  match bits with
  | O => r
  | S b =>
      let r' := r + 2 ^ Z.of_nat b in
      cube_root b n (if r' * r' * r' <=? n then r' else r)
  end.

Definition frac_cube_root (p : Z) : Z := w32 (cube_root 40 (p * 2 ^ 96) 0).
Definition frac_square_root (p : Z) : Z := w32 (Z.sqrt (p * 2 ^ 64)).

Definition K256 : list Z := Eval vm_compute in map frac_cube_root primes64.

(** The chaining value: eight 32-bit words. *)
Record hstate : Type := HState {
  ha : Z; hb : Z; hc : Z; hd : Z; he : Z; hf : Z; hg : Z; hh : Z
}.

Definition H0 : hstate :=
  Eval vm_compute in
  HState (frac_square_root 2) (frac_square_root 3) (frac_square_root 5)
         (frac_square_root 7) (frac_square_root 11) (frac_square_root 13)
         (frac_square_root 17) (frac_square_root 19).

(** [be_bytes w x]: the [w] low bytes of [x], most significant first. *)
Fixpoint be_bytes (w : nat) (x : Z) : list Z :=
  match w with
  | O => []
  | S w' => (Z.shiftr x (8 * Z.of_nat w')) mod 256 :: be_bytes w' x
  end.

Definition pad (msg : list Z) : list Z :=
  let n := Z.of_nat (List.length msg) in
  msg ++ [128] ++ repeat 0 (Z.to_nat ((55 - n) mod 64)) ++ be_bytes 8 (8 * n).

Fixpoint words (l : list Z) : list Z :=
  match l with
  | a :: b :: c :: d :: r =>
      Z.lor (Z.lor (Z.lor (Z.shiftl a 24) (Z.shiftl b 16)) (Z.shiftl c 8)) d
      :: words r
  | _ => []
  end.

Fixpoint chunks (fuel : nat) (l : list Z) : list (list Z) :=
  match fuel, l with
  | S f, _ :: _ => firstn 16 l :: chunks f (skipn 16 l)
  | _, _ => []
  end.

(** The message schedule, newest word first. *)
Fixpoint extend (n : nat) (ws : list Z) : list Z :=
  match n with
  | O => ws
  | S n' =>
      let w := add32 (add32 (ssig1 (nth 1 ws 0)) (nth 6 ws 0))
                     (add32 (ssig0 (nth 14 ws 0)) (nth 15 ws 0)) in
      extend n' (w :: ws)
  end.

Definition round (s : hstate) (kw : Z * Z) : hstate :=
  let t1 := add32 (add32 (add32 (hh s) (bsig1 (he s))) (Ch (he s) (hf s) (hg s)))
                  (add32 (fst kw) (snd kw)) in
  let t2 := add32 (bsig0 (ha s)) (Maj (ha s) (hb s) (hc s)) in
  HState (add32 t1 t2) (ha s) (hb s) (hc s) (add32 (hd s) t1) (he s) (hf s) (hg s).

Definition compress (s : hstate) (block : list Z) : hstate :=
  let ws := rev (extend 48 (rev block)) in
  let r := fold_left round (combine K256 ws) s in
  HState (add32 (ha s) (ha r)) (add32 (hb s) (hb r)) (add32 (hc s) (hc r))
         (add32 (hd s) (hd r)) (add32 (he s) (he r)) (add32 (hf s) (hf r))
         (add32 (hg s) (hg r)) (add32 (hh s) (hh r)).

Definition digest_bytes (s : hstate) : list Z :=
  be_bytes 4 (ha s) ++ be_bytes 4 (hb s) ++ be_bytes 4 (hc s) ++ be_bytes 4 (hd s) ++
  be_bytes 4 (he s) ++ be_bytes 4 (hf s) ++ be_bytes 4 (hg s) ++ be_bytes 4 (hh s).

Definition sha256_bytes (msg : list Z) : list Z :=
  let ws := words (pad msg) in
  digest_bytes (fold_left compress (chunks (List.length ws) ws) H0).

Definition bytes_of_str (s : string) : list Z :=
  map (fun c => Z.of_N (N_of_ascii c)) (list_ascii_of_string s).

Definition str_of_bytes (l : list Z) : string :=
  string_of_list_ascii (map (fun z => ascii_of_N (Z.to_N z)) l).

(** [hashlib.sha256(s).digest()] *)
Definition sha256 (s : string) : string :=
  str_of_bytes (sha256_bytes (bytes_of_str s)).

(** [hmac.new(key, msg, hashlib.sha256).digest()]: a key longer than the
    block is hashed first, then the key is filled with NUL bytes up to the
    block size (64). *)
Definition hmac_bytes (key msg : list Z) : list Z :=
  let key1 := if (64 <? Z.of_nat (List.length key)) then sha256_bytes key else key in
  let key2 := key1 ++ repeat 0 (64 - List.length key1)%nat in
  let inner := sha256_bytes (map (Z.lxor 0x36) key2 ++ msg) in
  sha256_bytes (map (Z.lxor 0x5c) key2 ++ inner).

Definition hmac (key msg : string) : string :=
  str_of_bytes (hmac_bytes (bytes_of_str key) (bytes_of_str msg)).

(** [.hexdigest()]: two lower-case hexadecimal digits for each byte *)
Definition hexdigit (n : N) : ascii :=
  match n with
  | 0 => "0" | 1 => "1" | 2 => "2" | 3 => "3" | 4 => "4" | 5 => "5"
  | 6 => "6" | 7 => "7" | 8 => "8" | 9 => "9" | 10 => "a" | 11 => "b"
  | 12 => "c" | 13 => "d" | 14 => "e" | _ => "f"
  end%N%char.

Fixpoint hexlify (s : string) : string :=
  match s with
  | EmptyString => EmptyString
  | String c r =>
      String (hexdigit (N_of_ascii c / 16)) (String (hexdigit (N_of_ascii c mod 16)) (hexlify r))
  end.

Definition sha256_hexdigest (s : string) : string := hexlify (sha256 s).
Definition hmac_hexdigest (key msg : string) : string := hexlify (hmac key msg).

End Hashlib.

(** ** Python 2 built-ins used by the two modules *)

Module Py.

(** [s.split(sep)] for a one-character separator: never empty, and an
    empty string gives one empty field. *)
Fixpoint split (sep : ascii) (s : string) : list string :=
  match s with
  | EmptyString => [EmptyString]
  | String c r =>
      if Ascii.eqb c sep then EmptyString :: split sep r
      else match split sep r with
           | f :: fs => String c f :: fs
           | [] => [String c EmptyString]
           end
  end.

(** [sep.join(l)] *)
Fixpoint join (sep : string) (l : list string) : string :=
  match l with
  | [] => EmptyString
  | [x] => x
  | x :: r => x ++ sep ++ join sep r
  end.

(** [c in s] for a character [c] *)
Fixpoint contains (c : ascii) (s : string) : bool :=
  match s with
  | EmptyString => false
  | String d r => Ascii.eqb d c || contains c r
  end.

(** [l[i]] *)
Definition index {A : Type} (l : list A) (i : nat) : result A :=
  match l !! i with
  | Some x => Ok x
  | None => Raise IndexError
  end.

(** [s.count(c)] *)
Fixpoint count (c : ascii) (s : string) : nat :=
  match s with
  | EmptyString => 0
  | String d r => (if Ascii.eqb d c then 1 else 0) + count c r
  end.

(** [s.partition(c)]: what precedes the first [c] and what follows it;
    all of [s] and the empty string when there is no [c]. *)
Fixpoint partition (c : ascii) (s : string) : string * string :=
  match s with
  | EmptyString => (EmptyString, EmptyString)
  | String d r =>
      if Ascii.eqb d c then (EmptyString, r)
      else let '(a, b) := partition c r in (String d a, b)
  end.

(** [sorted(l)] on a list of [str]: a merge sort under the comparison of
    [str] values, which is byte-wise lexicographic with a proper prefix
    first ([String.le]). *)
Definition sorted (l : list string) : list string := merge_sort String.le l.

(** [s.encode('utf-8')] on a [str]: Python 2 first decodes the bytes as
    ASCII, which fails on any byte above 127, and then encodes the result,
    which gives the same bytes back. *)
Definition is_ascii (s : string) : bool :=
  forallb (fun c => (N_of_ascii c <? 128)%N) (list_ascii_of_string s).

Definition encode_utf8 (s : string) : result string :=
  if is_ascii s then Ok s else Raise UnicodeDecodeError.

(** ['%s' % n] for a non-negative [int] *)
Definition str_of_N (n : N) : string :=
  NilEmpty.string_of_uint (N.to_uint n).

(** [datetime.datetime] (the fields the adapter prints) *)
Record datetime : Type := Datetime {
  year : N; month : N; day : N; hour : N; minute : N; second : N
}.

(** The range of the fields of a [datetime] object. *)
Definition valid_datetime (t : datetime) : Prop :=
  (1 <= year t <= 9999 /\ 1 <= month t <= 12 /\ 1 <= day t <= 31 /\
   hour t <= 23 /\ minute t <= 59 /\ second t <= 59)%N.

Definition pad2 (n : N) : string :=
  if (n <? 10)%N then "0" ++ str_of_N n else str_of_N n.

Definition directive (d : ascii) (t : datetime) : string :=
  if Ascii.eqb d "Y" then str_of_N (year t)
  else if Ascii.eqb d "m" then pad2 (month t)
  else if Ascii.eqb d "d" then pad2 (day t)
  else if Ascii.eqb d "H" then pad2 (hour t)
  else if Ascii.eqb d "M" then pad2 (minute t)
  else if Ascii.eqb d "S" then pad2 (second t)
  else String "%" (String d EmptyString).

Fixpoint expand (fmt : string) (t : datetime) : string :=
  match fmt with
  | EmptyString => EmptyString
  | String c r =>
      if Ascii.eqb c "%" then
        match r with
        | EmptyString => String c EmptyString
        | String d r' => directive d t ++ expand r' t
        end
      else String c (expand r t)
  end.

(** [t.strftime(fmt)]: Python 2 refuses years before 1900. *)
Definition strftime (t : datetime) (fmt : string) : result string :=
  if (year t <? 1900)%N then Raise ValueError else Ok (expand fmt t).

End Py.

(** ** Objects shared with the caller

    A headers dictionary is a mutable object: the caller and the request
    may hold the same one.  The store maps references to the dictionaries
    they denote. *)

Abbreviation loc := nat (only parsing).
Abbreviation dict := (gmap string string) (only parsing).
Abbreviation store := (gmap nat (gmap string string)) (only parsing).

(** [d.update(other)]: the entries of [other] replace those of [d]. *)
Definition dict_update (d other : dict) : dict := other ∪ d.

(** ** sns.py: class AWSRequest *)

(** What [urlparse.urlparse] returns, as far as the adapter reads it. *)
Record ParseResult : Type := mkParseResult {
  netloc : string;
  path : string
}.

(** The keyword arguments of [AWSRequest(...)].  [service], [region],
    [access_key] and [secret_key] are read with [kwargs[...]] and are
    required; [method], [url] and [headers] are read with [kwargs.get]. *)
Record kwargs : Type := Kwargs {
  kw_service : string;
  kw_region : string;
  kw_access_key : string;
  kw_secret_key : string;
  kw_method : option string;
  kw_url : option string;
  kw_headers : option loc
}.

(** The request that [HTTPRequest.__init__] receives: the rewritten URL,
    the method (tornado's default is GET as well) and the headers object. *)
Record HTTPRequest : Type := mkHTTPRequest {
  req_url : string;
  req_method : string;
  req_headers : loc
}.

(** [sign]: sns.py line 51 *)
Definition sign (key msg : string) : result string :=
  m ← Py.encode_utf8 msg;
  Ok (Hashlib.hmac key m).

(** [getSignatureKey]: sns.py lines 54-59 *)
Definition getSignatureKey (key dateStamp regionName serviceName : string)
  : result string :=
  k0 ← Py.encode_utf8 ("AWS4" ++ key);
  kDate ← sign k0 dateStamp;
  kRegion ← sign kDate regionName;
  kService ← sign kRegion serviceName;
  kSigning ← sign kService "aws4_request";
  Ok kSigning.

Definition newline : string := String (ascii_of_nat 10) EmptyString.

(** The strings built on lines 30-40 of sns.py, each under the name of the
    local variable that holds it. *)
Definition canonical_headers (host amz_date : string) : string :=
  "host:" ++ host ++ newline ++ "x-amz-date:" ++ amz_date ++ newline.

Definition signed_headers : string := "host;x-amz-date".

Definition payload_hash : string := Hashlib.sha256_hexdigest "".

Definition canonical_request
  (method canonical_uri canonical_querystring host amz_date : string) : string :=
  method ++ newline ++ canonical_uri ++ newline ++ canonical_querystring ++ newline ++
  canonical_headers host amz_date ++ newline ++ signed_headers ++ newline ++ payload_hash.

Definition algorithm : string := "AWS4-HMAC-SHA256".

Definition credential_scope (datestamp region service : string) : string :=
  datestamp ++ "/" ++ region ++ "/" ++ service ++ "/" ++ "aws4_request".

Definition string_to_sign (amz_date scope creq : string) : string :=
  algorithm ++ newline ++ amz_date ++ newline ++ scope ++ newline ++
  Hashlib.sha256_hexdigest creq.

(** line 39 *)
Definition signature (signing_key sts : string) : result string :=
  m ← Py.encode_utf8 sts;
  Ok (Hashlib.hmac_hexdigest signing_key m).

(** line 40 *)
Definition authorization_header (access_key scope sig : string) : string :=
  algorithm ++ " " ++ "Credential=" ++ access_key ++ "/" ++ scope ++ ", " ++
  "SignedHeaders=" ++ signed_headers ++ ", " ++ "Signature=" ++ sig.

(** line 18: [kwargs.get('url') or args[0]] *)
Definition resolve_url (args : list string) (kw : kwargs) : result string :=
  match kw_url kw with
  | Some (String c r) => Ok (String c r)
  | _ => Py.index args 0
  end.

(** lines 19-20 *)
Definition canonical_querystring_of (url : string) : result string :=
  q ← Py.index (Py.split "?" url) 1;
  Ok (Py.join "&" (Py.sorted (Py.split "&" q))).

(** line 21 *)
Definition rewritten_url (url cq : string) : result string :=
  base ← Py.index (Py.split "?" url) 0;
  Ok (base ++ "?" ++ cq).

(** lines 46-48: [kwargs.get('headers', {})] is the caller's object when
    one was passed and a new empty dictionary otherwise; [update] then
    changes that object in place. *)
Definition get_headers (h : store) (kw : kwargs) : loc * store :=
  match kw_headers kw with
  | Some l => (l, h)
  | None => let l := fresh (dom h) in (l, <[l := ∅]> h)
  end.

Definition new_headers (amz_date auth : string) : dict :=
  {[ "x-amz-date" := amz_date; "Authorization" := auth ]}.

Section AWSRequest.

(** [urlparse.urlparse] is a library call; [None] stands for the
    [ValueError] it raises on a URL it refuses. *)
Variable urlparse : string -> option ParseResult.

Definition call_urlparse (url : string) : result ParseResult :=
  match urlparse url with
  | Some p => Ok p
  | None => Raise ValueError
  end.

(** [AWSRequest.__init__]: sns.py lines 13-49.  [t] is what
    [datetime.datetime.utcnow()] returned, [h] the store before the call.
    Lines 42-45 delete the four credential entries, so that the superclass
    receives the URL, the method and the headers alone. *)
Definition AWSRequest_init
  (h : store) (t : Py.datetime) (args : list string) (kw : kwargs)
  : result (HTTPRequest * store) :=
  let service := kw_service kw in
  let region := kw_region kw in
  let method := default "GET" (kw_method kw) in
  url ← resolve_url args kw;
  canonical_querystring ← canonical_querystring_of url;
  new_url ← rewritten_url url canonical_querystring;
  parsed_url ← call_urlparse url;
  let host := netloc parsed_url in
  let canonical_uri := path parsed_url in
  amz_date ← Py.strftime t "%Y%m%dT%H%M%SZ";
  datestamp ← Py.strftime t "%Y%m%d";
  let creq := canonical_request method canonical_uri canonical_querystring host amz_date in
  let scope := credential_scope datestamp region service in
  let sts := string_to_sign amz_date scope creq in
  signing_key ← getSignatureKey (kw_secret_key kw) datestamp region service;
  sig ← signature signing_key sts;
  let auth := authorization_header (kw_access_key kw) scope sig in
  let '(l, h1) := get_headers h kw in
  let h2 := alter (fun d => dict_update d (new_headers amz_date auth)) l h1 in
  Ok (mkHTTPRequest new_url method l, h2).

End AWSRequest.

(** ** urlparse

    The library's [urlparse] as CPython 2.7 has it ([urlsplit], then the
    removal of [;parameters]), for the two fields the adapter reads. *)

Module Urlparse.

(** [(s[:i], s[i:])] for the first position [i] whose character satisfies
    [stop], or [(s, "")] when there is none. *)
Fixpoint break (stop : ascii -> bool) (s : string) : string * string :=
  match s with
  | EmptyString => (EmptyString, EmptyString)
  | String c r =>
      if stop c then (EmptyString, s)
      else let '(a, b) := break stop r in (String c a, b)
  end.

Definition tail (s : string) : string :=
  match s with EmptyString => EmptyString | String _ r => r end.

Definition is_digit (c : ascii) : bool :=
  let n := N_of_ascii c in ((48 <=? n) && (n <=? 57))%N.

Definition is_alpha (c : ascii) : bool :=
  let n := N_of_ascii c in
  (((65 <=? n) && (n <=? 90)) || ((97 <=? n) && (n <=? 122)))%N.

Definition scheme_char (c : ascii) : bool :=
  is_alpha c || is_digit c || Ascii.eqb c "+" || Ascii.eqb c "-" || Ascii.eqb c ".".

Definition lower_char (c : ascii) : ascii :=
  let n := N_of_ascii c in
  if ((65 <=? n) && (n <=? 90))%N then ascii_of_N (n + 32) else c.

Fixpoint lower (s : string) : string :=
  match s with
  | EmptyString => EmptyString
  | String c r => String (lower_char c) (lower r)
  end.

Definition all_chars (p : ascii -> bool) (s : string) : bool :=
  forallb p (list_ascii_of_string s).

(** The scheme and what follows it. *)
Definition split_scheme (url : string) : string * string :=
  let '(pre, post) := break (Ascii.eqb ":") url in
  match pre, post with
  | String _ _, String _ rest =>
      if String.eqb pre "http" then ("http", rest)
      else if all_chars scheme_char pre then
        if String.eqb rest "" || negb (all_chars is_digit rest)
        then (lower pre, rest) else ("", url)
      else ("", url)
  | _, _ => ("", url)
  end.

Definition is_netloc_delim (c : ascii) : bool :=
  Ascii.eqb c "/" || Ascii.eqb c "?" || Ascii.eqb c "#".

Definition uses_params : list string :=
  ["ftp"; "hdl"; "prospero"; "http"; "imap"; "https"; "shttp"; "rtsp"; "rtspu";
   "sip"; "sips"; "mms"; ""; "sftp"; "tel"].

(** [_splitparams]: the path up to the first [;] of its last segment. *)
Fixpoint strip_params (p : string) : string :=
  match p with
  | EmptyString => EmptyString
  | String c r =>
      if Ascii.eqb c ";" && negb (Py.contains "/" r) then EmptyString
      else String c (strip_params r)
  end.

Definition urlparse (url : string) : option ParseResult :=
  let '(scheme, rest) := split_scheme url in
  let '(nl, rest1) :=
    match rest with
    | String "/" (String "/" r) => break is_netloc_delim r
    | _ => (EmptyString, rest)
    end in
  if (Py.contains "[" nl && negb (Py.contains "]" nl)) ||
     (Py.contains "]" nl && negb (Py.contains "[" nl))
  then None
  else
    let p1 := fst (break (Ascii.eqb "#") rest1) in
    let p2 := fst (break (Ascii.eqb "?") p1) in
    let p3 := if existsb (String.eqb scheme) uses_params && Py.contains ";" p2
              then strip_params p2 else p2 in
    Some (mkParseResult nl p3).

End Urlparse.

(** ** urllib and tornado.httputil *)

Module Urllib.

Definition always_safe (c : ascii) : bool :=
  Urlparse.is_alpha c || Urlparse.is_digit c ||
  Ascii.eqb c "_" || Ascii.eqb c "." || Ascii.eqb c "-".

Definition upper_hexdigit (n : N) : ascii :=
  match n with
  | 0 => "0" | 1 => "1" | 2 => "2" | 3 => "3" | 4 => "4" | 5 => "5"
  | 6 => "6" | 7 => "7" | 8 => "8" | 9 => "9" | 10 => "A" | 11 => "B"
  | 12 => "C" | 13 => "D" | 14 => "E" | _ => "F"
  end%N%char.

(** [quote_plus(s)]: a safe character stays, a space becomes [+], any
    other byte becomes [%XX]. *)
Fixpoint quote_plus (s : string) : string :=
  match s with
  | EmptyString => EmptyString
  | String c r =>
      if always_safe c then String c (quote_plus r)
      else if Ascii.eqb c " " then String "+" (quote_plus r)
      else String "%" (String (upper_hexdigit (N_of_ascii c / 16))
                      (String (upper_hexdigit (N_of_ascii c mod 16)) (quote_plus r)))
  end.

Definition pair_token (kv : string * string) : string :=
  quote_plus (fst kv) ++ "=" ++ quote_plus (snd kv).

(** [urlencode(items)] *)
Definition urlencode (items : list (string * string)) : string :=
  Py.join "&" (map pair_token items).

Fixpoint last_char (s : string) : option ascii :=
  match s with
  | EmptyString => None
  | String c EmptyString => Some c
  | String _ r => last_char r
  end.

(** tornado 4's [url_concat(url, args)], on the items of [args] *)
Definition url_concat (url : string) (items : list (string * string)) : result string :=
  match items with
  | [] => Ok url
  | _ =>
      match last_char url with
      | None => Raise IndexError
      | Some c =>
          let url1 :=
            if Ascii.eqb c "?" || Ascii.eqb c "&" then url
            else url ++ (if Py.contains "?" url then "&" else "?") in
          Ok (url1 ++ urlencode items)
      end
  end.

End Urllib.

(** ** sqs.py: class SQS

    [sqs.py] takes [AWSRequest] from a module [core] that holds the class
    of [sns.py]. *)

(** An [lxml.objectify] element: its tag, its text and its children. *)
#[warnings="-register-all"]
Inductive element : Type :=
  | Element (tag : string) (text : option string) (children : list element).

Definition tag_of (e : element) : string := let 'Element t _ _ := e in t.
Definition text_of (e : element) : option string := let 'Element _ x _ := e in x.
Definition children_of (e : element) : list element := let 'Element _ _ c := e in c.

(** [e.name] for all the children of that name (an objectify child is
    iterable over its siblings of the same tag) *)
Definition children_named (name : string) (e : element) : list element :=
  filter (fun c => tag_of c = name) (children_of e).

(** [hasattr(e, name)] *)
Definition hasattr (e : element) (name : string) : bool :=
  match children_named name e with [] => false | _ :: _ => true end.

(** [e.name]: the first child of that name *)
Definition getattr (e : element) (name : string) : result element :=
  match children_named name e with
  | [] => Raise AttributeError
  | c :: _ => Ok c
  end.

(** [e == '']: true of a leaf without text, which objectify makes a
    [StringElement] whose value is the empty string. *)
Definition eq_empty_str (e : element) : bool :=
  match children_of e, text_of e with
  | [], None => true
  | [], Some EmptyString => true
  | _, _ => false
  end.

(** What [SQS.parse] returns. *)
Inductive parsed : Type :=
  | PNone
  | PStr (s : string)
  | PAttributes (d : gmap string string)
  | PMessage (Body MD5OfBody ReceiptHandle : option string)
             (Attributes : gmap string (option string)).

(** The keys of [response_mapping]. *)
Inductive shape : Type :=
  | CreateQueueResult
  | GetQueueAttributesResult
  | ReceiveMessageResult.

Definition shape_key (k : shape) : string :=
  match k with
  | CreateQueueResult => "CreateQueueResult"
  | GetQueueAttributesResult => "GetQueueAttributesResult"
  | ReceiveMessageResult => "ReceiveMessageResult"
  end.

(** A key of the [attributes] mapping of [create_queue], as the tuple
    unpacking on line 159 sees it. *)
Inductive pykey : Type :=
  | KStr (s : string)
  | KTuple (l : list string)
  | KInt (n : Z).

(** [(key, value) = k] *)
Definition unpack2 (k : pykey) : result (string * string) :=
  match k with
  | KStr (String a (String b EmptyString)) =>
      Ok (String a EmptyString, String b EmptyString)
  | KStr _ => Raise ValueError
  | KTuple [a; b] => Ok (a, b)
  | KTuple _ => Raise ValueError
  | KInt _ => Raise TypeError
  end.

Record SQS : Type := mkSQS {
  region : string;
  access_key : string;
  secret_key : string;
  service : string;
  common_params : gmap string string
}.

(** [SQS.__init__]: lines 10-18 *)
Definition SQS_init (access_key secret_key region : string) : SQS :=
  mkSQS region access_key secret_key "sqs" {[ "Version" := "2012-11-05" ]}.

(** One step of the loop of [create_queue] (lines 159-161). *)
Definition create_queue_step
  (acc : result (gmap string string)) (ik : nat * pykey)
  : result (gmap string string) :=
  params ← acc;
  '(key, value) ← unpack2 (snd ik);
  let i := Py.str_of_N (N.of_nat (fst ik)) in
  Ok (<["Attribute." ++ i ++ ".Value" := value]>
        (<["Attribute." ++ i ++ ".Name" := key]> params)).

Section SQS.

Variable urlparse : string -> option ParseResult.

(** [lxml.objectify.fromstring]; [None] stands for its [XMLSyntaxError]. *)
Variable fromstring : string -> option element.

(** [str(e)] of an objectify element, which depends on the data type the
    library infers for it: the string it gives, or the [UnicodeEncodeError]
    that Python 2 raises when the element's text is not ASCII. *)
Variable element_str : element -> result string.

(** The order in which [d.items()] enumerates a dictionary, and the order
    of [response_mapping.items()]. *)
Variable dict_items : gmap string string -> list (string * string).
Variable response_mapping_items : list shape.

(** lines 40-45 *)
Definition _parse_GetQueueAttributesResult (root : element) : result parsed :=
  r ← getattr root "GetQueueAttributesResult";
  _ ← getattr r "Attribute";
  d ← foldl (fun acc attr =>
               result ← acc;
               value ← getattr attr "Value";
               v ← element_str value;
               name ← getattr attr "Name";
               n ← element_str name;
               Ok (<[n := v]> result))
            (Ok ∅) (children_named "Attribute" r);
  Ok (PAttributes d).

(** lines 47-60 *)
Definition _parse_ReceiveMessageResult (root : element) : result parsed :=
  r ← getattr root "ReceiveMessageResult";
  if eq_empty_str r then Ok PNone
  else
    message ← getattr r "Message";
    body ← getattr message "Body";
    md5 ← getattr message "MD5OfBody";
    receipt ← getattr message "ReceiptHandle";
    _ ← getattr message "Attribute";
    attrs ← foldl (fun acc attr =>
                     d ← acc;
                     value ← getattr attr "Value";
                     name ← getattr attr "Name";
                     n ← element_str name;
                     Ok (<[n := text_of value]> d))
                  (Ok ∅) (children_named "Attribute" message);
    Ok (PMessage (text_of body) (text_of md5) (text_of receipt) attrs).

(** line 63 *)
Definition _parse_CreateQueueResult (root : element) : result parsed :=
  r ← getattr root "CreateQueueResult";
  u ← getattr r "QueueUrl";
  s ← element_str u;
  Ok (PStr s).

Definition extract_func (k : shape) : element -> result parsed :=
  match k with
  | CreateQueueResult => _parse_CreateQueueResult
  | GetQueueAttributesResult => _parse_GetQueueAttributesResult
  | ReceiveMessageResult => _parse_ReceiveMessageResult
  end.

(** lines 68-71 *)
Fixpoint dispatch (items : list shape) (root : element) : result parsed :=
  match items with
  | [] => Ok PNone
  | k :: rest =>
      if hasattr root (shape_key k) then extract_func k root
      else dispatch rest root
  end.

(** [SQS.parse]: lines 21-71, on [response.body] *)
Definition parse (body : string) : result parsed :=
  match fromstring body with
  | None => Raise XMLSyntaxError
  | Some root => dispatch response_mapping_items root
  end.

(** The call [AWSRequest(full_url, service=..., region=..., access_key=...,
    secret_key=...)] that every operation ends with. *)
Definition signed_request (self : SQS) (h : store) (t : Py.datetime) (full_url : string)
  : result (HTTPRequest * store) :=
  AWSRequest_init urlparse h t [full_url]
    (Kwargs (service self) (region self) (access_key self) (secret_key self)
            None None None).

(** lines 155-165: the parameters of [create_queue]; [attributes] is the
    mapping as the list of its items, of which the loop reads the keys. *)
Definition create_queue_params
  (self : SQS) (queue_name : string) (attributes : list (pykey * string))
  : result (gmap string string) :=
  let params : gmap string string :=
    {[ "Action" := "CreateQueue"; "QueueName" := queue_name ]} in
  params ← foldl create_queue_step (Ok params)
                 (imap (fun i kv => (i, fst kv)) attributes);
  Ok (dict_update params (common_params self)).

(** [SQS.create_queue]: lines 145-170, up to the request given to [fetch] *)
Definition create_queue
  (self : SQS) (h : store) (t : Py.datetime)
  (queue_name : string) (attributes : list (pykey * string))
  : result (HTTPRequest * store) :=
  params ← create_queue_params self queue_name attributes;
  let url := "http://" ++ service self ++ "." ++ region self ++ ".amazonaws.com/" in
  full_url ← Urllib.url_concat url (dict_items params);
  signed_request self h t full_url.

(** lines 208-214 *)
Definition get_queue_attributes_params (self : SQS) (attributes : list string)
  : gmap string string :=
  let params : gmap string string := {[ "Action" := "GetQueueAttributes" ]} in
  let params :=
    foldl (fun params ia =>
             <["AttributeName." ++ Py.str_of_N (N.of_nat (fst ia + 1)) := snd ia]> params)
          params (imap (fun i a => (i, a)) attributes) in
  dict_update params (common_params self).

(** [SQS.get_queue_attributes]: lines 192-219 *)
Definition get_queue_attributes
  (self : SQS) (h : store) (t : Py.datetime)
  (queue_url : string) (attributes : list string)
  : result (HTTPRequest * store) :=
  let params := get_queue_attributes_params self attributes in
  full_url ← Urllib.url_concat queue_url (dict_items params);
  signed_request self h t full_url.

(** lines 230-237: [attributes] is the list [attributes.items()] *)
Definition set_queue_attributes_params
  (self : SQS) (attributes : list (string * string)) : gmap string string :=
  let params : gmap string string := {[ "Action" := "SetQueueAttributes" ]} in
  let params :=
    foldl (fun params kv =>
             <["Attribute.Value" := snd kv]> (<["Attribute.Name" := fst kv]> params))
          params attributes in
  dict_update params (common_params self).

(** [SQS.set_queue_attributes]: lines 221-242 *)
Definition set_queue_attributes
  (self : SQS) (h : store) (t : Py.datetime)
  (queue_url : string) (attributes : list (string * string))
  : result (HTTPRequest * store) :=
  let params := set_queue_attributes_params self attributes in
  full_url ← Urllib.url_concat queue_url (dict_items params);
  signed_request self h t full_url.

End SQS.

(** ** The specification's components, in the specification's words *)

(** CanonicalRequestBuilder, steps 1 and 2: split the URL on the first
    [?], split the raw query string on [&], sort the tokens as whole
    strings, rejoin with [&]. *)
Definition CanonicalRequestBuilder_querystring (url : string) : string :=
  let raw := snd (Py.partition "?" url) in
  Py.join "&" (Py.sorted (Py.split "&" raw)).

Definition CanonicalRequestBuilder_url (url : string) : string :=
  fst (Py.partition "?" url) ++ "?" ++ CanonicalRequestBuilder_querystring url.

(** SigningKeyDeriver *)
Definition HMAC_SHA256 (key msg : string) : string := Hashlib.hmac key msg.

Definition SigningKeyDeriver_derive (secret date region service : string) : string :=
  let kDate := HMAC_SHA256 ("AWS4" ++ secret) date in
  let kRegion := HMAC_SHA256 kDate region in
  let kService := HMAC_SHA256 kRegion service in
  let kSigning := HMAC_SHA256 kService "aws4_request" in
  kSigning.



(** ** Sample inputs *)

Definition t0 : Py.datetime := Py.Datetime 2015 8 30 12 36 0.

Definition kw0 : kwargs :=
  Kwargs "sqs" "us-east-1" "AKIDEXAMPLE" "wJalrXUtnFEMI/K7MDENG+bPxRfiCYEXAMPLEKEY"
         None None None.

(** The text that is signed in a call, from the values the call computes. *)
Definition signed_text (kw : kwargs) (url pu_host pu_path cq amz ds : string) : string :=
  string_to_sign amz (credential_scope ds (kw_region kw) (kw_service kw))
    (canonical_request (default "GET" (kw_method kw)) pu_path cq pu_host amz).

(** The reference passed as [headers], if any, denotes a dictionary of the
    store. *)
Definition headers_ok (h : store) (kw : kwargs) : Prop :=
  match kw_headers kw with
  | Some l => is_Some (h !! l)
  | None => True
  end.

(** The header [name] of a request. *)
Definition header (h : store) (r : HTTPRequest) (name : string) : option string :=
  d ← h !! req_headers r; d !! name.

(** The compact form YYYYMMDDThhmmssZ, digit by digit. *)
Definition digit (n : N) : ascii := ascii_of_N (48 + n mod 10).

Definition digits2 (n : N) : string :=
  String (digit (n / 10)) (String (digit n) EmptyString).

Definition digits4 (n : N) : string :=
  String (digit (n / 1000)) (String (digit (n / 100)) (digits2 n)).

Definition YYYYMMDD (t : Py.datetime) : string :=
  digits4 (Py.year t) ++ digits2 (Py.month t) ++ digits2 (Py.day t).

Definition YYYYMMDDThhmmssZ (t : Py.datetime) : string :=
  YYYYMMDD t ++ "T" ++
  digits2 (Py.hour t) ++ digits2 (Py.minute t) ++ digits2 (Py.second t) ++ "Z".

Definition is_hexdigit (c : ascii) : bool :=
  Urlparse.is_digit c ||
  (let n := N_of_ascii c in (97 <=? n) && (n <=? 102))%N.

(** A caller that passes its own, empty, headers dictionary. *)
Definition h_caller : store := {[ 0 := ∅ ]}.

Definition kw_caller : kwargs :=
  Kwargs "sqs" "us-east-1" "AKIDEXAMPLE" "wJalrXUtnFEMI/K7MDENG+bPxRfiCYEXAMPLEKEY"
         None None (Some 0).

Definition url0 : string := "http://sqs.us-east-1.amazonaws.com/1/q?B=2&A=1".

(** ** What a signature depends on *)

(** The values that lines 30-39 of sns.py sign. *)
Record signing_input : Type := SigningInput {
  si_secret_key : string;
  si_datestamp : string;
  si_amz_date : string;
  si_region : string;
  si_service : string;
  si_method : string;
  si_canonical_uri : string;
  si_canonical_querystring : string;
  si_host : string
}.

Definition si_canonical_request (i : signing_input) : string :=
  canonical_request (si_method i) (si_canonical_uri i) (si_canonical_querystring i)
                    (si_host i) (si_amz_date i).

Definition si_string_to_sign (i : signing_input) : string :=
  string_to_sign (si_amz_date i)
    (credential_scope (si_datestamp i) (si_region i) (si_service i))
    (si_canonical_request i).

(** Lines 38 and 39 on these values. *)
Definition request_signature (i : signing_input) : result string :=
  signing_key ← getSignatureKey (si_secret_key i) (si_datestamp i)
                                (si_region i) (si_service i);
  signature signing_key (si_string_to_sign i).





(** The same call with another access key. *)
Definition with_access_key (ak : string) (kw : kwargs) : kwargs :=
  Kwargs (kw_service kw) (kw_region kw) ak (kw_secret_key kw)
         (kw_method kw) (kw_url kw) (kw_headers kw).





(** A secret key and the same key followed by a NUL byte. *)
Definition secret_a : string := "wJalrXUtnFEMI/K7MDENG+bPxRfiCYEXAMPLEKEY".



(** The values a call signs, from its keyword arguments and what it computed. *)
Definition signing_input_of (kw : kwargs) (pu : ParseResult) (cq amz ds : string)
  : signing_input :=
  SigningInput (kw_secret_key kw) ds amz (kw_region kw) (kw_service kw)
               (default "GET" (kw_method kw)) (path pu) cq (netloc pu).

(** ** Sample responses *)

(** The order in which CPython 2 enumerates the three keys of
    [response_mapping]. *)
Definition response_mapping_items_cpython : list shape :=
  [ReceiveMessageResult; GetQueueAttributesResult; CreateQueueResult].

Definition body_empty_receive : string :=
  "<ReceiveMessageResponse><ReceiveMessageResult/></ReceiveMessageResponse>".

Definition root_empty_receive : element :=
  Element "ReceiveMessageResponse" None [Element "ReceiveMessageResult" None []].

Definition body_delete : string :=
  "<DeleteMessageResponse><ResponseMetadata/></DeleteMessageResponse>".

Definition root_delete : element :=
  Element "DeleteMessageResponse" None [Element "ResponseMetadata" None []].

(** A parser that knows the two sample bodies and refuses what is not one
    of them, as the library refuses the empty body. *)
Definition fromstring_sample (body : string) : option element :=
  if String.eqb body body_empty_receive then Some root_empty_receive
  else if String.eqb body body_delete then Some root_delete
  else None.

(** [str(e)] of an element that objectify types as a string: its text,
    when the text is ASCII. *)
Definition element_str_sample (e : element) : result string :=
  let s := default "" (text_of e) in
  if Py.is_ascii s then Ok s else Raise UnicodeEncodeError.

(** The query parameters that [set_queue_attributes] puts in the URL. *)
Definition set_queue_attributes_tokens (attributes : list (string * string))
  : list string :=
  "Action=SetQueueAttributes" :: "Version=2012-11-05" ::
  match last attributes with
  | None => []
  | Some (k, v) =>
      ["Attribute.Name=" ++ Urllib.quote_plus k;
       "Attribute.Value=" ++ Urllib.quote_plus v]
  end.

(** Sample arguments of the SQS operations. *)
Definition sqs0 : SQS := SQS_init "AKIDEXAMPLE" secret_a "us-east-1".

Definition queue_url0 : string := "http://sqs.us-east-1.amazonaws.com/1/q".

Definition attributes0 : list (string * string) :=
  [("VisibilityTimeout", "30"); ("DelaySeconds", "5")].

(** A dictionary enumerated in the order of [map_to_list]. *)
Definition dict_items_sample (m : gmap string string) : list (string * string) :=
  map_to_list m.

(** The length of a key of [attributes] as a sequence, if it is one. *)
Definition key_len (k : pykey) : option nat :=
  match k with
  | KStr s => Some (String.length s)
  | KTuple l => Some (List.length l)
  | KInt _ => None
  end.

(** The names of the indexed parameters. *)
Definition Attribute_Name (i : nat) : string :=
  "Attribute." ++ Py.str_of_N (N.of_nat i) ++ ".Name".
Definition Attribute_Value (i : nat) : string :=
  "Attribute." ++ Py.str_of_N (N.of_nat i) ++ ".Value".
Definition AttributeName (i : nat) : string :=
  "AttributeName." ++ Py.str_of_N (N.of_nat i).

(** Attributes whose one key is a name, as a caller would write them. *)
Definition attributes_named : list (pykey * string) :=
  [(KStr "VisibilityTimeout", "30")].

(** Attributes whose keys are pairs. *)
Definition attributes_pairs : list (pykey * string) :=
  [(KTuple ["VisibilityTimeout"; "30"], "x"); (KStr "ab", "y")].

(** ** The other operations of sqs.py and sns.py

    A parameter dictionary holds [str] and [int] values; [urlencode] applies
    [str] to each, so a dictionary is modelled with the [str] of its values. *)

(** [str(n)] for an [int] *)
Definition str_of_Z (z : Z) : string :=
  if (z <? 0)%Z then "-" ++ Py.str_of_N (Z.abs_N z) else Py.str_of_N (Z.to_N z).

(** [SNS]: sns.py lines 62-67 *)
Record SNS : Type := mkSNS {
  sns_region : string;
  sns_access_key : string;
  sns_secret_key : string
}.

Section Operations.

Variable urlparse : string -> option ParseResult.
Variable dict_items : gmap string string -> list (string * string).

(** lines 90-97 *)
Definition listen_queue_params
  (self : SQS) (wait_time max_messages visibility_timeout : Z)
  : gmap string string :=
  let params : gmap string string :=
    {[ "Action" := "ReceiveMessage";
       "WaitTimeSeconds" := str_of_Z wait_time;
       "MaxNumberOfMessages" := str_of_Z max_messages;
       "VisibilityTimeout" := str_of_Z visibility_timeout;
       "AttributeName" := "All" ]} in
  dict_update params (common_params self).

(** [SQS.listen_queue]: lines 73-102, up to the request given to [fetch] *)
Definition listen_queue
  (self : SQS) (h : store) (t : Py.datetime) (queue_uri : string)
  (wait_time max_messages visibility_timeout : Z)
  : result (HTTPRequest * store) :=
  let params := listen_queue_params self wait_time max_messages visibility_timeout in
  full_url ← Urllib.url_concat queue_uri (dict_items params);
  signed_request urlparse self h t full_url.

(** lines 113-117 *)
Definition send_message_params (self : SQS) (message_body : string)
  : gmap string string :=
  let params : gmap string string :=
    {[ "Action" := "SendMessage"; "MessageBody" := message_body ]} in
  dict_update params (common_params self).

(** [SQS.send_message]: lines 104-122 *)
Definition send_message
  (self : SQS) (h : store) (t : Py.datetime) (queue_url message_body : string)
  : result (HTTPRequest * store) :=
  let params := send_message_params self message_body in
  full_url ← Urllib.url_concat queue_url (dict_items params);
  signed_request urlparse self h t full_url.

(** lines 134-138 *)
Definition delete_message_params (self : SQS) (receipt_handle : string)
  : gmap string string :=
  let params : gmap string string :=
    {[ "Action" := "DeleteMessage"; "ReceiptHandle" := receipt_handle ]} in
  dict_update params (common_params self).

(** [SQS.delete_message]: lines 124-143 *)
Definition delete_message
  (self : SQS) (h : store) (t : Py.datetime) (queue_url receipt_handle : string)
  : result (HTTPRequest * store) :=
  let params := delete_message_params self receipt_handle in
  full_url ← Urllib.url_concat queue_url (dict_items params);
  signed_request urlparse self h t full_url.

(** lines 182-185 *)
Definition delete_queue_params (self : SQS) : gmap string string :=
  let params : gmap string string := {[ "Action" := "DeleteQueue" ]} in
  dict_update params (common_params self).

(** [SQS.delete_queue]: lines 172-190 *)
Definition delete_queue
  (self : SQS) (h : store) (t : Py.datetime) (queue_url : string)
  : result (HTTPRequest * store) :=
  let params := delete_queue_params self in
  full_url ← Urllib.url_concat queue_url (dict_items params);
  signed_request urlparse self h t full_url.

(** sns.py lines 70-76 *)
Definition create_topic_params (name : string) : gmap string string :=
  {[ "Name" := name;
     "Action" := "CreateTopic";
     "Version" := "2010-03-31";
     "SignatureMethod" := "HmacSHA256";
     "SignatureVersion" := str_of_Z 4 ]}.

(** [SNS.create_topic]: sns.py lines 69-84, up to the request given to
    [fetch] *)
Definition create_topic
  (self : SNS) (h : store) (t : Py.datetime) (name : string)
  : result (HTTPRequest * store) :=
  let params := create_topic_params name in
  let url := "http://sns." ++ sns_region self ++ ".amazonaws.com/" in
  full_url ← Urllib.url_concat url (dict_items params);
  AWSRequest_init urlparse h t [full_url]
    (Kwargs "sns" (sns_region self) (sns_access_key self) (sns_secret_key self)
            None None None).

End Operations.

(** ** Variants of a call *)

(** The same call with another [headers] argument, or none. *)
Definition with_headers (l : option loc) (kw : kwargs) : kwargs :=
  Kwargs (kw_service kw) (kw_region kw) (kw_access_key kw) (kw_secret_key kw)
         (kw_method kw) (kw_url kw) l.

(** A second later than [t0]. *)
Definition t0_later : Py.datetime := Py.Datetime 2015 8 30 12 36 1.

(** A sample SNS client. *)
Definition sns0 : SNS := mkSNS "us-east-1" "AKIDEXAMPLE" secret_a.

(** A parameter dictionary that holds the given [Action] and the API
    version of [common_params]. *)
Definition action_version (params : gmap string string) (action : string) : Prop :=
  params !! "Action" = Some action /\ params !! "Version" = Some "2012-11-05".

(** [urllib.unquote_plus], which undoes [quote_plus] on the receiving
    side. *)
Definition unhexdigit_upper (c : ascii) : N :=
  if Urlparse.is_digit c then N_of_ascii c - 48 else N_of_ascii c - 55.

Fixpoint unquote_plus (s : string) : string :=
  match s with
  | EmptyString => EmptyString
  | String c r =>
      if Ascii.eqb c "+" then String " " (unquote_plus r)
      else if Ascii.eqb c "%" then
        match r with
        | String a (String b r') =>
            String (ascii_of_N (16 * unhexdigit_upper a + unhexdigit_upper b))
                   (unquote_plus r')
        | _ => s
        end
      else String c (unquote_plus r)
  end.

(** The query parameters that [get_queue_attributes] puts in the URL. *)
Definition get_queue_attributes_tokens (attributes : list string) : list string :=
  "Action=GetQueueAttributes" :: "Version=2012-11-05" ::
  imap (fun i a => AttributeName (i + 1) ++ "=" ++ Urllib.quote_plus a) attributes.

(** ** More sample responses *)

Definition root_create_queue : element :=
  Element "CreateQueueResponse" None
    [Element "CreateQueueResult" None
       [Element "QueueUrl" (Some "http://sqs.us-east-1.amazonaws.com/1/q") []];
     Element "ResponseMetadata" None []].

Definition attribute_element (name value : string) : element :=
  Element "Attribute" None
    [Element "Name" (Some name) []; Element "Value" (Some value) []].

Definition result_attributes : element :=
  Element "GetQueueAttributesResult" None
    [attribute_element "VisibilityTimeout" "30";
     attribute_element "DelaySeconds" "0";
     attribute_element "VisibilityTimeout" "45"].

Definition root_attributes : element :=
  Element "GetQueueAttributesResponse" None [result_attributes].

Definition message_element (body : string) : element :=
  Element "Message" None
    [Element "Body" (Some body) [];
     Element "MD5OfBody" (Some "5d41402abc4b2a76b9719d911017c592") [];
     Element "ReceiptHandle" (Some "AQEB") [];
     attribute_element "SenderId" "1"].

Definition result_one_message : element :=
  Element "ReceiveMessageResult" None [message_element "hello"].

Definition result_two_messages : element :=
  Element "ReceiveMessageResult" None [message_element "hello"; message_element "bye"].

Definition root_one_message : element :=
  Element "ReceiveMessageResponse" None [result_one_message].

Definition root_two_messages : element :=
  Element "ReceiveMessageResponse" None [result_two_messages].

(** The query parameters that [create_queue] puts in the URL, from the
    pairs its loop unpacked. *)
Definition create_queue_tokens (queue_name : string) (pairs : list (string * string))
  : list string :=
  "Action=CreateQueue" :: ("QueueName=" ++ Urllib.quote_plus queue_name) ::
  "Version=2012-11-05" ::
  concat (imap (fun i kv => [Attribute_Name i ++ "=" ++ Urllib.quote_plus (fst kv);
                             Attribute_Value i ++ "=" ++ Urllib.quote_plus (snd kv)])
               pairs).



(** * Properties *)

(** ** Test vectors of the digests *)

Example sha256_empty :
  Hashlib.sha256_hexdigest "" =
  "e3b0c44298fc1c149afbf4c8996fb92427ae41e4649b934ca495991b7852b855".
Proof. vm_compute. reflexivity. Qed.

Example sha256_abc :
  Hashlib.sha256_hexdigest "abc" =
  "ba7816bf8f01cfea414140de5dae2223b00361a396177a9cb410ff61f20015ad".
Proof. vm_compute. reflexivity. Qed.

(** The key-derivation vector of the vendor's signing documentation, as a
    check of the two primitives together. *)
Example hmac_chain_vector :
  Hashlib.hexlify
    (Hashlib.hmac (Hashlib.hmac (Hashlib.hmac (Hashlib.hmac
       "AWS4wJalrXUtnFEMI/K7MDENG+bPxRfiCYEXAMPLEKEY" "20150830")
       "us-east-1") "iam") "aws4_request") =
  "c4afb1cc5771d871763a393e44b703571b55cc28424d1a5e86da6ed3c154a4b9".
Proof. vm_compute. reflexivity. Qed.

(** ** The size of a digest *)

Lemma length_str_of_bytes l :
  String.length (Hashlib.str_of_bytes l) = List.length l.
Proof.
  unfold Hashlib.str_of_bytes. induction l as [|z l IH]; simpl; [done|].
  by rewrite IH.
Qed.

Lemma length_be_bytes w x : List.length (Hashlib.be_bytes w x) = w.
Proof. induction w as [|w IH]; simpl; [done|]. by rewrite IH. Qed.

Lemma length_digest_bytes s : List.length (Hashlib.digest_bytes s) = 32.
Proof.
  unfold Hashlib.digest_bytes. rewrite !length_app, !length_be_bytes. done.
Qed.


Lemma length_hmac key msg : String.length (Hashlib.hmac key msg) = 32.
Proof.
  unfold Hashlib.hmac, Hashlib.hmac_bytes, Hashlib.sha256_bytes.
  by rewrite length_str_of_bytes, length_digest_bytes.
Qed.

(** From here on the digests are evaluated by [vm_compute] only; everywhere
    else they are kept folded. *)
#[global] Opaque Hashlib.hmac Hashlib.sha256.

(** ** Strings *)

Lemma contains_count c s : Py.contains c s = false <-> Py.count c s = 0.
Proof.
  induction s as [|d r IH]; simpl; [done|].
  destruct (Ascii.eqb d c); simpl; [split; discriminate | exact IH].
Qed.

Lemma partition_app c s :
  Py.contains c s = true ->
  s = fst (Py.partition c s) ++ String c (snd (Py.partition c s)).
Proof.
  induction s as [|d r IH]; simpl; [discriminate|].
  destruct (Ascii.eqb_spec d c) as [->|Hne]; simpl; [done|].
  intros H. destruct (Py.partition c r) as [a b]; simpl in *.
  change (String d r = String d (a ++ String c b)). by rewrite <- (IH H).
Qed.

Lemma partition_fst_count c s : Py.count c (fst (Py.partition c s)) = 0.
Proof.
  induction s as [|d r IH]; simpl; [done|].
  destruct (Ascii.eqb d c) eqn:E; simpl; [done|].
  destruct (Py.partition c r) as [a b]; simpl in *. by rewrite E.
Qed.

Lemma partition_snd_count c s :
  Py.contains c s = true ->
  Py.count c s = S (Py.count c (snd (Py.partition c s))).
Proof.
  induction s as [|d r IH]; simpl; [discriminate|].
  destruct (Ascii.eqb d c) eqn:E; simpl; [done|].
  intros H. destruct (Py.partition c r) as [a b]; simpl in *. by apply IH.
Qed.

Lemma split_no_sep c s : Py.contains c s = false -> Py.split c s = [s].
Proof.
  induction s as [|d r IH]; simpl; [done|].
  destruct (Ascii.eqb d c); simpl; [discriminate|].
  intros H. by rewrite IH.
Qed.

(** [split] cuts at the first separator and goes on in the rest. *)
Lemma split_partition c s :
  Py.contains c s = true ->
  Py.split c s = fst (Py.partition c s) :: Py.split c (snd (Py.partition c s)).
Proof.
  induction s as [|d r IH]; simpl; [discriminate|].
  destruct (Ascii.eqb d c) eqn:E; simpl; [done|].
  intros H. rewrite (IH H).
  destruct (Py.partition c r) as [a b]; done.
Qed.

Lemma split_once c s :
  Py.count c s = 1 ->
  Py.split c s = [fst (Py.partition c s); snd (Py.partition c s)].
Proof.
  intros H.
  assert (Hc : Py.contains c s = true).
  { destruct (Py.contains c s) eqn:E; [done|].
    apply contains_count in E. congruence. }
  rewrite (split_partition _ _ Hc). f_equal.
  apply split_no_sep, contains_count.
  pose proof (partition_snd_count _ _ Hc). lia.
Qed.

Lemma sorted_Permutation l : Py.sorted l ≡ₚ l.
Proof. apply merge_sort_Permutation. Qed.

Lemma sorted_StronglySorted l : StronglySorted String.le (Py.sorted l).
Proof. apply (StronglySorted_merge_sort String.le). Qed.

(** ** Fallible computations *)

Lemma bind_Ok {A B : Type} (r : result A) (k : A -> result B) (b : B) :
  (r ≫= k) = Ok b <-> exists a, r = Ok a /\ k a = Ok b.
Proof.
  destruct r as [a|e]; simpl; split.
  - intros H. by exists a.
  - by intros (a' & [= <-] & H).
  - discriminate.
  - by intros (a' & [=] & _).
Qed.


Lemma bind_Ok_l {A B : Type} (a : A) (k : A -> result B) : (Ok a ≫= k) = k a.
Proof. reflexivity. Qed.

Lemma bind_Raise_l {A B : Type} (e : exn) (k : A -> result B) :
  (Raise e ≫= k) = Raise e.
Proof. reflexivity. Qed.

(** Splits a hypothesis [x ← r; k = Ok b] into [r = Ok a] and [k a = Ok b]. *)
Ltac bind_inv H :=
  let a := fresh "a" in
  let Ha := fresh "H" a in
  apply bind_Ok in H; destruct H as (a & Ha & H).

(** ** AWSRequest.__init__, step by step *)

Section AWSRequest_facts.

Variable urlparse : string -> option ParseResult.

Lemma AWSRequest_init_Ok h t args kw r h' :
  AWSRequest_init urlparse h t args kw = Ok (r, h') ->
  exists url cq new_url pu amz ds key sig,
    resolve_url args kw = Ok url /\
    canonical_querystring_of url = Ok cq /\
    rewritten_url url cq = Ok new_url /\
    urlparse url = Some pu /\
    Py.strftime t "%Y%m%dT%H%M%SZ" = Ok amz /\
    Py.strftime t "%Y%m%d" = Ok ds /\
    getSignatureKey (kw_secret_key kw) ds (kw_region kw) (kw_service kw) = Ok key /\
    signature key (signed_text kw url (netloc pu) (path pu) cq amz ds) = Ok sig /\
    r = mkHTTPRequest new_url (default "GET" (kw_method kw)) (fst (get_headers h kw)) /\
    h' = alter (fun d => dict_update d
                  (new_headers amz
                     (authorization_header (kw_access_key kw)
                        (credential_scope ds (kw_region kw) (kw_service kw)) sig)))
               (fst (get_headers h kw)) (snd (get_headers h kw)).
Proof.
  unfold AWSRequest_init. intros H.
  bind_inv H. bind_inv H. bind_inv H. bind_inv H.
  bind_inv H. bind_inv H. bind_inv H. bind_inv H.
  unfold call_urlparse in *. destruct (urlparse a) as [pu|] eqn:Hpu; [|done].
  destruct (get_headers h kw) as [l h1] eqn:Hg.
  injection H as <- <-. injection Ha2 as <-.
  exists a, a0, a1, pu, a3, a4, a5, a6. simpl. done.
Qed.

End AWSRequest_facts.

(** ** Encoding and the digests *)

Lemma is_ascii_app a b : Py.is_ascii (a ++ b) = Py.is_ascii a && Py.is_ascii b.
Proof.
  unfold Py.is_ascii. induction a as [|c a IH]; simpl; [done|].
  rewrite IH. by rewrite andb_assoc.
Qed.

Lemma hexdigit_ascii n : (N_of_ascii (Hashlib.hexdigit n) <? 128)%N = true.
Proof.
  destruct n as [|p]; [done|].
  do 4 (try (destruct p as [p|p|]; try done)).
Qed.

Lemma is_ascii_hexlify s : Py.is_ascii (Hashlib.hexlify s) = true.
Proof.
  unfold Py.is_ascii. induction s as [|c s IH]; simpl; [done|].
  by rewrite !hexdigit_ascii, IH.
Qed.

Lemma length_hexlify s : String.length (Hashlib.hexlify s) = 2 * String.length s.
Proof. induction s as [|c s IH]; simpl; [done|]. rewrite IH. lia. Qed.

Lemma encode_utf8_Ok s s' : Py.encode_utf8 s = Ok s' -> s' = s /\ Py.is_ascii s = true.
Proof. unfold Py.encode_utf8. destruct (Py.is_ascii s); [|done]. by intros [= ->]. Qed.

Lemma encode_utf8_Raise s e : Py.encode_utf8 s = Raise e -> e = UnicodeDecodeError.
Proof. unfold Py.encode_utf8. destruct (Py.is_ascii s); [done|]. by intros [= <-]. Qed.

Lemma sign_eq key msg :
  sign key msg =
  if Py.is_ascii msg then Ok (Hashlib.hmac key msg) else Raise UnicodeDecodeError.
Proof. unfold sign, Py.encode_utf8. by destruct (Py.is_ascii msg). Qed.

Lemma is_ascii_AWS4 : Py.is_ascii "AWS4" = true.
Proof. reflexivity. Qed.

Lemma is_ascii_aws4_request : Py.is_ascii "aws4_request" = true.
Proof. reflexivity. Qed.

Lemma encode_utf8_ascii s : Py.is_ascii s = true -> Py.encode_utf8 s = Ok s.
Proof. unfold Py.encode_utf8. by intros ->. Qed.

Lemma encode_utf8_non_ascii s :
  Py.is_ascii s = false -> Py.encode_utf8 s = Raise UnicodeDecodeError.
Proof. unfold Py.encode_utf8. by intros ->. Qed.

Lemma sign_ascii key msg :
  Py.is_ascii msg = true -> sign key msg = Ok (Hashlib.hmac key msg).
Proof. intros H. unfold sign. by rewrite (encode_utf8_ascii _ H), bind_Ok_l. Qed.

Lemma sign_non_ascii key msg :
  Py.is_ascii msg = false -> sign key msg = Raise UnicodeDecodeError.
Proof. intros H. unfold sign. by rewrite (encode_utf8_non_ascii _ H), bind_Raise_l. Qed.

Lemma getSignatureKey_eq key d r s :
  getSignatureKey key d r s =
  if Py.is_ascii key && Py.is_ascii d && Py.is_ascii r && Py.is_ascii s
  then Ok (SigningKeyDeriver_derive key d r s)
  else Raise UnicodeDecodeError.
Proof.
  unfold getSignatureKey.
  destruct (Py.is_ascii key) eqn:Hk.
  2:{ rewrite encode_utf8_non_ascii, bind_Raise_l; [done|].
      by rewrite is_ascii_app, Hk, andb_false_r. }
  rewrite encode_utf8_ascii, bind_Ok_l
    by (by rewrite is_ascii_app, Hk, is_ascii_AWS4).
  destruct (Py.is_ascii d) eqn:Hd.
  2:{ by rewrite sign_non_ascii, bind_Raise_l. }
  rewrite sign_ascii, bind_Ok_l by done.
  destruct (Py.is_ascii r) eqn:Hr.
  2:{ by rewrite sign_non_ascii, bind_Raise_l. }
  rewrite sign_ascii, bind_Ok_l by done.
  destruct (Py.is_ascii s) eqn:Hs.
  2:{ by rewrite sign_non_ascii, bind_Raise_l. }
  rewrite sign_ascii, bind_Ok_l by done.
  rewrite sign_ascii, bind_Ok_l by apply is_ascii_aws4_request.
  reflexivity.
Qed.




Lemma is_ascii_string_to_sign amz d r s creq :
  Py.is_ascii (string_to_sign amz (credential_scope d r s) creq) =
  Py.is_ascii amz && Py.is_ascii d && Py.is_ascii r && Py.is_ascii s.
Proof.
  unfold string_to_sign, credential_scope, Hashlib.sha256_hexdigest.
  rewrite !is_ascii_app, is_ascii_hexlify, is_ascii_aws4_request.
  replace (Py.is_ascii algorithm) with true by reflexivity.
  replace (Py.is_ascii newline) with true by reflexivity.
  replace (Py.is_ascii "/") with true by reflexivity.
  destruct (Py.is_ascii amz), (Py.is_ascii d), (Py.is_ascii r), (Py.is_ascii s); done.
Qed.

(** C2.  For every secret, date, region and service, [getSignatureKey]
    returns the four-step chain kDate = HMAC("AWS4" + secret, date),
    kRegion = HMAC(kDate, region), kService = HMAC(kRegion, service),
    kSigning = HMAC(kService, "aws4_request"), each output being the key of
    the next step, which is the specification's SigningKeyDeriver; the key
    is a function of these four strings alone.  The only other outcome is
    the [UnicodeDecodeError] of [encode] on a [str] with a byte above 127. *)
Theorem getSignatureKey_chain (secret date region service : string) :
  getSignatureKey secret date region service =
    (if Py.is_ascii secret && Py.is_ascii date && Py.is_ascii region &&
        Py.is_ascii service
     then Ok (Hashlib.hmac (Hashlib.hmac (Hashlib.hmac (Hashlib.hmac
                ("AWS4" ++ secret) date) region) service) "aws4_request")
     else Raise UnicodeDecodeError) /\
  Hashlib.hmac (Hashlib.hmac (Hashlib.hmac (Hashlib.hmac
    ("AWS4" ++ secret) date) region) service) "aws4_request" =
    SigningKeyDeriver_derive secret date region service.
Proof.
  split; [|reflexivity].
  unfold getSignatureKey.
  destruct (Py.is_ascii secret) eqn:Hk.
  2:{ rewrite encode_utf8_non_ascii, bind_Raise_l; [done|].
      by rewrite is_ascii_app, Hk, andb_false_r. }
  rewrite encode_utf8_ascii, bind_Ok_l
    by (by rewrite is_ascii_app, Hk, is_ascii_AWS4).
  destruct (Py.is_ascii date) eqn:Hd.
  2:{ by rewrite sign_non_ascii, bind_Raise_l. }
  rewrite sign_ascii, bind_Ok_l by done.
  destruct (Py.is_ascii region) eqn:Hr.
  2:{ by rewrite sign_non_ascii, bind_Raise_l. }
  rewrite sign_ascii, bind_Ok_l by done.
  destruct (Py.is_ascii service) eqn:Hs.
  2:{ by rewrite sign_non_ascii, bind_Raise_l. }
  rewrite sign_ascii, bind_Ok_l by done.
  rewrite sign_ascii, bind_Ok_l by apply is_ascii_aws4_request.
  reflexivity.
Qed.

(** The signing key of the vendor's documented example. *)
Example getSignatureKey_vector :
  Hashlib.hexlify <$>
    (match getSignatureKey "wJalrXUtnFEMI/K7MDENG+bPxRfiCYEXAMPLEKEY" "20150830"
             "us-east-1" "iam" with
     | Ok k => Some k | Raise _ => None end) =
  Some "c4afb1cc5771d871763a393e44b703571b55cc28424d1a5e86da6ed3c154a4b9".
Proof. vm_compute. reflexivity. Qed.


(** ** The canonical querystring *)

Lemma partition_no_sep c s : Py.contains c s = false -> Py.partition c s = (s, "").
Proof.
  induction s as [|d r IH]; simpl; [done|].
  destruct (Ascii.eqb d c); simpl; [done|].
  intros H. by rewrite (IH H).
Qed.

Lemma split_head c s :
  exists rest, Py.split c s = fst (Py.partition c s) :: rest.
Proof.
  destruct (Py.contains c s) eqn:E.
  - eexists. by apply split_partition.
  - exists []. by rewrite split_no_sep, partition_no_sep.
Qed.

Lemma rewritten_url_eq url cq :
  rewritten_url url cq = Ok (fst (Py.partition "?" url) ++ "?" ++ cq).
Proof.
  unfold rewritten_url. destruct (split_head "?" url) as [rest ->]. done.
Qed.

Lemma canonical_querystring_of_once url :
  Py.count "?" url = 1 ->
  canonical_querystring_of url = Ok (CanonicalRequestBuilder_querystring url).
Proof.
  intros H. unfold canonical_querystring_of, CanonicalRequestBuilder_querystring.
  by rewrite (split_once _ _ H).
Qed.

(** C1, as the code has it.  For every URL with exactly one [?], the
    canonical querystring is the raw query string (what follows the [?])
    split on [&], sorted as whole tokens in byte-wise lexicographic order
    and rejoined with [&], and the request's URL is rewritten to
    base + "?" + that querystring; the tokens "B=2","A=1" give "A=1&B=2"
    and "A=9","A=10" give "A=10&A=9". *)
Theorem canonical_querystring_single_query (url : string) :
  Py.count "?" url = 1 ->
  let base := fst (Py.partition "?" url) in
  let raw := snd (Py.partition "?" url) in
  let tokens := Py.sorted (Py.split "&" raw) in
  url = base ++ "?" ++ raw /\
  tokens ≡ₚ Py.split "&" raw /\
  StronglySorted String.le tokens /\
  canonical_querystring_of url = Ok (Py.join "&" tokens) /\
  Py.join "&" tokens = CanonicalRequestBuilder_querystring url /\
  (forall urlparse h t args kw r h',
     resolve_url args kw = Ok url ->
     AWSRequest_init urlparse h t args kw = Ok (r, h') ->
     req_url r = base ++ "?" ++ Py.join "&" tokens) /\
  Py.join "&" (Py.sorted ["B=2"; "A=1"]) = "A=1&B=2" /\
  Py.join "&" (Py.sorted ["A=9"; "A=10"]) = "A=10&A=9".
Proof.
  intros H base raw tokens.
  assert (Hc : Py.contains "?" url = true).
  { destruct (Py.contains "?" url) eqn:E; [done|].
    apply contains_count in E. congruence. }
  split; [exact (partition_app _ _ Hc)|].
  split; [apply sorted_Permutation|].
  split; [apply sorted_StronglySorted|].
  split; [exact (canonical_querystring_of_once _ H)|].
  split; [reflexivity|].
  split; [|split; vm_compute; reflexivity].
  intros urlparse h t args kw r h' Hu Hi.
  apply AWSRequest_init_Ok in Hi
    as (url' & cq & new_url & pu & amz & ds & key & sig & Hu' & Hq & Hn & _ & _ & _ & _ & _ & -> & _).
  rewrite Hu in Hu'. injection Hu' as <-.
  rewrite (canonical_querystring_of_once _ H) in Hq. injection Hq as <-.
  rewrite rewritten_url_eq in Hn. injection Hn as <-.
  reflexivity.
Qed.

Lemma canonical_querystring_single_query_witness :
  Py.count "?" "http://sqs.us-east-1.amazonaws.com/1/q?B=2&A=1" = 1 /\
  canonical_querystring_of "http://sqs.us-east-1.amazonaws.com/1/q?B=2&A=1" = Ok "A=1&B=2".
Proof.
  split; [reflexivity|].
  destruct (canonical_querystring_single_query
              "http://sqs.us-east-1.amazonaws.com/1/q?B=2&A=1" eq_refl)
    as (_ & _ & _ & H & _).
  rewrite H. vm_compute. reflexivity.
Defined.

(** C1 as stated fails on a URL with a second [?]: the code takes the
    text between the first two [?] and drops the rest, where splitting on
    the first [?] keeps it. *)
Lemma canonical_querystring_second_query_mark :
  Py.contains "?" "http://h/p?B=2?A=1" = true /\
  canonical_querystring_of "http://h/p?B=2?A=1" = Ok "B=2" /\
  rewritten_url "http://h/p?B=2?A=1" "B=2" = Ok "http://h/p?B=2" /\
  CanonicalRequestBuilder_querystring "http://h/p?B=2?A=1" = "B=2?A=1" /\
  CanonicalRequestBuilder_url "http://h/p?B=2?A=1" = "http://h/p?B=2?A=1" /\
  canonical_querystring_of "http://h/p?B=2?A=1" <>
    Ok (CanonicalRequestBuilder_querystring "http://h/p?B=2?A=1").
Proof. vm_compute. repeat split; try reflexivity. discriminate. Qed.

(** ** Failure on a URL without a query string *)

Lemma split_nonempty c s : Py.split c s <> [].
Proof. destruct (split_head c s) as [rest ->]. done. Qed.

Lemma canonical_querystring_of_no_query url :
  Py.contains "?" url = false -> canonical_querystring_of url = Raise IndexError.
Proof.
  intros H. unfold canonical_querystring_of. by rewrite (split_no_sep _ _ H).
Qed.

Lemma canonical_querystring_of_query url :
  Py.contains "?" url = true -> exists cq, canonical_querystring_of url = Ok cq.
Proof.
  intros H. unfold canonical_querystring_of. rewrite (split_partition _ _ H).
  destruct (Py.split "?" (snd (Py.partition "?" url))) as [|q rest] eqn:E.
  - by apply split_nonempty in E.
  - eexists. reflexivity.
Qed.



(** ** The timestamp *)

Lemma strftime_Ok t fmt s :
  Py.strftime t fmt = Ok s -> (1900 <= Py.year t)%N /\ s = Py.expand fmt t.
Proof.
  unfold Py.strftime. destruct (N.ltb_spec (Py.year t) 1900); [done|].
  by intros [= <-].
Qed.

Lemma pad2_digits2 n : (n < 100)%N -> Py.pad2 n = digits2 n.
Proof.
  intros H.
  assert (Hall : forallb (fun k => String.eqb (Py.pad2 k) (digits2 k))
                         (map N.of_nat (seq 0 100)) = true)
    by (vm_compute; reflexivity).
  rewrite forallb_forall in Hall.
  apply String.eqb_eq, Hall, in_map_iff.
  exists (N.to_nat n). split; [lia|]. apply in_seq. lia.
Qed.

Lemma str_of_N_digits4 n : (1000 <= n <= 9999)%N -> Py.str_of_N n = digits4 n.
Proof.
  intros H.
  assert (Hall : forallb (fun k => String.eqb (Py.str_of_N k) (digits4 k))
                         (map N.of_nat (seq 1000 (90 * 100))) = true)
    by (vm_compute; reflexivity).
  rewrite forallb_forall in Hall.
  apply String.eqb_eq, Hall, in_map_iff.
  exists (N.to_nat n). split; [lia|]. apply in_seq. lia.
Qed.

Lemma expand_date t :
  Py.valid_datetime t -> (1900 <= Py.year t)%N ->
  Py.expand "%Y%m%d" t = YYYYMMDD t.
Proof.
  intros (Hy & Hm & Hd & _) Hy'.
  change (Py.expand "%Y%m%d" t)
    with (Py.str_of_N (Py.year t) ++ Py.pad2 (Py.month t) ++ Py.pad2 (Py.day t) ++ "").
  unfold YYYYMMDD.
  rewrite str_of_N_digits4, !pad2_digits2 by lia. reflexivity.
Qed.

Lemma expand_timestamp t :
  Py.valid_datetime t -> (1900 <= Py.year t)%N ->
  Py.expand "%Y%m%dT%H%M%SZ" t = YYYYMMDDThhmmssZ t.
Proof.
  intros (Hy & Hm & Hd & HH & HM & HS) Hy'.
  change (Py.expand "%Y%m%dT%H%M%SZ" t)
    with (Py.str_of_N (Py.year t) ++ Py.pad2 (Py.month t) ++ Py.pad2 (Py.day t) ++
          String "T" (Py.pad2 (Py.hour t) ++ Py.pad2 (Py.minute t) ++
                      Py.pad2 (Py.second t) ++ "Z")).
  unfold YYYYMMDDThhmmssZ, YYYYMMDD.
  rewrite str_of_N_digits4, !pad2_digits2 by lia. reflexivity.
Qed.

(** ** Concatenation *)

Lemma append_cons x (a b : string) : String x a ++ b = String x (a ++ b).
Proof. reflexivity. Qed.

Lemma append_nil_l (b : string) : "" ++ b = b.
Proof. reflexivity. Qed.

Lemma append_assoc (a b c : string) : (a ++ b) ++ c = a ++ (b ++ c).
Proof.
  induction a as [|x a IH]; [done|]. rewrite !append_cons. by rewrite IH.
Qed.

Lemma length_append (a b : string) :
  String.length (a ++ b) = String.length a + String.length b.
Proof.
  induction a as [|x a IH]; [done|]. rewrite append_cons. simpl. by rewrite IH.
Qed.

Lemma append_inv_head (a b c : string) : a ++ b = a ++ c -> b = c.
Proof.
  induction a as [|x a IH]; [done|]. rewrite !append_cons.
  intros [= H]. by apply IH.
Qed.

(** Two concatenations with tails of one length agree part by part. *)
Lemma append_inv_length (a b c d : string) :
  a ++ b = c ++ d -> String.length b = String.length d -> a = c /\ b = d.
Proof.
  revert c. induction a as [|x a IH]; intros [|y c];
    rewrite ?append_cons, ?append_nil_l.
  - done.
  - intros -> H. simpl in H. rewrite length_append in H. lia.
  - intros <- H. simpl in H. rewrite length_append in H. lia.
  - intros [= -> H] Hl. destruct (IH _ H Hl) as [-> ->]. done.
Qed.

Lemma append_inv_tail (a b c : string) : a ++ c = b ++ c -> a = b.
Proof. intros H. by destruct (append_inv_length _ _ _ _ H eq_refl). Qed.

(** ** The signature is 64 hexadecimal digits *)

Lemma hexdigit_is_hexdigit n : is_hexdigit (Hashlib.hexdigit n) = true.
Proof.
  destruct n as [|p]; [done|].
  do 4 (try (destruct p as [p|p|]; try done)).
Qed.

Lemma hexlify_is_hex s : Urlparse.all_chars is_hexdigit (Hashlib.hexlify s) = true.
Proof.
  unfold Urlparse.all_chars. induction s as [|c s IH]; simpl; [done|].
  by rewrite !hexdigit_is_hexdigit, IH.
Qed.

Lemma signature_Ok key sts sig :
  signature key sts = Ok sig ->
  sig = Hashlib.hmac_hexdigest key sts /\ Py.is_ascii sts = true.
Proof.
  unfold signature. intros H. bind_inv H.
  apply encode_utf8_Ok in Ha as [-> Ha]. by injection H as <-.
Qed.

Lemma length_hmac_hexdigest key msg :
  String.length (Hashlib.hmac_hexdigest key msg) = 64.
Proof. unfold Hashlib.hmac_hexdigest. by rewrite length_hexlify, length_hmac. Qed.

Lemma authorization_header_format ak ds region service sig :
  authorization_header ak (credential_scope ds region service) sig =
  "AWS4-HMAC-SHA256 Credential=" ++ ak ++ "/" ++ ds ++ "/" ++ region ++ "/" ++
  service ++ "/aws4_request, SignedHeaders=host;x-amz-date, Signature=" ++ sig.
Proof.
  unfold authorization_header, credential_scope, algorithm, signed_headers.
  rewrite !append_assoc. reflexivity.
Qed.

(** ** The headers object *)

Lemma get_headers_passed h kw l :
  kw_headers kw = Some l -> get_headers h kw = (l, h).
Proof. unfold get_headers. by intros ->. Qed.

Lemma get_headers_absent h kw :
  kw_headers kw = None ->
  get_headers h kw = (fresh (dom h), <[fresh (dom h) := ∅]> h) /\
  h !! fresh (dom h) = None.
Proof.
  unfold get_headers. intros ->. split; [done|].
  apply not_elem_of_dom, is_fresh.
Qed.

Lemma updated_store_lookup h kw (f : gmap string string -> gmap string string) :
  headers_ok h kw ->
  let l := fst (get_headers h kw) in
  let h' := alter f l (snd (get_headers h kw)) in
  h' !! l = Some (f (default ∅ (h !! l))) /\
  (forall l', l' <> l -> h' !! l' = h !! l').
Proof.
  unfold headers_ok. destruct (kw_headers kw) as [l0|] eqn:E.
  - intros [d Hd]. rewrite (get_headers_passed _ _ _ E). simpl. split.
    + by rewrite lookup_alter_eq, Hd.
    + intros l' Hl. by rewrite lookup_alter_ne.
  - intros _. destruct (get_headers_absent h kw E) as [-> Hf]. simpl. split.
    + by rewrite lookup_alter_eq, lookup_insert_eq, Hf.
    + intros l' Hl. by rewrite lookup_alter_ne, lookup_insert_ne.
Qed.

Lemma dict_update_new_headers d amz auth name :
  dict_update d (new_headers amz auth) !! name =
  if decide (name = "x-amz-date") then Some amz
  else if decide (name = "Authorization") then Some auth
  else d !! name.
Proof.
  unfold dict_update, new_headers.
  destruct (decide (name = "x-amz-date")) as [->|H1].
  { apply lookup_union_Some_l, lookup_insert_eq. }
  destruct (decide (name = "Authorization")) as [->|H2].
  { apply lookup_union_Some_l. by rewrite lookup_insert_ne, lookup_singleton_eq. }
  apply lookup_union_r. by rewrite lookup_insert_ne, lookup_singleton_ne.
Qed.

Lemma header_after_init urlparse h t args kw r h' :
  headers_ok h kw ->
  AWSRequest_init urlparse h t args kw = Ok (r, h') ->
  exists amz ds sig,
    Py.strftime t "%Y%m%dT%H%M%SZ" = Ok amz /\
    Py.strftime t "%Y%m%d" = Ok ds /\
    String.length sig = 64 /\
    Urlparse.all_chars is_hexdigit sig = true /\
    req_headers r = fst (get_headers h kw) /\
    let auth := authorization_header (kw_access_key kw)
                  (credential_scope ds (kw_region kw) (kw_service kw)) sig in
    h' !! req_headers r =
      Some (dict_update (default ∅ (h !! req_headers r)) (new_headers amz auth)) /\
    (forall l', l' <> req_headers r -> h' !! l' = h !! l').
Proof.
  intros Hok Hi.
  apply AWSRequest_init_Ok in Hi
    as (url & cq & new_url & pu & amz & ds & key & sig &
        _ & _ & _ & _ & Ha & Hd & _ & Hs & -> & ->).
  apply signature_Ok in Hs as [-> _].
  exists amz, ds, (Hashlib.hmac_hexdigest key (signed_text kw url (netloc pu) (path pu) cq amz ds)).
  split; [done|]. split; [done|].
  split; [apply length_hmac_hexdigest|].
  split; [apply hexlify_is_hex|].
  split; [done|]. simpl req_headers.
  apply (updated_store_lookup h kw _ Hok).
Qed.

(** C4.  Every signed request carries an [x-amz-date] header that holds
    the timestamp in the form YYYYMMDDThhmmssZ and an [Authorization]
    header of the form "AWS4-HMAC-SHA256 Credential=<accessKey>/<date>/
    <region>/<service>/aws4_request, SignedHeaders=host;x-amz-date,
    Signature=<signature>", whose signature is 64 hexadecimal digits. *)
Theorem signed_request_headers urlparse h t args kw r h' :
  Py.valid_datetime t ->
  headers_ok h kw ->
  AWSRequest_init urlparse h t args kw = Ok (r, h') ->
  exists sig,
    header h' r "x-amz-date" = Some (YYYYMMDDThhmmssZ t) /\
    String.length (YYYYMMDDThhmmssZ t) = 16 /\
    header h' r "Authorization" =
      Some ("AWS4-HMAC-SHA256 Credential=" ++ kw_access_key kw ++ "/" ++
            YYYYMMDD t ++ "/" ++ kw_region kw ++ "/" ++ kw_service kw ++
            "/aws4_request, SignedHeaders=host;x-amz-date, Signature=" ++ sig) /\
    String.length sig = 64 /\
    Urlparse.all_chars is_hexdigit sig = true.
Proof.
  intros Ht Hok Hi.
  destruct (header_after_init _ _ _ _ _ _ _ Hok Hi)
    as (amz & ds & sig & Ha & Hd & Hl & Hx & _ & Hh & _).
  apply strftime_Ok in Ha as [Hy ->]. apply strftime_Ok in Hd as [_ ->].
  rewrite (expand_timestamp _ Ht Hy), (expand_date _ Ht Hy) in Hh.
  exists sig. unfold header. rewrite Hh. simpl.
  rewrite !dict_update_new_headers. simpl.
  rewrite authorization_header_format.
  repeat split; done.
Qed.

Lemma signed_request_headers_witness :
  Py.valid_datetime t0 /\
  headers_ok h_caller kw_caller /\
  exists r h',
    AWSRequest_init Urlparse.urlparse h_caller t0 [url0] kw_caller = Ok (r, h') /\
    header h' r "x-amz-date" = Some "20150830T123600Z".
Proof.
  assert (Ht : Py.valid_datetime t0) by (vm_compute; repeat split; discriminate).
  assert (Hok : headers_ok h_caller kw_caller) by (by exists ∅).
  assert (Hs : succeeds (AWSRequest_init Urlparse.urlparse h_caller t0 [url0] kw_caller)
               = true) by (vm_compute; reflexivity).
  split; [exact Ht|]. split; [exact Hok|].
  destruct (AWSRequest_init Urlparse.urlparse h_caller t0 [url0] kw_caller)
    as [[r h']|e] eqn:Hi; [|discriminate Hs].
  exists r, h'. split; [reflexivity|].
  destruct (signed_request_headers _ _ _ _ _ _ _ Ht Hok Hi) as (sig & Hx & _).
  exact Hx.
Defined.

(** ** The caller's headers object *)

Lemma init_succeeds_caller :
  succeeds (AWSRequest_init Urlparse.urlparse h_caller t0 [url0] kw_caller) = true.
Proof. vm_compute. reflexivity. Qed.




(** ** What the signature depends on *)











Lemma get_headers_with_access_key h ak kw :
  get_headers h (with_access_key ak kw) = get_headers h kw.
Proof. reflexivity. Qed.

(** The [Authorization] header of a request, from the values it signs. *)
Lemma authorization_after_init urlparse h t args kw r h' :
  headers_ok h kw ->
  AWSRequest_init urlparse h t args kw = Ok (r, h') ->
  exists url pu cq amz ds sig,
    resolve_url args kw = Ok url /\
    urlparse url = Some pu /\
    canonical_querystring_of url = Ok cq /\
    Py.strftime t "%Y%m%dT%H%M%SZ" = Ok amz /\
    Py.strftime t "%Y%m%d" = Ok ds /\
    request_signature (signing_input_of kw pu cq amz ds) = Ok sig /\
    header h' r "Authorization" =
      Some (authorization_header (kw_access_key kw)
              (credential_scope ds (kw_region kw) (kw_service kw)) sig).
Proof.
  intros Hok Hi.
  pose proof (AWSRequest_init_Ok _ _ _ _ _ _ _ Hi)
    as (url & cq & new_url & pu & amz & ds & key & sig &
        Hu & Hq & _ & Hp & Ha & Hd & Hk & Hs & -> & ->).
  exists url, pu, cq, amz, ds, sig. repeat (split; [done|]). split.
  - unfold request_signature, signing_input_of; cbn [si_secret_key si_datestamp
      si_region si_service]. rewrite Hk, bind_Ok_l. exact Hs.
  - unfold header. cbn [req_headers].
    destruct (updated_store_lookup h kw
                (fun d => dict_update d (new_headers amz
                   (authorization_header (kw_access_key kw)
                      (credential_scope ds (kw_region kw) (kw_service kw)) sig))) Hok)
      as [Hl _].
    rewrite Hl. cbn [mbind option_bind].
    by rewrite dict_update_new_headers.
Qed.




(** ** SQS.parse *)

Section parse_facts.

Variable fromstring : string -> option element.
Variable element_str : element -> result string.

Lemma dispatch_unrecognized items root :
  hasattr root "CreateQueueResult" = false ->
  hasattr root "GetQueueAttributesResult" = false ->
  hasattr root "ReceiveMessageResult" = false ->
  dispatch element_str items root = Ok PNone.
Proof.
  intros Hc Hg Hr. induction items as [|k items IH]; simpl; [done|].
  destruct k; simpl; by rewrite ?Hc, ?Hg, ?Hr.
Qed.

Lemma dispatch_skip pre items root :
  (forall k, k ∈ pre -> hasattr root (shape_key k) = false) ->
  dispatch element_str (pre ++ items)%list root = dispatch element_str items root.
Proof.
  induction pre as [|k pre IH]; intros H; simpl; [done|].
  rewrite (H k) by left. apply IH. intros k' Hk. apply H. by right.
Qed.

Lemma getattr_hasattr root name r :
  getattr root name = Ok r -> hasattr root name = true.
Proof. unfold getattr, hasattr. by destruct (children_named name root). Qed.

Lemma _parse_ReceiveMessageResult_empty root r :
  getattr root "ReceiveMessageResult" = Ok r ->
  eq_empty_str r = true ->
  _parse_ReceiveMessageResult element_str root = Ok PNone.
Proof.
  intros Hr He. unfold _parse_ReceiveMessageResult.
  by rewrite Hr, bind_Ok_l, He.
Qed.

(** C8, as the code has it.  A body that the XML parser refuses makes
    [parse] raise the parser's [XMLSyntaxError].  On a body that parses,
    [parse] returns [None], and does not raise, when the root has none of
    the children CreateQueueResult, GetQueueAttributesResult and
    ReceiveMessageResult, whatever the order of the mapping; and it returns
    [None] when the ReceiveMessageResult child is an empty element and is
    the shape that the loop over the mapping meets first. *)
Theorem parse_absent_result items body :
  (fromstring body = None ->
   parse fromstring element_str items body = Raise XMLSyntaxError) /\
  (forall root,
     fromstring body = Some root ->
     (hasattr root "CreateQueueResult" = false ->
      hasattr root "GetQueueAttributesResult" = false ->
      hasattr root "ReceiveMessageResult" = false ->
      parse fromstring element_str items body = Ok PNone) /\
     (forall pre post r,
        items = (pre ++ ReceiveMessageResult :: post)%list ->
        (forall k, k ∈ pre -> hasattr root (shape_key k) = false) ->
        getattr root "ReceiveMessageResult" = Ok r ->
        eq_empty_str r = true ->
        parse fromstring element_str items body = Ok PNone)).
Proof.
  unfold parse. split.
  - by intros ->.
  - intros root Hf. rewrite Hf. split.
    + apply dispatch_unrecognized.
    + intros pre post r -> Hpre Hr He.
      rewrite (dispatch_skip _ _ _ Hpre). simpl.
      rewrite (getattr_hasattr _ _ _ Hr).
      by apply _parse_ReceiveMessageResult_empty with r.
Qed.

End parse_facts.

Lemma parse_absent_result_witness :
  fromstring_sample body_empty_receive = Some root_empty_receive /\
  parse fromstring_sample element_str_sample response_mapping_items_cpython
        body_empty_receive = Ok PNone.
Proof.
  split; [reflexivity|].
  refine (proj2 (proj2 (parse_absent_result fromstring_sample element_str_sample
                          response_mapping_items_cpython body_empty_receive)
                   root_empty_receive eq_refl)
                [] [GetQueueAttributesResult; CreateQueueResult]
                (Element "ReceiveMessageResult" None []) eq_refl _ eq_refl eq_refl).
  intros k Hk. by apply elem_of_nil in Hk.
Defined.

(** C8 as stated fails: the empty body has none of the three result
    elements, but it is not XML, and [parse] raises on it instead of
    returning [None]. *)
Lemma parse_empty_body_raises :
  fromstring_sample "" = None /\
  parse fromstring_sample element_str_sample response_mapping_items_cpython ""
    = Raise XMLSyntaxError /\
  parse fromstring_sample element_str_sample response_mapping_items_cpython ""
    <> Ok PNone.
Proof. repeat split. discriminate. Qed.

Example parse_unrecognized_body :
  parse fromstring_sample element_str_sample response_mapping_items_cpython
        body_delete = Ok PNone.
Proof. reflexivity. Qed.

(** ** Query strings *)

Lemma contains_app c a b :
  Py.contains c (a ++ b) = Py.contains c a || Py.contains c b.
Proof.
  induction a as [|x a IH]; [done|]. rewrite append_cons. simpl.
  by rewrite IH, orb_assoc.
Qed.

Lemma partition_app_sep c a b :
  Py.contains c a = false -> Py.partition c (a ++ String c b) = (a, b).
Proof.
  induction a as [|x a IH].
  - intros _. rewrite append_nil_l. simpl. by rewrite Ascii.eqb_refl.
  - rewrite append_cons. simpl.
    destruct (Ascii.eqb x c); simpl; [done|]. intros H. by rewrite (IH H).
Qed.

Lemma split_app_sep c a b :
  Py.contains c a = false -> Py.split c (a ++ String c b) = a :: Py.split c b.
Proof.
  intros H. rewrite split_partition.
  - by rewrite (partition_app_sep _ _ _ H).
  - rewrite contains_app. simpl. by rewrite Ascii.eqb_refl, orb_true_r.
Qed.

Lemma join_cons sep t t' toks :
  Py.join sep (t :: t' :: toks) = t ++ sep ++ Py.join sep (t' :: toks).
Proof. reflexivity. Qed.

Lemma split_join c toks :
  toks <> [] ->
  Forall (fun t => Py.contains c t = false) toks ->
  Py.split c (Py.join (String c "") toks) = toks.
Proof.
  intros Hne Hall. induction Hall as [|t toks Ht Hall IH]; [done|].
  destruct toks as [|t' toks].
  - by apply split_no_sep.
  - rewrite join_cons, append_cons, append_nil_l.
    rewrite (split_app_sep _ _ _ Ht). f_equal. by apply IH.
Qed.

Lemma contains_join c sep toks :
  Py.contains c sep = false ->
  Forall (fun t => Py.contains c t = false) toks ->
  Py.contains c (Py.join sep toks) = false.
Proof.
  intros Hs Hall. induction Hall as [|t toks Ht Hall IH]; [done|].
  destruct toks as [|t' toks]; [done|].
  by rewrite join_cons, !contains_app, Ht, Hs, IH.
Qed.

Lemma upper_hexdigit_not c n :
  Urlparse.is_digit c = false -> Urlparse.is_alpha c = false ->
  Ascii.eqb (Urllib.upper_hexdigit n) c = false.
Proof.
  intros Hd Ha. destruct (Ascii.eqb_spec (Urllib.upper_hexdigit n) c) as [<-|]; [|done].
  exfalso. destruct n as [|p]; [done|].
  do 4 (try (destruct p as [p|p|]; try done)).
Qed.

(** [quote_plus] leaves no character that is neither a letter, a digit
    nor one of [_.-+%]. *)
Lemma contains_quote_plus c s :
  Urllib.always_safe c = false -> c <> "+"%char -> c <> "%"%char ->
  Py.contains c (Urllib.quote_plus s) = false.
Proof.
  intros Hs Hp Hq.
  assert (Hd : Urlparse.is_digit c = false /\ Urlparse.is_alpha c = false).
  { unfold Urllib.always_safe in Hs.
    destruct (Urlparse.is_alpha c), (Urlparse.is_digit c); done. }
  destruct Hd as [Hd Ha].
  assert (Hne : forall x, x <> c -> Ascii.eqb x c = false)
    by (intros x; apply Ascii.eqb_neq).
  induction s as [|x s IH]; [done|]. cbn [Urllib.quote_plus].
  destruct (Urllib.always_safe x) eqn:Hx; cbn [Py.contains].
  - rewrite IH, orb_false_r. apply Hne. congruence.
  - destruct (Ascii.eqb x " "); cbn [Py.contains].
    + rewrite IH, orb_false_r. by apply Hne.
    + rewrite IH, !upper_hexdigit_not by done.
      rewrite !orb_false_r. by apply Hne.
Qed.

Lemma contains_pair_token c kv :
  Urllib.always_safe c = false -> c <> "+"%char -> c <> "%"%char -> c <> "="%char ->
  Py.contains c (Urllib.pair_token kv) = false.
Proof.
  intros Hs Hp Hq He. unfold Urllib.pair_token.
  rewrite !contains_app, !contains_quote_plus by done. cbn [Py.contains].
  rewrite !orb_false_r, orb_false_l. by apply Ascii.eqb_neq.
Qed.

Lemma last_char_contains s c : Urllib.last_char s = Some c -> Py.contains c s = true.
Proof.
  induction s as [|x s IH]; simpl; [done|].
  destruct s as [|y s].
  - intros [= ->]. by rewrite Ascii.eqb_refl.
  - intros H. by rewrite (IH H), orb_true_r.
Qed.

(** ** set_queue_attributes *)

Lemma insert_pair_twice (m : gmap string string) (k v k' v' : string) :
  <["Attribute.Value" := v]> (<["Attribute.Name" := k]>
    (<["Attribute.Value" := v']> (<["Attribute.Name" := k']> m))) =
  <["Attribute.Value" := v]> (<["Attribute.Name" := k]> m).
Proof.
  apply map_eq. intros i.
  destruct (decide (i = "Attribute.Value")) as [->|H1].
  { by rewrite !lookup_insert_eq. }
  destruct (decide (i = "Attribute.Name")) as [->|H2].
  { rewrite !(lookup_insert_ne _ "Attribute.Value") by done.
    by rewrite !lookup_insert_eq. }
  by rewrite !lookup_insert_ne by congruence.
Qed.

Lemma set_queue_attributes_fold (p0 : gmap string string) attributes :
  foldl (fun params kv =>
           <["Attribute.Value" := snd kv]> (<["Attribute.Name" := fst kv]> params))
        p0 attributes =
  match last attributes with
  | None => p0
  | Some (k, v) => <["Attribute.Value" := v]> (<["Attribute.Name" := k]> p0)
  end.
Proof.
  induction attributes as [|[k v] l IH] using rev_ind; [done|].
  rewrite foldl_app, last_snoc, IH. simpl.
  destruct (last l) as [[k' v']|]; [|done].
  apply insert_pair_twice.
Qed.

Lemma set_queue_attributes_params_eq ak sk region attributes :
  set_queue_attributes_params (SQS_init ak sk region) attributes =
  <["Version" := "2012-11-05"]>
    match last attributes with
    | None => {[ "Action" := "SetQueueAttributes" ]}
    | Some (k, v) =>
        <["Attribute.Value" := v]> (<["Attribute.Name" := k]>
          {[ "Action" := "SetQueueAttributes" ]})
    end.
Proof.
  unfold set_queue_attributes_params, dict_update. simpl common_params.
  rewrite set_queue_attributes_fold, <- insert_union_singleton_l.
  by destruct (last attributes) as [[k v]|].
Qed.

Lemma pair_token_Attribute_Name k :
  Urllib.pair_token ("Attribute.Name", k) = "Attribute.Name=" ++ Urllib.quote_plus k.
Proof. reflexivity. Qed.

Lemma pair_token_Attribute_Value v :
  Urllib.pair_token ("Attribute.Value", v) = "Attribute.Value=" ++ Urllib.quote_plus v.
Proof. reflexivity. Qed.

Lemma set_queue_attributes_params_tokens ak sk region attributes :
  map Urllib.pair_token
      (map_to_list (set_queue_attributes_params (SQS_init ak sk region) attributes))
  ≡ₚ set_queue_attributes_tokens attributes.
Proof.
  rewrite set_queue_attributes_params_eq. unfold set_queue_attributes_tokens.
  destruct (last attributes) as [[k v]|].
  - rewrite map_to_list_insert
      by (by rewrite !lookup_insert_ne, lookup_singleton_ne).
    rewrite map_to_list_insert by (by rewrite lookup_insert_ne, lookup_singleton_ne).
    rewrite map_to_list_insert by (by rewrite lookup_singleton_ne).
    rewrite map_to_list_singleton. cbn [map].
    rewrite pair_token_Attribute_Name, pair_token_Attribute_Value.
    change (Urllib.pair_token ("Version", "2012-11-05")) with "Version=2012-11-05".
    change (Urllib.pair_token ("Action", "SetQueueAttributes"))
      with "Action=SetQueueAttributes".
    solve_Permutation.
  - rewrite map_to_list_insert by (by rewrite lookup_singleton_ne).
    rewrite map_to_list_singleton. cbn [map]. apply perm_swap.
Qed.

Lemma tokens_no_char c items :
  Urllib.always_safe c = false -> c <> "+"%char -> c <> "%"%char -> c <> "="%char ->
  Forall (fun t => Py.contains c t = false) (map Urllib.pair_token items).
Proof.
  intros. induction items as [|kv items IH]; constructor; [|done].
  by apply contains_pair_token.
Qed.

Lemma contains_urlencode_query items :
  Py.contains "?" (Urllib.urlencode items) = false.
Proof.
  unfold Urllib.urlencode. apply contains_join; [done|].
  by apply tokens_no_char.
Qed.

Lemma split_urlencode items :
  items <> [] ->
  Py.split "&" (Urllib.urlencode items) = map Urllib.pair_token items.
Proof.
  intros Hne. unfold Urllib.urlencode. apply (split_join "&").
  - by destruct items.
  - by apply tokens_no_char.
Qed.

(** On a resource URL without a query string, a successful [url_concat]
    whose result has a query string put a [?] and the parameters after the
    URL. *)
Lemma url_concat_query url items full :
  items <> [] ->
  Py.contains "?" url = false ->
  Urllib.url_concat url items = Ok full ->
  Py.contains "?" full = true ->
  full = url ++ String "?" (Urllib.urlencode items).
Proof.
  intros Hne Hq Hc Hf. unfold Urllib.url_concat in Hc.
  destruct items as [|kv items]; [done|].
  destruct (Urllib.last_char url) as [c|] eqn:Hl; [|done].
  injection Hc as <-.
  destruct (Ascii.eqb_spec c "?") as [->|Hc1].
  { apply last_char_contains in Hl. congruence. }
  destruct (Ascii.eqb c "&"); simpl in Hf |- *.
  - by rewrite contains_app, Hq, contains_urlencode_query in Hf.
  - rewrite Hq. by rewrite append_assoc.
Qed.

Lemma signed_request_url urlparse self h t url items full r h' :
  items <> [] ->
  Py.contains "?" url = false ->
  Urllib.url_concat url items = Ok full ->
  signed_request urlparse self h t full = Ok (r, h') ->
  req_url r =
  url ++ "?" ++ Py.join "&" (Py.sorted (map Urllib.pair_token items)).
Proof.
  intros Hne Hq Hc Hi. unfold signed_request in Hi.
  apply AWSRequest_init_Ok in Hi
    as (url' & cq & new_url & pu & amz & ds & key & sig &
        Hu & Hcq & Hn & _ & _ & _ & _ & _ & -> & _).
  cbn [req_url]. injection Hu as <-.
  assert (Hf : Py.contains "?" full = true).
  { destruct (Py.contains "?" full) eqn:E; [done|].
    by rewrite (canonical_querystring_of_no_query _ E) in Hcq. }
  pose proof (url_concat_query _ _ _ Hne Hq Hc Hf) as ->.
  rewrite rewritten_url_eq in Hn. injection Hn as <-.
  rewrite (partition_app_sep _ _ _ Hq). cbn [fst]. do 2 f_equal.
  unfold canonical_querystring_of in Hcq.
  rewrite (split_app_sep _ _ _ Hq) in Hcq.
  rewrite (split_no_sep _ _ (contains_urlencode_query items)) in Hcq.
  cbn in Hcq. injection Hcq as <-.
  by rewrite (split_urlencode _ Hne).
Qed.

(** An indexed parameter name is none of the two plain ones. *)
Lemma indexed_ne (i suffix plain : string) :
  suffix <> plain ->
  String.length plain <= String.length suffix ->
  "Attribute." ++ i ++ suffix <> "Attribute." ++ plain.
Proof.
  intros Hne Hlen H. apply append_inv_head in H.
  destruct i as [|c i]; [by rewrite append_nil_l in H|].
  apply (f_equal String.length) in H. rewrite length_append in H. simpl in H. lia.
Qed.

(** C9.  Whatever the attributes, the parameters of
    [set_queue_attributes] are Action, Version and, when there is an
    attribute at all, one Attribute.Name and one Attribute.Value holding the
    pair that was iterated last; no parameter Attribute.<n>.Name or
    Attribute.<n>.Value is produced, and on a queue URL without a query
    string the query parameters of the request URL are exactly these. *)
Theorem set_queue_attributes_last_pair
  urlparse (dict_items : gmap string string -> list (string * string))
  ak sk region attributes :
  (forall m, dict_items m ≡ₚ map_to_list m) ->
  let self := SQS_init ak sk region in
  let params := set_queue_attributes_params self attributes in
  params =
    <["Version" := "2012-11-05"]>
      match last attributes with
      | None => {[ "Action" := "SetQueueAttributes" ]}
      | Some (k, v) =>
          <["Attribute.Value" := v]> (<["Attribute.Name" := k]>
            {[ "Action" := "SetQueueAttributes" ]})
      end /\
  (forall i, params !! ("Attribute." ++ i ++ ".Name") = None /\
             params !! ("Attribute." ++ i ++ ".Value") = None) /\
  (forall h t queue_url r h',
     Py.contains "?" queue_url = false ->
     set_queue_attributes urlparse dict_items self h t queue_url attributes
       = Ok (r, h') ->
     exists tokens,
       req_url r = queue_url ++ "?" ++ Py.join "&" tokens /\
       tokens ≡ₚ set_queue_attributes_tokens attributes).
Proof.
  intros Hitems self params.
  pose proof (set_queue_attributes_params_eq ak sk region attributes) as Hp.
  fold self in Hp. fold params in Hp.
  split; [exact Hp|]. split.
  - intros i. rewrite Hp.
    assert (Hn : forall suffix,
      suffix = ".Name" \/ suffix = ".Value" ->
      (<["Version" := "2012-11-05"]>
         match last attributes with
         | None => ({[ "Action" := "SetQueueAttributes" ]} : gmap string string)
         | Some (k, v) =>
             <["Attribute.Value" := v]> (<["Attribute.Name" := k]>
               {[ "Action" := "SetQueueAttributes" ]})
         end) !! ("Attribute." ++ i ++ suffix) = None).
    { intros suffix Hs. rewrite lookup_insert_ne by done.
      destruct (last attributes) as [[k v]|].
      - rewrite lookup_insert_ne.
        2:{ intros H. symmetry in H. revert H.
            apply (indexed_ne i suffix "Value"); destruct Hs as [-> | ->];
              simpl; try done; try lia. }
        rewrite lookup_insert_ne.
        2:{ intros H. symmetry in H. revert H.
            apply (indexed_ne i suffix "Name"); destruct Hs as [-> | ->];
              simpl; try done; try lia. }
        by rewrite lookup_singleton_ne.
      - by rewrite lookup_singleton_ne. }
    split; apply Hn; auto.
  - intros h t queue_url r h' Hq Hs.
    unfold set_queue_attributes in Hs. fold self in Hs. fold params in Hs.
    bind_inv Hs.
    pose proof (set_queue_attributes_params_tokens ak sk region attributes) as Ht.
    fold self in Ht. fold params in Ht.
    assert (Hperm : map Urllib.pair_token (dict_items params)
                    ≡ₚ set_queue_attributes_tokens attributes).
    { etrans; [|exact Ht]. apply Permutation_map, Hitems. }
    assert (Hne : dict_items params <> []).
    { intros Hnil. rewrite Hnil in Hperm.
      by apply Permutation_nil_cons in Hperm. }
    exists (Py.sorted (map Urllib.pair_token (dict_items params))). split.
    + exact (signed_request_url urlparse self h t queue_url (dict_items params)
               a r h' Hne Hq Ha Hs).
    + etrans; [apply sorted_Permutation|exact Hperm].
Qed.

Lemma set_queue_attributes_last_pair_witness :
  (forall m, dict_items_sample m ≡ₚ map_to_list m) /\
  set_queue_attributes_params sqs0 attributes0 =
    <["Version" := "2012-11-05"]> (<["Attribute.Value" := "5"]>
      (<["Attribute.Name" := "DelaySeconds"]> {[ "Action" := "SetQueueAttributes" ]})).
Proof.
  assert (H : forall m, dict_items_sample m ≡ₚ map_to_list m) by done.
  split; [exact H|].
  exact (proj1 (set_queue_attributes_last_pair Urlparse.urlparse dict_items_sample
                  "AKIDEXAMPLE" secret_a "us-east-1" attributes0 H)).
Defined.

Example set_queue_attributes_url :
  req_url <$> (fst <$> (match set_queue_attributes Urlparse.urlparse dict_items_sample
                                sqs0 ∅ t0 queue_url0 attributes0 with
                        | Ok x => Some x | Raise _ => None end)) =
  Some ("http://sqs.us-east-1.amazonaws.com/1/q?Action=SetQueueAttributes" ++
        "&Attribute.Name=DelaySeconds&Attribute.Value=5&Version=2012-11-05").
Proof. vm_compute. reflexivity. Qed.

(** ** create_queue and get_queue_attributes *)

Lemma str_of_N_inj n m : Py.str_of_N n = Py.str_of_N m -> n = m.
Proof.
  unfold Py.str_of_N. intros H.
  apply DecimalN.Unsigned.to_uint_inj.
  apply (f_equal NilEmpty.uint_of_string) in H.
  rewrite !NilEmpty.usu in H. by injection H.
Qed.

Lemma unpack2_Ok k p : unpack2 k = Ok p -> key_len k = Some 2.
Proof.
  destruct k as [s|l|n]; simpl.
  - destruct s as [|a [|b [|c s]]]; done.
  - destruct l as [|a [|b [|c l]]]; done.
  - done.
Qed.







Lemma Attribute_Name_inj i j : Attribute_Name i = Attribute_Name j -> i = j.
Proof.
  unfold Attribute_Name. intros H.
  apply append_inv_head, append_inv_tail, str_of_N_inj in H. lia.
Qed.

Lemma Attribute_Value_inj i j : Attribute_Value i = Attribute_Value j -> i = j.
Proof.
  unfold Attribute_Value. intros H.
  apply append_inv_head, append_inv_tail, str_of_N_inj in H. lia.
Qed.

Lemma Attribute_Name_ne_Value i j : Attribute_Name i <> Attribute_Value j.
Proof.
  unfold Attribute_Name, Attribute_Value. intros H.
  apply append_inv_head in H.
  change ".Value" with ("." ++ "Value") in H. rewrite <- append_assoc in H.
  by apply append_inv_length in H as [_ H].
Qed.

Lemma AttributeName_inj i j : AttributeName i = AttributeName j -> i = j.
Proof.
  unfold AttributeName. intros H.
  apply append_inv_head, str_of_N_inj in H. lia.
Qed.


Lemma foldl_get_queue_attributes (p0 : gmap string string) (attributes : list string) :
  let params :=
    foldl (fun params ia =>
             <["AttributeName." ++ Py.str_of_N (N.of_nat (fst ia + 1)) := snd ia]> params)
          p0 (imap (fun i a => (i, a)) attributes) in
  (forall i a, attributes !! i = Some a -> params !! AttributeName (i + 1) = Some a) /\
  (forall name, (forall i, i < length attributes -> name <> AttributeName (i + 1)) ->
                params !! name = p0 !! name).
Proof.
  induction attributes as [|x l IH] using rev_ind; [done|].
  rewrite imap_app, foldl_app. simpl. destruct IH as [IH1 IH2].
  rewrite Nat.add_0_r. fold (AttributeName (length l + 1)). split.
  - intros i a Hi. destruct (decide (i = length l)) as [->|Hne].
    + rewrite lookup_app_r, Nat.sub_diag in Hi by lia. injection Hi as <-.
      apply lookup_insert_eq.
    + assert (i < length l).
      { apply lookup_lt_Some in Hi. rewrite length_app in Hi. simpl in Hi. lia. }
      rewrite lookup_app_l in Hi by done.
      rewrite lookup_insert_ne; [by apply IH1|].
      intros H'. apply AttributeName_inj in H'. lia.
  - intros name Hn. rewrite length_app in Hn. simpl in Hn.
    rewrite lookup_insert_ne.
    + apply IH2. intros i Hi. apply Hn. lia.
    + intros H'. apply (Hn (length l)); [lia|done].
Qed.

Lemma Version_ne_Attribute_Name i : "Version" <> Attribute_Name i.
Proof. unfold Attribute_Name. rewrite append_cons. discriminate. Qed.

Lemma Version_ne_Attribute_Value i : "Version" <> Attribute_Value i.
Proof. unfold Attribute_Value. rewrite append_cons. discriminate. Qed.

Lemma Version_ne_AttributeName i : "Version" <> AttributeName i.
Proof. unfold AttributeName. rewrite append_cons. discriminate. Qed.

Lemma Action_ne_AttributeName i : "Action" <> AttributeName i.
Proof.
  unfold AttributeName. rewrite !append_cons. intros H.
  injection H as H. discriminate H.
Qed.





Example create_queue_named_attribute :
  create_queue Urlparse.urlparse dict_items_sample sqs0 ∅ t0 "q" attributes_named
    = Raise ValueError.
Proof. reflexivity. Qed.

Example create_queue_pairs :
  (req_url ∘ fst) <$>
    (match create_queue Urlparse.urlparse dict_items_sample sqs0 ∅ t0 "q"
             attributes_pairs with
     | Ok x => Some x | Raise _ => None end) =
  Some ("http://sqs.us-east-1.amazonaws.com/?Action=CreateQueue" ++
        "&Attribute.0.Name=VisibilityTimeout&Attribute.0.Value=30" ++
        "&Attribute.1.Name=a&Attribute.1.Value=b&QueueName=q&Version=2012-11-05").
Proof. vm_compute. reflexivity. Qed.

(** ** The outcomes of AWSRequest.__init__ *)

Lemma is_ascii_string_of_uint d : Py.is_ascii (NilEmpty.string_of_uint d) = true.
Proof. unfold Py.is_ascii. induction d; simpl; done. Qed.

Lemma is_ascii_str_of_N n : Py.is_ascii (Py.str_of_N n) = true.
Proof. apply is_ascii_string_of_uint. Qed.

Lemma is_ascii_pad2 n : Py.is_ascii (Py.pad2 n) = true.
Proof.
  unfold Py.pad2. destruct (n <? 10)%N; [|apply is_ascii_str_of_N].
  by rewrite is_ascii_app, is_ascii_str_of_N.
Qed.

Lemma is_ascii_datestamp t : Py.is_ascii (Py.expand "%Y%m%d" t) = true.
Proof.
  change (Py.expand "%Y%m%d" t)
    with (Py.str_of_N (Py.year t) ++ Py.pad2 (Py.month t) ++ Py.pad2 (Py.day t) ++ "").
  by rewrite !is_ascii_app, is_ascii_str_of_N, !is_ascii_pad2.
Qed.

Lemma is_ascii_amz_date t : Py.is_ascii (Py.expand "%Y%m%dT%H%M%SZ" t) = true.
Proof.
  change (Py.expand "%Y%m%dT%H%M%SZ" t)
    with (Py.str_of_N (Py.year t) ++ Py.pad2 (Py.month t) ++ Py.pad2 (Py.day t) ++
          "T" ++ (Py.pad2 (Py.hour t) ++ Py.pad2 (Py.minute t) ++
                  Py.pad2 (Py.second t) ++ "Z")).
  by rewrite !is_ascii_app, is_ascii_str_of_N, !is_ascii_pad2.
Qed.

Lemma strftime_eq t fmt :
  Py.strftime t fmt =
  if (Py.year t <? 1900)%N then Raise ValueError else Ok (Py.expand fmt t).
Proof. reflexivity. Qed.

Lemma resolve_url_Raise args kw e : resolve_url args kw = Raise e -> e = IndexError.
Proof.
  unfold resolve_url, Py.index.
  destruct (kw_url kw) as [[|c u]|]; destruct (args !! 0); intros [=]; done.
Qed.

Lemma contains_query_cases url :
  (Py.contains "?" url = true /\ exists cq, canonical_querystring_of url = Ok cq) \/
  (Py.contains "?" url = false /\ canonical_querystring_of url = Raise IndexError).
Proof.
  destruct (Py.contains "?" url) eqn:E.
  - left. split; [done|]. by apply canonical_querystring_of_query.
  - right. split; [done|]. by apply canonical_querystring_of_no_query.
Qed.

(** The constructor from the values it computes, the converse of
    [AWSRequest_init_Ok]. *)
Lemma AWSRequest_init_intro urlparse h t args kw url cq new_url pu amz ds key sig :
  resolve_url args kw = Ok url ->
  canonical_querystring_of url = Ok cq ->
  rewritten_url url cq = Ok new_url ->
  urlparse url = Some pu ->
  Py.strftime t "%Y%m%dT%H%M%SZ" = Ok amz ->
  Py.strftime t "%Y%m%d" = Ok ds ->
  getSignatureKey (kw_secret_key kw) ds (kw_region kw) (kw_service kw) = Ok key ->
  signature key (signed_text kw url (netloc pu) (path pu) cq amz ds) = Ok sig ->
  AWSRequest_init urlparse h t args kw =
  Ok (mkHTTPRequest new_url (default "GET" (kw_method kw)) (fst (get_headers h kw)),
      alter (fun d => dict_update d
                (new_headers amz
                   (authorization_header (kw_access_key kw)
                      (credential_scope ds (kw_region kw) (kw_service kw)) sig)))
            (fst (get_headers h kw)) (snd (get_headers h kw))).
Proof.
  intros Hu Hq Hn Hp Ha Hd Hk Hs. unfold AWSRequest_init.
  rewrite Hu, bind_Ok_l, Hq, bind_Ok_l, Hn, bind_Ok_l.
  unfold call_urlparse. rewrite Hp, bind_Ok_l, Ha, bind_Ok_l, Hd, bind_Ok_l.
  rewrite Hk, bind_Ok_l. unfold signed_text in Hs. rewrite Hs, bind_Ok_l.
  by destruct (get_headers h kw).
Qed.

(** What a call does, from its arguments. *)
Lemma AWSRequest_init_outcome urlparse h t args kw :
  match resolve_url args kw with
  | Raise _ => AWSRequest_init urlparse h t args kw = Raise IndexError
  | Ok url =>
      if Py.contains "?" url then
        match urlparse url with
        | None => AWSRequest_init urlparse h t args kw = Raise ValueError
        | Some _ =>
            if (Py.year t <? 1900)%N
            then AWSRequest_init urlparse h t args kw = Raise ValueError
            else if Py.is_ascii (kw_secret_key kw) && Py.is_ascii (kw_region kw) &&
                    Py.is_ascii (kw_service kw)
                 then succeeds (AWSRequest_init urlparse h t args kw) = true
                 else AWSRequest_init urlparse h t args kw = Raise UnicodeDecodeError
        end
      else AWSRequest_init urlparse h t args kw = Raise IndexError
  end.
Proof.
  destruct (resolve_url args kw) as [url|e] eqn:Hu.
  2:{ apply resolve_url_Raise in Hu as Hu'. subst e.
      unfold AWSRequest_init. by rewrite Hu, bind_Raise_l. }
  destruct (contains_query_cases url) as [[Hc [cq Hq]]|[Hc Hq]]; rewrite Hc.
  2:{ unfold AWSRequest_init. by rewrite Hu, bind_Ok_l, Hq, bind_Raise_l. }
  destruct (urlparse url) as [pu|] eqn:Hp.
  2:{ unfold AWSRequest_init.
      rewrite Hu, bind_Ok_l, Hq, bind_Ok_l, rewritten_url_eq, bind_Ok_l.
      unfold call_urlparse. by rewrite Hp, bind_Raise_l. }
  destruct (Py.year t <? 1900)%N eqn:Hy.
  { unfold AWSRequest_init.
    rewrite Hu, bind_Ok_l, Hq, bind_Ok_l, rewritten_url_eq, bind_Ok_l.
    unfold call_urlparse. rewrite Hp, bind_Ok_l.
    assert (Ha : Py.strftime t "%Y%m%dT%H%M%SZ" = Raise ValueError)
      by (by rewrite strftime_eq, Hy).
    by rewrite Ha, bind_Raise_l. }
  assert (Ha : Py.strftime t "%Y%m%dT%H%M%SZ" = Ok (Py.expand "%Y%m%dT%H%M%SZ" t))
    by (by rewrite strftime_eq, Hy).
  assert (Hd : Py.strftime t "%Y%m%d" = Ok (Py.expand "%Y%m%d" t))
    by (by rewrite strftime_eq, Hy).
  pose proof (getSignatureKey_eq (kw_secret_key kw) (Py.expand "%Y%m%d" t)
                (kw_region kw) (kw_service kw)) as Hk.
  rewrite is_ascii_datestamp, andb_true_r in Hk.
  destruct (Py.is_ascii (kw_secret_key kw) && Py.is_ascii (kw_region kw) &&
            Py.is_ascii (kw_service kw)) eqn:Hasc.
  - assert (Hs : exists sig,
      signature (SigningKeyDeriver_derive (kw_secret_key kw) (Py.expand "%Y%m%d" t)
                   (kw_region kw) (kw_service kw))
        (signed_text kw url (netloc pu) (path pu) cq (Py.expand "%Y%m%dT%H%M%SZ" t)
           (Py.expand "%Y%m%d" t)) = Ok sig).
    { unfold signed_text, signature.
      rewrite encode_utf8_ascii, bind_Ok_l; [by eexists|].
      rewrite is_ascii_string_to_sign, is_ascii_amz_date, is_ascii_datestamp.
      apply andb_prop in Hasc as [Hasc ->]. apply andb_prop in Hasc as [_ ->].
      done. }
    destruct Hs as [sig Hs].
    rewrite (AWSRequest_init_intro urlparse h t args kw url cq _ pu _ _ _ sig
               Hu Hq (rewritten_url_eq url cq) Hp Ha Hd Hk Hs).
    done.
  - unfold AWSRequest_init.
    rewrite Hu, bind_Ok_l, Hq, bind_Ok_l, rewritten_url_eq, bind_Ok_l.
    unfold call_urlparse. rewrite Hp, bind_Ok_l, Ha, bind_Ok_l, Hd, bind_Ok_l.
    by rewrite Hk, bind_Raise_l.
Qed.



(** ** The rewritten URL *)

Lemma split_fields_no_sep c s :
  Forall (fun f => Py.contains c f = false) (Py.split c s).
Proof.
  induction s as [|x r IH]; simpl; [by constructor|].
  destruct (Ascii.eqb x c) eqn:E; [by constructor|].
  destruct (Py.split c r) as [|f fs] eqn:Es; [by apply split_nonempty in Es|].
  inversion_clear IH. constructor; [|done]. simpl. by rewrite E.
Qed.

Lemma split_fields_no_char c d s :
  Py.contains d s = false ->
  Forall (fun f => Py.contains d f = false) (Py.split c s).
Proof.
  induction s as [|x r IH]; simpl; [by constructor|].
  intros H. apply orb_false_elim in H as [Hx Hr]. specialize (IH Hr).
  destruct (Ascii.eqb x c); [by constructor|].
  destruct (Py.split c r) as [|f fs] eqn:Es; [by apply split_nonempty in Es|].
  inversion_clear IH. constructor; [|done]. simpl. by rewrite Hx.
Qed.

Lemma sorted_sorted l : Py.sorted (Py.sorted l) = Py.sorted l.
Proof.
  apply (StronglySorted_unique String.le).
  - apply sorted_StronglySorted.
  - apply sorted_StronglySorted.
  - apply sorted_Permutation.
Qed.

Lemma sorted_of_StronglySorted l : StronglySorted String.le l -> Py.sorted l = l.
Proof.
  intros H. apply (StronglySorted_unique String.le).
  - apply sorted_StronglySorted.
  - exact H.
  - apply sorted_Permutation.
Qed.

Lemma sorted_perm l1 l2 : l1 ≡ₚ l2 -> Py.sorted l1 = Py.sorted l2.
Proof.
  intros H. apply (StronglySorted_unique String.le).
  - apply sorted_StronglySorted.
  - apply sorted_StronglySorted.
  - by rewrite !sorted_Permutation.
Qed.

Lemma count_app c a b : Py.count c (a ++ b) = Py.count c a + Py.count c b.
Proof.
  induction a as [|x a IH]; [done|]. rewrite append_cons. simpl. rewrite IH. lia.
Qed.

Lemma contains_false_count c s : Py.contains c s = false -> Py.count c s = 0.
Proof. apply contains_count. Qed.

Lemma partition_fst_contains c s : Py.contains c (fst (Py.partition c s)) = false.
Proof. apply contains_count, partition_fst_count. Qed.

(** The canonical querystring is a field of the URL cut up and put
    together again: it has no [?], and splitting it on [&] gives back the
    sorted tokens. *)
Lemma canonical_querystring_of_tokens url cq :
  canonical_querystring_of url = Ok cq ->
  exists toks,
    cq = Py.join "&" toks /\ toks <> [] /\
    StronglySorted String.le toks /\
    Py.split "&" cq = toks /\
    Py.contains "?" cq = false.
Proof.
  unfold canonical_querystring_of. intros H. bind_inv H. injection H as <-.
  unfold Py.index in Ha. destruct (Py.split "?" url !! 1) as [q|] eqn:Hq; [|done].
  injection Ha as <-.
  assert (Hq' : Py.contains "?" q = false).
  { pose proof (split_fields_no_sep "?" url) as HF.
    rewrite Forall_lookup in HF. exact (HF _ _ Hq). }
  set (toks := Py.sorted (Py.split "&" q)).
  assert (Hperm : toks ≡ₚ Py.split "&" q) by apply sorted_Permutation.
  assert (Hne : toks <> []).
  { intros E. rewrite E in Hperm.
    apply Permutation_nil in Hperm. by apply split_nonempty in Hperm. }
  assert (Hamp : Forall (fun f => Py.contains "&" f = false) toks).
  { rewrite Hperm. apply split_fields_no_sep. }
  assert (Hqm : Forall (fun f => Py.contains "?" f = false) toks).
  { rewrite Hperm. by apply split_fields_no_char. }
  exists toks. split; [done|]. split; [done|].
  split; [apply sorted_StronglySorted|].
  split; [by apply (split_join "&")|].
  by apply contains_join.
Qed.

Lemma canonical_querystring_of_rewritten base cq toks :
  Py.contains "?" base = false ->
  Py.contains "?" cq = false ->
  cq = Py.join "&" toks ->
  StronglySorted String.le toks ->
  Py.split "&" cq = toks ->
  canonical_querystring_of (base ++ "?" ++ cq) = Ok cq.
Proof.
  intros Hb Hc Hj Hs Hsp. unfold canonical_querystring_of.
  change (base ++ "?" ++ cq) with (base ++ String "?" cq).
  rewrite (split_app_sep _ _ _ Hb), (split_no_sep _ _ Hc).
  change (Py.index [base; cq] 1) with (Ok cq). rewrite bind_Ok_l.
  by rewrite Hsp, (sorted_of_StronglySorted _ Hs), <- Hj.
Qed.

(** X3.  Signing is idempotent on the URL: a request built from the URL of
    a request that the constructor returned has that same URL. *)
Theorem AWSRequest_init_url_idempotent
  urlparse1 urlparse2 h1 h2 t1 t2 args1 args2 kw1 kw2 r1 h1' r2 h2' :
  AWSRequest_init urlparse1 h1 t1 args1 kw1 = Ok (r1, h1') ->
  resolve_url args2 kw2 = Ok (req_url r1) ->
  AWSRequest_init urlparse2 h2 t2 args2 kw2 = Ok (r2, h2') ->
  req_url r2 = req_url r1.
Proof.
  intros H1 Hu2 H2.
  apply AWSRequest_init_Ok in H1
    as (url & cq & new_url & pu & amz & ds & key & sig &
        _ & Hq & Hn & _ & _ & _ & _ & _ & -> & _).
  cbn [req_url] in *. rewrite rewritten_url_eq in Hn. injection Hn as <-.
  destruct (canonical_querystring_of_tokens _ _ Hq) as (toks & Hj & _ & Hs & Hsp & Hc).
  pose proof (canonical_querystring_of_rewritten _ _ _
                (partition_fst_contains "?" url) Hc Hj Hs Hsp) as Hq2.
  apply AWSRequest_init_Ok in H2
    as (url2 & cq2 & new2 & pu2 & amz2 & ds2 & key2 & sig2 &
        Hu2' & Hq2' & Hn2 & _ & _ & _ & _ & _ & -> & _).
  cbn [req_url]. rewrite Hu2 in Hu2'. injection Hu2' as <-.
  rewrite Hq2 in Hq2'. injection Hq2' as <-.
  rewrite rewritten_url_eq in Hn2. injection Hn2 as <-.
  change (fst (Py.partition "?" url) ++ "?" ++ cq)
    with (fst (Py.partition "?" url) ++ String "?" cq) at 1.
  by rewrite (partition_app_sep _ _ _ (partition_fst_contains "?" url)).
Qed.

Lemma AWSRequest_init_url_idempotent_witness :
  exists r1 h1' r2 h2',
    AWSRequest_init Urlparse.urlparse ∅ t0 [url0] kw0 = Ok (r1, h1') /\
    AWSRequest_init Urlparse.urlparse ∅ t0 [req_url r1] kw0 = Ok (r2, h2') /\
    req_url r2 = req_url r1.
Proof.
  assert (Hs : succeeds (AWSRequest_init Urlparse.urlparse ∅ t0 [url0] kw0) = true)
    by (vm_compute; reflexivity).
  destruct (AWSRequest_init Urlparse.urlparse ∅ t0 [url0] kw0)
    as [[r1 h1']|e] eqn:H1; [|discriminate Hs].
  assert (Hr : req_url r1 = "http://sqs.us-east-1.amazonaws.com/1/q?A=1&B=2").
  { apply AWSRequest_init_Ok in H1
      as (url & cq & new_url & pu & amz & ds & key & sig &
          Hu & Hq & Hn & _ & _ & _ & _ & _ & -> & _).
    injection Hu as <-. vm_compute in Hq. injection Hq as <-.
    vm_compute in Hn. by injection Hn as <-. }
  assert (Hs2 : succeeds (AWSRequest_init Urlparse.urlparse ∅ t0 [req_url r1] kw0) = true)
    by (rewrite Hr; vm_compute; reflexivity).
  destruct (AWSRequest_init Urlparse.urlparse ∅ t0 [req_url r1] kw0)
    as [[r2 h2']|e] eqn:H2; [|discriminate Hs2].
  exists r1, h1', r2, h2'. split; [reflexivity|]. split; [exact H2|].
  exact (AWSRequest_init_url_idempotent Urlparse.urlparse Urlparse.urlparse ∅ ∅ t0 t0
           [url0] [req_url r1] kw0 kw0 r1 h1' r2 h2' H1 eq_refl H2).
Defined.

(** X4.  The URL of every request the constructor returns has exactly one
    [?], its query tokens (the fields between the [&]) are in sorted order,
    and what is before the [?] is what the given URL has before its first
    [?]. *)
Theorem AWSRequest_init_url_canonical urlparse h t args kw r h' :
  AWSRequest_init urlparse h t args kw = Ok (r, h') ->
  Py.count "?" (req_url r) = 1 /\
  StronglySorted String.le (Py.split "&" (snd (Py.partition "?" (req_url r)))) /\
  exists url, resolve_url args kw = Ok url /\
    fst (Py.partition "?" (req_url r)) = fst (Py.partition "?" url).
Proof.
  intros H.
  apply AWSRequest_init_Ok in H
    as (url & cq & new_url & pu & amz & ds & key & sig &
        Hu & Hq & Hn & _ & _ & _ & _ & _ & -> & _).
  cbn [req_url]. rewrite rewritten_url_eq in Hn. injection Hn as <-.
  destruct (canonical_querystring_of_tokens _ _ Hq) as (toks & Hj & _ & Hs & Hsp & Hc).
  change (fst (Py.partition "?" url) ++ "?" ++ cq)
    with (fst (Py.partition "?" url) ++ String "?" cq).
  rewrite (partition_app_sep _ _ _ (partition_fst_contains "?" url)).
  cbn [fst snd]. split; [|split].
  - rewrite count_app, partition_fst_count. simpl.
    by rewrite (contains_false_count _ _ Hc).
  - by rewrite Hsp.
  - by exists url.
Qed.

Lemma AWSRequest_init_url_canonical_witness :
  exists r h',
    AWSRequest_init Urlparse.urlparse ∅ t0 [url0] kw0 = Ok (r, h') /\
    Py.count "?" (req_url r) = 1.
Proof.
  assert (Hs : succeeds (AWSRequest_init Urlparse.urlparse ∅ t0 [url0] kw0) = true)
    by (vm_compute; reflexivity).
  destruct (AWSRequest_init Urlparse.urlparse ∅ t0 [url0] kw0)
    as [[r h']|e] eqn:H1; [|discriminate Hs].
  exists r, h'. split; [reflexivity|].
  exact (proj1 (AWSRequest_init_url_canonical Urlparse.urlparse ∅ t0 [url0] kw0 r h' H1)).
Defined.

(** ** The headers of several requests *)

Lemma amz_date_after_init urlparse h t args kw r h' :
  headers_ok h kw ->
  AWSRequest_init urlparse h t args kw = Ok (r, h') ->
  exists amz,
    Py.strftime t "%Y%m%dT%H%M%SZ" = Ok amz /\
    header h' r "x-amz-date" = Some amz.
Proof.
  intros Hok Hi.
  destruct (header_after_init urlparse h t args kw r h' Hok Hi)
    as (amz & ds & sig & Ha & _ & _ & _ & _ & Hh & _).
  exists amz. split; [done|]. unfold header. rewrite Hh. cbn [mbind option_bind].
  by rewrite dict_update_new_headers.
Qed.

(** X5.  The headers argument has no part in what is signed: the same
    call with another headers dictionary, or none, in any store, succeeds
    as well and gives the same URL, method, [x-amz-date] and
    [Authorization]. *)
Theorem AWSRequest_init_ignores_headers urlparse h h2 t args kw l r1 h1' :
  headers_ok h kw ->
  headers_ok h2 (with_headers l kw) ->
  AWSRequest_init urlparse h t args kw = Ok (r1, h1') ->
  exists r2 h2',
    AWSRequest_init urlparse h2 t args (with_headers l kw) = Ok (r2, h2') /\
    req_url r2 = req_url r1 /\
    req_method r2 = req_method r1 /\
    header h2' r2 "x-amz-date" = header h1' r1 "x-amz-date" /\
    header h2' r2 "Authorization" = header h1' r1 "Authorization".
Proof.
  intros Hok Hok2 H1.
  pose proof (AWSRequest_init_Ok urlparse h t args kw r1 h1' H1)
    as (url & cq & new_url & pu & amz & ds & key & sig &
        Hu & Hq & Hn & Hp & Ha & Hd & Hk & Hs & Hr & _).
  assert (Hu2 : resolve_url args (with_headers l kw) = Ok url) by exact Hu.
  assert (Hk2 : getSignatureKey (kw_secret_key (with_headers l kw)) ds
                  (kw_region (with_headers l kw)) (kw_service (with_headers l kw))
                = Ok key) by exact Hk.
  assert (Hs2 : signature key
                  (signed_text (with_headers l kw) url (netloc pu) (path pu) cq amz ds)
                = Ok sig) by exact Hs.
  pose proof (AWSRequest_init_intro urlparse h2 t args (with_headers l kw)
                url cq new_url pu amz ds key sig Hu2 Hq Hn Hp Ha Hd Hk2 Hs2) as H2.
  eexists _, _. split; [exact H2|].
  split; [by rewrite Hr|]. split; [by rewrite Hr|].
  destruct (amz_date_after_init urlparse h t args kw r1 h1' Hok H1) as (a1 & Ha1 & ->).
  destruct (amz_date_after_init urlparse h2 t args (with_headers l kw) _ _ Hok2 H2)
    as (a2 & Ha2 & ->).
  split; [congruence|].
  destruct (authorization_after_init urlparse h t args kw r1 h1' Hok H1)
    as (url1 & pu1 & cq1 & amz1 & ds1 & sig1 & Hu1 & Hp1 & Hq1 & Ha1' & Hd1 & Hs1 & ->).
  destruct (authorization_after_init urlparse h2 t args (with_headers l kw) _ _ Hok2 H2)
    as (url3 & pu3 & cq3 & amz3 & ds3 & sig3 & Hu3 & Hp3 & Hq3 & Ha3 & Hd3 & Hs3 & ->).
  rewrite Hu2 in Hu3. injection Hu3 as <-.
  rewrite Hu in Hu1. injection Hu1 as <-.
  rewrite Hp in Hp1, Hp3. injection Hp1 as <-. injection Hp3 as <-.
  rewrite Hq in Hq1, Hq3. injection Hq1 as <-. injection Hq3 as <-.
  rewrite Ha in Ha1', Ha3. injection Ha1' as <-. injection Ha3 as <-.
  rewrite Hd in Hd1, Hd3. injection Hd1 as <-. injection Hd3 as <-.
  change (signing_input_of (with_headers l kw) pu cq amz ds)
    with (signing_input_of kw pu cq amz ds) in Hs3.
  rewrite Hs1 in Hs3. injection Hs3 as <-. reflexivity.
Qed.

Lemma AWSRequest_init_ignores_headers_witness :
  headers_ok ∅ kw0 /\
  headers_ok h_caller (with_headers (Some 0) kw0) /\
  exists r1 h1' r2 h2',
    AWSRequest_init Urlparse.urlparse ∅ t0 [url0] kw0 = Ok (r1, h1') /\
    AWSRequest_init Urlparse.urlparse h_caller t0 [url0] (with_headers (Some 0) kw0)
      = Ok (r2, h2') /\
    req_url r2 = req_url r1.
Proof.
  assert (Hok : headers_ok ∅ kw0) by exact I.
  assert (Hok2 : headers_ok h_caller (with_headers (Some 0) kw0)) by (by exists ∅).
  split; [exact Hok|]. split; [exact Hok2|].
  assert (Hs : succeeds (AWSRequest_init Urlparse.urlparse ∅ t0 [url0] kw0) = true)
    by (vm_compute; reflexivity).
  destruct (AWSRequest_init Urlparse.urlparse ∅ t0 [url0] kw0)
    as [[r1 h1']|e] eqn:H1; [|discriminate Hs].
  destruct (AWSRequest_init_ignores_headers Urlparse.urlparse ∅ h_caller t0 [url0] kw0
              (Some 0) r1 h1' Hok Hok2 H1) as (r2 & h2' & H2 & Hr & _).
  exists r1, h1', r2, h2'. split; [reflexivity|]. split; [exact H2|exact Hr].
Defined.

(** X6.  Two requests built with one headers dictionary share it: after
    the second call the first request reads the headers of the second, so
    its [x-amz-date] is the second call's timestamp. *)
Theorem shared_headers_overwritten
  urlparse h t1 t2 args1 args2 kw1 kw2 l r1 h1 r2 h2 :
  is_Some (h !! l) ->
  kw_headers kw1 = Some l ->
  kw_headers kw2 = Some l ->
  AWSRequest_init urlparse h t1 args1 kw1 = Ok (r1, h1) ->
  AWSRequest_init urlparse h1 t2 args2 kw2 = Ok (r2, h2) ->
  req_headers r1 = l /\ req_headers r2 = l /\
  (forall name, header h2 r1 name = header h2 r2 name) /\
  exists amz2,
    Py.strftime t2 "%Y%m%dT%H%M%SZ" = Ok amz2 /\
    header h2 r1 "x-amz-date" = Some amz2.
Proof.
  intros Hl Hk1 Hk2 H1 H2.
  assert (Hok1 : headers_ok h kw1) by (unfold headers_ok; by rewrite Hk1).
  destruct (header_after_init urlparse h t1 args1 kw1 r1 h1 Hok1 H1)
    as (amz & ds & sig & _ & _ & _ & _ & Hr1 & Hh1 & _).
  rewrite (get_headers_passed _ _ _ Hk1) in Hr1. cbn [fst] in Hr1.
  assert (Hok2 : headers_ok h1 kw2).
  { unfold headers_ok. rewrite Hk2, <- Hr1, Hh1. by eexists. }
  destruct (header_after_init urlparse h1 t2 args2 kw2 r2 h2 Hok2 H2)
    as (amz' & ds' & sig' & _ & _ & _ & _ & Hr2 & _ & _).
  rewrite (get_headers_passed _ _ _ Hk2) in Hr2. cbn [fst] in Hr2.
  assert (Hsame : forall name, header h2 r1 name = header h2 r2 name).
  { intros name. unfold header. by rewrite Hr1, Hr2. }
  split; [done|]. split; [done|]. split; [done|].
  destruct (amz_date_after_init urlparse h1 t2 args2 kw2 r2 h2 Hok2 H2)
    as (amz2 & Ha2 & Hx).
  exists amz2. split; [done|]. by rewrite Hsame.
Qed.

(** X7.  Two requests built without a headers argument have two
    dictionaries: each call makes a new one, the second call leaves the
    first request's headers as they were, and no dictionary that existed
    before is changed. *)
Theorem fresh_headers_per_call
  urlparse h t1 t2 args1 args2 kw1 kw2 r1 h1 r2 h2 :
  kw_headers kw1 = None ->
  kw_headers kw2 = None ->
  AWSRequest_init urlparse h t1 args1 kw1 = Ok (r1, h1) ->
  AWSRequest_init urlparse h1 t2 args2 kw2 = Ok (r2, h2) ->
  req_headers r1 <> req_headers r2 /\
  h !! req_headers r1 = None /\
  h !! req_headers r2 = None /\
  (forall name, header h2 r1 name = header h1 r1 name) /\
  (forall l, is_Some (h !! l) -> h2 !! l = h !! l).
Proof.
  intros Hk1 Hk2 H1 H2.
  assert (Hok1 : headers_ok h kw1) by (unfold headers_ok; by rewrite Hk1).
  assert (Hok2 : headers_ok h1 kw2) by (unfold headers_ok; by rewrite Hk2).
  destruct (header_after_init urlparse h t1 args1 kw1 r1 h1 Hok1 H1)
    as (amz & ds & sig & _ & _ & _ & _ & Hr1 & Hh1 & Hf1).
  destruct (header_after_init urlparse h1 t2 args2 kw2 r2 h2 Hok2 H2)
    as (amz' & ds' & sig' & _ & _ & _ & _ & Hr2 & Hh2 & Hf2).
  destruct (get_headers_absent h kw1 Hk1) as [Hg1 Hn1].
  destruct (get_headers_absent h1 kw2 Hk2) as [Hg2 Hn2].
  rewrite Hg1 in Hr1. rewrite Hg2 in Hr2. cbn [fst] in Hr1, Hr2.
  rewrite <- Hr1 in Hn1. rewrite <- Hr2 in Hn2.
  assert (Hne : req_headers r1 <> req_headers r2).
  { intros E. rewrite <- E, Hh1 in Hn2. done. }
  split; [done|]. split; [done|]. split.
  { destruct (decide (req_headers r2 = req_headers r1)) as [E|E]; [congruence|].
    rewrite <- (Hf1 _ E). exact Hn2. }
  split.
  - intros name. unfold header. by rewrite (Hf2 _ Hne).
  - intros l Hl.
    assert (l <> req_headers r1) by (intros ->; rewrite Hn1 in Hl; by destruct Hl).
    assert (l <> req_headers r2).
    { intros ->. rewrite <- (Hf1 (req_headers r2)), Hn2 in Hl by done. by destruct Hl. }
    by rewrite Hf2, Hf1.
Qed.

Lemma succeeds_any_store urlparse h h' t args kw :
  succeeds (AWSRequest_init urlparse h t args kw) =
  succeeds (AWSRequest_init urlparse h' t args kw).
Proof.
  pose proof (AWSRequest_init_outcome urlparse h t args kw) as H1.
  pose proof (AWSRequest_init_outcome urlparse h' t args kw) as H2.
  destruct (resolve_url args kw) as [url|e]; [|by rewrite H1, H2].
  destruct (Py.contains "?" url); [|by rewrite H1, H2].
  destruct (urlparse url); [|by rewrite H1, H2].
  destruct (Py.year t <? 1900)%N; [by rewrite H1, H2|].
  destruct (_ && _); by rewrite H1, H2.
Qed.

Lemma shared_headers_overwritten_witness :
  exists r1 h1 r2 h2,
    AWSRequest_init Urlparse.urlparse h_caller t0 [url0] kw_caller = Ok (r1, h1) /\
    AWSRequest_init Urlparse.urlparse h1 t0_later [url0] kw_caller = Ok (r2, h2) /\
    header h2 r1 "x-amz-date" = Some "20150830T123601Z".
Proof.
  pose proof init_succeeds_caller as Hs.
  destruct (AWSRequest_init Urlparse.urlparse h_caller t0 [url0] kw_caller)
    as [[r1 h1]|e] eqn:H1; [|discriminate Hs].
  assert (Hs2 : succeeds (AWSRequest_init Urlparse.urlparse h1 t0_later [url0] kw_caller)
                = true).
  { rewrite (succeeds_any_store _ h1 ∅). vm_compute. reflexivity. }
  destruct (AWSRequest_init Urlparse.urlparse h1 t0_later [url0] kw_caller)
    as [[r2 h2]|e] eqn:H2; [|discriminate Hs2].
  exists r1, h1, r2, h2. split; [reflexivity|]. split; [exact H2|].
  destruct (shared_headers_overwritten Urlparse.urlparse h_caller t0 t0_later
              [url0] [url0] kw_caller kw_caller 0 r1 h1 r2 h2
              (ex_intro _ ∅ eq_refl) eq_refl eq_refl H1 H2)
    as (_ & _ & _ & amz2 & Ha & Hx).
  rewrite Hx. f_equal. vm_compute in Ha. by injection Ha as <-.
Defined.

Lemma fresh_headers_per_call_witness :
  exists r1 h1 r2 h2,
    AWSRequest_init Urlparse.urlparse ∅ t0 [url0] kw0 = Ok (r1, h1) /\
    AWSRequest_init Urlparse.urlparse h1 t0_later [url0] kw0 = Ok (r2, h2) /\
    forall name, header h2 r1 name = header h1 r1 name.
Proof.
  assert (Hs : succeeds (AWSRequest_init Urlparse.urlparse ∅ t0 [url0] kw0) = true)
    by (vm_compute; reflexivity).
  destruct (AWSRequest_init Urlparse.urlparse ∅ t0 [url0] kw0)
    as [[r1 h1]|e] eqn:H1; [|discriminate Hs].
  assert (Hs2 : succeeds (AWSRequest_init Urlparse.urlparse h1 t0_later [url0] kw0) = true).
  { rewrite (succeeds_any_store _ h1 ∅). vm_compute. reflexivity. }
  destruct (AWSRequest_init Urlparse.urlparse h1 t0_later [url0] kw0)
    as [[r2 h2]|e] eqn:H2; [|discriminate Hs2].
  exists r1, h1, r2, h2. split; [reflexivity|]. split; [exact H2|].
  exact (proj1 (proj2 (proj2 (proj2
           (fresh_headers_per_call Urlparse.urlparse ∅ t0 t0_later [url0] [url0]
              kw0 kw0 r1 h1 r2 h2 eq_refl eq_refl H1 H2))))).
Defined.

(** ** The URLs of the operations *)

(** The URL of the request, from the URL and the parameters given to
    [url_concat]. *)
Lemma request_url_of_concat urlparse h t kw url items full r h' :
  kw_url kw = None ->
  items <> [] ->
  Py.contains "?" url = false ->
  Urllib.url_concat url items = Ok full ->
  AWSRequest_init urlparse h t [full] kw = Ok (r, h') ->
  req_url r =
  url ++ "?" ++ Py.join "&" (Py.sorted (map Urllib.pair_token items)).
Proof.
  intros Hk Hne Hq Hc Hi.
  apply AWSRequest_init_Ok in Hi
    as (url' & cq & new_url & pu & amz & ds & key & sig &
        Hu & Hcq & Hn & _ & _ & _ & _ & _ & -> & _).
  cbn [req_url]. unfold resolve_url in Hu. rewrite Hk in Hu. injection Hu as <-.
  assert (Hf : Py.contains "?" full = true).
  { destruct (Py.contains "?" full) eqn:E; [done|].
    by rewrite (canonical_querystring_of_no_query _ E) in Hcq. }
  pose proof (url_concat_query _ _ _ Hne Hq Hc Hf) as ->.
  rewrite rewritten_url_eq in Hn. injection Hn as <-.
  rewrite (partition_app_sep _ _ _ Hq). cbn [fst]. do 2 f_equal.
  unfold canonical_querystring_of in Hcq.
  rewrite (split_app_sep _ _ _ Hq) in Hcq.
  rewrite (split_no_sep _ _ (contains_urlencode_query items)) in Hcq.
  cbn in Hcq. injection Hcq as <-.
  by rewrite (split_urlencode _ Hne).
Qed.

(** The same, when the tokens of the parameters are known in sorted
    order. *)
Lemma request_url_of_tokens urlparse h t kw url items toks full r h' :
  kw_url kw = None ->
  map Urllib.pair_token items ≡ₚ toks ->
  StronglySorted String.le toks ->
  toks <> [] ->
  Py.contains "?" url = false ->
  Urllib.url_concat url items = Ok full ->
  AWSRequest_init urlparse h t [full] kw = Ok (r, h') ->
  req_url r = url ++ "?" ++ Py.join "&" toks.
Proof.
  intros Hk Hp Hs Hne Hq Hc Hi.
  assert (Hne' : items <> []).
  { intros ->. apply Permutation_nil in Hp. done. }
  rewrite (request_url_of_concat _ _ _ _ _ _ _ _ _ Hk Hne' Hq Hc Hi).
  by rewrite (sorted_perm _ _ Hp), (sorted_of_StronglySorted _ Hs).
Qed.

Lemma signed_request_url_tokens urlparse self h t url items toks full r h' :
  map Urllib.pair_token items ≡ₚ toks ->
  StronglySorted String.le toks ->
  toks <> [] ->
  Py.contains "?" url = false ->
  Urllib.url_concat url items = Ok full ->
  signed_request urlparse self h t full = Ok (r, h') ->
  req_url r = url ++ "?" ++ Py.join "&" toks.
Proof.
  intros Hp Hs Hne Hq Hc Hi. unfold signed_request in Hi.
  exact (request_url_of_tokens urlparse h t
           (Kwargs (service self) (region self) (access_key self) (secret_key self)
                   None None None)
           url items toks full r h' eq_refl Hp Hs Hne Hq Hc Hi).
Qed.

Lemma dict_update_common ak sk region (p : gmap string string) :
  dict_update p (common_params (SQS_init ak sk region)) =
  <["Version" := "2012-11-05"]> p.
Proof. unfold dict_update. simpl. by rewrite <- insert_union_singleton_l. Qed.

Lemma send_message_params_items ak sk region body :
  map Urllib.pair_token (map_to_list (send_message_params (SQS_init ak sk region) body))
  ≡ₚ ["Action=SendMessage"; "MessageBody=" ++ Urllib.quote_plus body;
      "Version=2012-11-05"].
Proof.
  unfold send_message_params. rewrite dict_update_common.
  rewrite map_to_list_insert by (by rewrite lookup_insert_ne, lookup_singleton_ne).
  rewrite map_to_list_insert by (by rewrite lookup_singleton_ne).
  rewrite map_to_list_singleton. cbn [map].
  change (Urllib.pair_token ("Version", "2012-11-05")) with "Version=2012-11-05".
  change (Urllib.pair_token ("Action", "SendMessage")) with "Action=SendMessage".
  change (Urllib.pair_token ("MessageBody", body))
    with ("MessageBody=" ++ Urllib.quote_plus body).
  solve_Permutation.
Qed.

Lemma send_message_req_url
  urlparse (dict_items : gmap string string -> list (string * string))
  ak sk region h t queue_url message_body r h' :
  (forall m, dict_items m ≡ₚ map_to_list m) ->
  Py.contains "?" queue_url = false ->
  send_message urlparse dict_items (SQS_init ak sk region) h t queue_url message_body
    = Ok (r, h') ->
  req_url r =
  queue_url ++ "?Action=SendMessage&MessageBody=" ++ Urllib.quote_plus message_body ++
  "&Version=2012-11-05".
Proof.
  intros Hitems Hq Hs. unfold send_message in Hs. bind_inv Hs.
  assert (Hp : map Urllib.pair_token
                 (dict_items (send_message_params (SQS_init ak sk region) message_body))
               ≡ₚ ["Action=SendMessage";
                   "MessageBody=" ++ Urllib.quote_plus message_body;
                   "Version=2012-11-05"]).
  { rewrite <- send_message_params_items. apply Permutation_map, Hitems. }
  rewrite (signed_request_url_tokens _ _ _ _ _ _ _ _ _ _ Hp) with (4 := Ha) (5 := Hs).
  - cbn [Py.join]. by rewrite !append_assoc.
  - repeat constructor.
  - done.
  - done.
Qed.

(** X8.  On a queue URL without a query string, the request of
    [send_message] has the method GET and the URL
    <queue>?Action=SendMessage&MessageBody=<quoted body>&Version=2012-11-05,
    whatever the order in which the parameter dictionary is enumerated. *)
Theorem send_message_url
  urlparse (dict_items : gmap string string -> list (string * string))
  ak sk region h t queue_url message_body r h' :
  (forall m, dict_items m ≡ₚ map_to_list m) ->
  Py.contains "?" queue_url = false ->
  send_message urlparse dict_items (SQS_init ak sk region) h t queue_url message_body
    = Ok (r, h') ->
  req_url r =
    queue_url ++ "?Action=SendMessage&MessageBody=" ++
    Urllib.quote_plus message_body ++ "&Version=2012-11-05" /\
  req_method r = "GET".
Proof.
  intros Hitems Hq Hs. split.
  - exact (send_message_req_url urlparse dict_items ak sk region h t queue_url
             message_body r h' Hitems Hq Hs).
  - unfold send_message in Hs. bind_inv Hs. unfold signed_request in Hs.
    apply AWSRequest_init_Ok in Hs
      as (url' & cq & new_url & pu & amz & ds & key & sig &
          _ & _ & _ & _ & _ & _ & _ & _ & -> & _).
    reflexivity.
Qed.

Lemma send_message_url_witness :
  (forall m, dict_items_sample m ≡ₚ map_to_list m) /\
  Py.contains "?" queue_url0 = false /\
  exists r h',
    send_message Urlparse.urlparse dict_items_sample sqs0 ∅ t0 queue_url0 "hello & bye?"
      = Ok (r, h') /\
    req_url r =
    "http://sqs.us-east-1.amazonaws.com/1/q?Action=SendMessage&MessageBody=hello+%26+bye%3F&Version=2012-11-05".
Proof.
  assert (H : forall m, dict_items_sample m ≡ₚ map_to_list m) by done.
  split; [exact H|]. split; [reflexivity|].
  assert (Hs : succeeds (send_message Urlparse.urlparse dict_items_sample sqs0 ∅ t0
                           queue_url0 "hello & bye?") = true)
    by (vm_compute; reflexivity).
  destruct (send_message Urlparse.urlparse dict_items_sample sqs0 ∅ t0
              queue_url0 "hello & bye?") as [[r h']|e] eqn:Hi; [|discriminate Hs].
  exists r, h'. split; [reflexivity|].
  exact (proj1 (send_message_url Urlparse.urlparse dict_items_sample "AKIDEXAMPLE"
                  secret_a "us-east-1" ∅ t0 queue_url0 "hello & bye?" r h' H eq_refl Hi)).
Defined.

Lemma delete_message_params_items ak sk region receipt_handle :
  map Urllib.pair_token
      (map_to_list (delete_message_params (SQS_init ak sk region) receipt_handle))
  ≡ₚ ["Action=DeleteMessage"; "ReceiptHandle=" ++ Urllib.quote_plus receipt_handle;
      "Version=2012-11-05"].
Proof.
  unfold delete_message_params. rewrite dict_update_common.
  rewrite map_to_list_insert by (by rewrite lookup_insert_ne, lookup_singleton_ne).
  rewrite map_to_list_insert by (by rewrite lookup_singleton_ne).
  rewrite map_to_list_singleton. cbn [map].
  change (Urllib.pair_token ("Version", "2012-11-05")) with "Version=2012-11-05".
  change (Urllib.pair_token ("Action", "DeleteMessage")) with "Action=DeleteMessage".
  change (Urllib.pair_token ("ReceiptHandle", receipt_handle))
    with ("ReceiptHandle=" ++ Urllib.quote_plus receipt_handle).
  solve_Permutation.
Qed.

(** X9.  On a queue URL without a query string, the request of
    [delete_message] has the URL
    <queue>?Action=DeleteMessage&ReceiptHandle=<quoted handle>&Version=2012-11-05. *)
Theorem delete_message_url
  urlparse (dict_items : gmap string string -> list (string * string))
  ak sk region h t queue_url receipt_handle r h' :
  (forall m, dict_items m ≡ₚ map_to_list m) ->
  Py.contains "?" queue_url = false ->
  delete_message urlparse dict_items (SQS_init ak sk region) h t queue_url receipt_handle
    = Ok (r, h') ->
  req_url r =
  queue_url ++ "?Action=DeleteMessage&ReceiptHandle=" ++
  Urllib.quote_plus receipt_handle ++ "&Version=2012-11-05".
Proof.
  intros Hitems Hq Hs. unfold delete_message in Hs. bind_inv Hs.
  assert (Hp : map Urllib.pair_token
                 (dict_items (delete_message_params (SQS_init ak sk region) receipt_handle))
               ≡ₚ ["Action=DeleteMessage";
                   "ReceiptHandle=" ++ Urllib.quote_plus receipt_handle;
                   "Version=2012-11-05"]).
  { rewrite <- delete_message_params_items. apply Permutation_map, Hitems. }
  rewrite (signed_request_url_tokens _ _ _ _ _ _ _ _ _ _ Hp) with (4 := Ha) (5 := Hs).
  - cbn [Py.join]. by rewrite !append_assoc.
  - repeat constructor.
  - done.
  - done.
Qed.

Lemma delete_message_url_witness :
  (forall m, dict_items_sample m ≡ₚ map_to_list m) /\
  Py.contains "?" queue_url0 = false /\
  exists r h',
    delete_message Urlparse.urlparse dict_items_sample sqs0 ∅ t0 queue_url0 "AQEB+/="
      = Ok (r, h') /\
    req_url r =
    "http://sqs.us-east-1.amazonaws.com/1/q?Action=DeleteMessage&ReceiptHandle=AQEB%2B%2F%3D&Version=2012-11-05".
Proof.
  assert (H : forall m, dict_items_sample m ≡ₚ map_to_list m) by done.
  split; [exact H|]. split; [reflexivity|].
  assert (Hs : succeeds (delete_message Urlparse.urlparse dict_items_sample sqs0 ∅ t0
                           queue_url0 "AQEB+/=") = true)
    by (vm_compute; reflexivity).
  destruct (delete_message Urlparse.urlparse dict_items_sample sqs0 ∅ t0
              queue_url0 "AQEB+/=") as [[r h']|e] eqn:Hi; [|discriminate Hs].
  exists r, h'. split; [reflexivity|].
  exact (delete_message_url Urlparse.urlparse dict_items_sample "AKIDEXAMPLE" secret_a
           "us-east-1" ∅ t0 queue_url0 "AQEB+/=" r h' H eq_refl Hi).
Defined.

Lemma delete_queue_params_items ak sk region :
  map Urllib.pair_token (map_to_list (delete_queue_params (SQS_init ak sk region)))
  ≡ₚ ["Action=DeleteQueue"; "Version=2012-11-05"].
Proof.
  unfold delete_queue_params. rewrite dict_update_common.
  rewrite map_to_list_insert by (by rewrite lookup_singleton_ne).
  rewrite map_to_list_singleton. cbn [map]. apply perm_swap.
Qed.

(** X10.  On a queue URL without a query string, the request of
    [delete_queue] has the URL <queue>?Action=DeleteQueue&Version=2012-11-05. *)
Theorem delete_queue_url
  urlparse (dict_items : gmap string string -> list (string * string))
  ak sk region h t queue_url r h' :
  (forall m, dict_items m ≡ₚ map_to_list m) ->
  Py.contains "?" queue_url = false ->
  delete_queue urlparse dict_items (SQS_init ak sk region) h t queue_url = Ok (r, h') ->
  req_url r = queue_url ++ "?Action=DeleteQueue&Version=2012-11-05".
Proof.
  intros Hitems Hq Hs. unfold delete_queue in Hs. bind_inv Hs.
  assert (Hp : map Urllib.pair_token
                 (dict_items (delete_queue_params (SQS_init ak sk region)))
               ≡ₚ ["Action=DeleteQueue"; "Version=2012-11-05"]).
  { rewrite <- delete_queue_params_items. apply Permutation_map, Hitems. }
  rewrite (signed_request_url_tokens _ _ _ _ _ _ _ _ _ _ Hp) with (4 := Ha) (5 := Hs).
  - reflexivity.
  - repeat constructor.
  - done.
  - done.
Qed.

Lemma delete_queue_url_witness :
  (forall m, dict_items_sample m ≡ₚ map_to_list m) /\
  Py.contains "?" queue_url0 = false /\
  exists r h',
    delete_queue Urlparse.urlparse dict_items_sample sqs0 ∅ t0 queue_url0 = Ok (r, h') /\
    req_url r =
    "http://sqs.us-east-1.amazonaws.com/1/q?Action=DeleteQueue&Version=2012-11-05".
Proof.
  assert (H : forall m, dict_items_sample m ≡ₚ map_to_list m) by done.
  split; [exact H|]. split; [reflexivity|].
  assert (Hs : succeeds (delete_queue Urlparse.urlparse dict_items_sample sqs0 ∅ t0
                           queue_url0) = true)
    by (vm_compute; reflexivity).
  destruct (delete_queue Urlparse.urlparse dict_items_sample sqs0 ∅ t0 queue_url0)
    as [[r h']|e] eqn:Hi; [|discriminate Hs].
  exists r, h'. split; [reflexivity|].
  exact (delete_queue_url Urlparse.urlparse dict_items_sample "AKIDEXAMPLE" secret_a
           "us-east-1" ∅ t0 queue_url0 r h' H eq_refl Hi).
Defined.

(** ** Numbers in a query string *)

Lemma quote_plus_safe s :
  Urlparse.all_chars Urllib.always_safe s = true -> Urllib.quote_plus s = s.
Proof.
  unfold Urlparse.all_chars. induction s as [|c s IH]; [done|].
  cbn [list_ascii_of_string forallb Urllib.quote_plus].
  intros H. apply andb_prop in H as [-> H]. by rewrite (IH H).
Qed.

Lemma always_safe_string_of_uint d :
  Urlparse.all_chars Urllib.always_safe (NilEmpty.string_of_uint d) = true.
Proof. unfold Urlparse.all_chars. induction d; simpl; done. Qed.

Lemma always_safe_str_of_Z z :
  Urlparse.all_chars Urllib.always_safe (str_of_Z z) = true.
Proof.
  unfold str_of_Z. destruct (z <? 0)%Z; [|apply always_safe_string_of_uint].
  rewrite append_cons, append_nil_l. unfold Urlparse.all_chars.
  cbn [list_ascii_of_string forallb]. apply always_safe_string_of_uint.
Qed.

Lemma quote_plus_str_of_Z z : Urllib.quote_plus (str_of_Z z) = str_of_Z z.
Proof. apply quote_plus_safe, always_safe_str_of_Z. Qed.

Lemma listen_queue_params_items ak sk region wait_time max_messages visibility_timeout :
  map Urllib.pair_token
      (map_to_list (listen_queue_params (SQS_init ak sk region)
                      wait_time max_messages visibility_timeout))
  ≡ₚ ["Action=ReceiveMessage"; "AttributeName=All";
      "MaxNumberOfMessages=" ++ str_of_Z max_messages;
      "Version=2012-11-05";
      "VisibilityTimeout=" ++ str_of_Z visibility_timeout;
      "WaitTimeSeconds=" ++ str_of_Z wait_time].
Proof.
  unfold listen_queue_params. rewrite dict_update_common.
  rewrite map_to_list_insert by (by rewrite !lookup_insert_ne, lookup_singleton_ne).
  rewrite map_to_list_insert by (by rewrite !lookup_insert_ne, lookup_singleton_ne).
  rewrite map_to_list_insert by (by rewrite !lookup_insert_ne, lookup_singleton_ne).
  rewrite map_to_list_insert by (by rewrite !lookup_insert_ne, lookup_singleton_ne).
  rewrite map_to_list_insert by (by rewrite lookup_singleton_ne).
  rewrite map_to_list_singleton. cbn [map].
  unfold Urllib.pair_token. cbn [fst snd]. rewrite !quote_plus_str_of_Z.
  change (Urllib.quote_plus "Version" ++ "=" ++ Urllib.quote_plus "2012-11-05")
    with "Version=2012-11-05".
  change (Urllib.quote_plus "Action" ++ "=" ++ Urllib.quote_plus "ReceiveMessage")
    with "Action=ReceiveMessage".
  change (Urllib.quote_plus "AttributeName" ++ "=" ++ Urllib.quote_plus "All")
    with "AttributeName=All".
  change (Urllib.quote_plus "WaitTimeSeconds" ++ "=" ++ str_of_Z wait_time)
    with ("WaitTimeSeconds=" ++ str_of_Z wait_time).
  change (Urllib.quote_plus "MaxNumberOfMessages" ++ "=" ++ str_of_Z max_messages)
    with ("MaxNumberOfMessages=" ++ str_of_Z max_messages).
  change (Urllib.quote_plus "VisibilityTimeout" ++ "=" ++ str_of_Z visibility_timeout)
    with ("VisibilityTimeout=" ++ str_of_Z visibility_timeout).
  solve_Permutation.
Qed.

(** X11.  On a queue URL without a query string, the request of
    [listen_queue] has the URL <queue>?Action=ReceiveMessage&AttributeName=All
    &MaxNumberOfMessages=<m>&Version=2012-11-05&VisibilityTimeout=<v>
    &WaitTimeSeconds=<w>, the three numbers in decimal. *)
Theorem listen_queue_url
  urlparse (dict_items : gmap string string -> list (string * string))
  ak sk region h t queue_uri wait_time max_messages visibility_timeout r h' :
  (forall m, dict_items m ≡ₚ map_to_list m) ->
  Py.contains "?" queue_uri = false ->
  listen_queue urlparse dict_items (SQS_init ak sk region) h t queue_uri
    wait_time max_messages visibility_timeout = Ok (r, h') ->
  req_url r =
  queue_uri ++ "?Action=ReceiveMessage&AttributeName=All&MaxNumberOfMessages=" ++
  str_of_Z max_messages ++ "&Version=2012-11-05&VisibilityTimeout=" ++
  str_of_Z visibility_timeout ++ "&WaitTimeSeconds=" ++ str_of_Z wait_time.
Proof.
  intros Hitems Hq Hs. unfold listen_queue in Hs. bind_inv Hs.
  assert (Hp : map Urllib.pair_token
                 (dict_items (listen_queue_params (SQS_init ak sk region)
                                wait_time max_messages visibility_timeout))
               ≡ₚ ["Action=ReceiveMessage"; "AttributeName=All";
                   "MaxNumberOfMessages=" ++ str_of_Z max_messages;
                   "Version=2012-11-05";
                   "VisibilityTimeout=" ++ str_of_Z visibility_timeout;
                   "WaitTimeSeconds=" ++ str_of_Z wait_time]).
  { rewrite <- listen_queue_params_items. apply Permutation_map, Hitems. }
  rewrite (signed_request_url_tokens _ _ _ _ _ _ _ _ _ _ Hp) with (4 := Ha) (5 := Hs).
  - cbn [Py.join]. by rewrite !append_assoc.
  - repeat constructor.
  - done.
  - done.
Qed.

Lemma listen_queue_url_witness :
  (forall m, dict_items_sample m ≡ₚ map_to_list m) /\
  Py.contains "?" queue_url0 = false /\
  exists r h',
    listen_queue Urlparse.urlparse dict_items_sample sqs0 ∅ t0 queue_url0 15 1 300
      = Ok (r, h') /\
    req_url r =
    "http://sqs.us-east-1.amazonaws.com/1/q?Action=ReceiveMessage&AttributeName=All&MaxNumberOfMessages=1&Version=2012-11-05&VisibilityTimeout=300&WaitTimeSeconds=15".
Proof.
  assert (H : forall m, dict_items_sample m ≡ₚ map_to_list m) by done.
  split; [exact H|]. split; [reflexivity|].
  assert (Hs : succeeds (listen_queue Urlparse.urlparse dict_items_sample sqs0 ∅ t0
                           queue_url0 15 1 300) = true)
    by (vm_compute; reflexivity).
  destruct (listen_queue Urlparse.urlparse dict_items_sample sqs0 ∅ t0
              queue_url0 15 1 300) as [[r h']|e] eqn:Hi; [|discriminate Hs].
  exists r, h'. split; [reflexivity|].
  exact (listen_queue_url Urlparse.urlparse dict_items_sample "AKIDEXAMPLE" secret_a
           "us-east-1" ∅ t0 queue_url0 15 1 300 r h' H eq_refl Hi).
Defined.

(** ** SNS.create_topic *)

Lemma create_topic_params_items name :
  map Urllib.pair_token (map_to_list (create_topic_params name))
  ≡ₚ ["Action=CreateTopic"; "Name=" ++ Urllib.quote_plus name;
      "SignatureMethod=HmacSHA256"; "SignatureVersion=4"; "Version=2010-03-31"].
Proof.
  unfold create_topic_params.
  rewrite map_to_list_insert by (by rewrite !lookup_insert_ne, lookup_singleton_ne).
  rewrite map_to_list_insert by (by rewrite !lookup_insert_ne, lookup_singleton_ne).
  rewrite map_to_list_insert by (by rewrite !lookup_insert_ne, lookup_singleton_ne).
  rewrite map_to_list_insert by (by rewrite lookup_singleton_ne).
  rewrite map_to_list_singleton. cbn [map].
  change (Urllib.pair_token ("Name", name)) with ("Name=" ++ Urllib.quote_plus name).
  change (Urllib.pair_token ("Action", "CreateTopic")) with "Action=CreateTopic".
  change (Urllib.pair_token ("Version", "2010-03-31")) with "Version=2010-03-31".
  change (Urllib.pair_token ("SignatureMethod", "HmacSHA256"))
    with "SignatureMethod=HmacSHA256".
  change (Urllib.pair_token ("SignatureVersion", str_of_Z 4)) with "SignatureVersion=4".
  solve_Permutation.
Qed.

(** X12.  For a region without a [?], the request of [create_topic] has
    the URL http://sns.<region>.amazonaws.com/?Action=CreateTopic
    &Name=<quoted name>&SignatureMethod=HmacSHA256&SignatureVersion=4
    &Version=2010-03-31 and the method GET, whatever the order in which the
    parameter dictionary is enumerated. *)
Theorem create_topic_url
  urlparse (dict_items : gmap string string -> list (string * string))
  self h t name r h' :
  (forall m, dict_items m ≡ₚ map_to_list m) ->
  Py.contains "?" (sns_region self) = false ->
  create_topic urlparse dict_items self h t name = Ok (r, h') ->
  req_url r =
    "http://sns." ++ sns_region self ++ ".amazonaws.com/?Action=CreateTopic&Name=" ++
    Urllib.quote_plus name ++
    "&SignatureMethod=HmacSHA256&SignatureVersion=4&Version=2010-03-31" /\
  req_method r = "GET".
Proof.
  intros Hitems Hq Hs. unfold create_topic in Hs. bind_inv Hs.
  assert (Hp : map Urllib.pair_token (dict_items (create_topic_params name))
               ≡ₚ ["Action=CreateTopic"; "Name=" ++ Urllib.quote_plus name;
                   "SignatureMethod=HmacSHA256"; "SignatureVersion=4";
                   "Version=2010-03-31"]).
  { rewrite <- create_topic_params_items. apply Permutation_map, Hitems. }
  assert (Hu : Py.contains "?" ("http://sns." ++ sns_region self ++ ".amazonaws.com/")
               = false).
  { by rewrite !contains_app, Hq. }
  split.
  - rewrite (request_url_of_tokens urlparse h t
               (Kwargs "sns" (sns_region self) (sns_access_key self) (sns_secret_key self)
                       None None None)
               _ _ _ a r h' eq_refl Hp) with (3 := Hu) (4 := Ha) (5 := Hs).
    + cbn [Py.join]. by rewrite !append_assoc.
    + repeat constructor.
    + done.
  - apply AWSRequest_init_Ok in Hs
      as (url' & cq & new_url & pu & amz & ds & key & sig &
          _ & _ & _ & _ & _ & _ & _ & _ & -> & _).
    reflexivity.
Qed.

Lemma create_topic_url_witness :
  (forall m, dict_items_sample m ≡ₚ map_to_list m) /\
  Py.contains "?" (sns_region sns0) = false /\
  exists r h',
    create_topic Urlparse.urlparse dict_items_sample sns0 ∅ t0 "my topic" = Ok (r, h') /\
    req_url r =
    "http://sns.us-east-1.amazonaws.com/?Action=CreateTopic&Name=my+topic&SignatureMethod=HmacSHA256&SignatureVersion=4&Version=2010-03-31".
Proof.
  assert (H : forall m, dict_items_sample m ≡ₚ map_to_list m) by done.
  split; [exact H|]. split; [reflexivity|].
  assert (Hs : succeeds (create_topic Urlparse.urlparse dict_items_sample sns0 ∅ t0
                           "my topic") = true)
    by (vm_compute; reflexivity).
  destruct (create_topic Urlparse.urlparse dict_items_sample sns0 ∅ t0 "my topic")
    as [[r h']|e] eqn:Hi; [|discriminate Hs].
  exists r, h'. split; [reflexivity|].
  exact (proj1 (create_topic_url Urlparse.urlparse dict_items_sample sns0 ∅ t0
                  "my topic" r h' H eq_refl Hi)).
Defined.

(** ** The operations on an empty queue URL *)

Lemma url_concat_empty items :
  items <> [] -> Urllib.url_concat "" items = Raise IndexError.
Proof. by destruct items. Qed.

Lemma dict_items_nonempty
  (dict_items : gmap string string -> list (string * string)) p k v :
  (forall m, dict_items m ≡ₚ map_to_list m) ->
  p !! k = Some v -> dict_items p <> [].
Proof.
  intros Hitems Hk E. pose proof (Hitems p) as Hp. rewrite E in Hp.
  apply Permutation_nil, map_to_list_empty_iff in Hp. by rewrite Hp in Hk.
Qed.

Lemma dict_items_common_nonempty
  (dict_items : gmap string string -> list (string * string)) ak sk region p :
  (forall m, dict_items m ≡ₚ map_to_list m) ->
  dict_items (dict_update p (common_params (SQS_init ak sk region))) <> [].
Proof.
  intros Hitems. apply (dict_items_nonempty _ _ "Version" "2012-11-05" Hitems).
  rewrite dict_update_common. apply lookup_insert_eq.
Qed.

(** X13.  Every operation that takes a queue URL raises [IndexError] on
    the empty URL: [url_concat] reads the last character of the URL, since
    the parameters are never empty, and no request is built. *)
Theorem operations_empty_queue_url
  urlparse (dict_items : gmap string string -> list (string * string))
  ak sk region h t :
  (forall m, dict_items m ≡ₚ map_to_list m) ->
  let self := SQS_init ak sk region in
  (forall wait_time max_messages visibility_timeout,
     listen_queue urlparse dict_items self h t ""
       wait_time max_messages visibility_timeout = Raise IndexError) /\
  (forall message_body,
     send_message urlparse dict_items self h t "" message_body = Raise IndexError) /\
  (forall receipt_handle,
     delete_message urlparse dict_items self h t "" receipt_handle = Raise IndexError) /\
  delete_queue urlparse dict_items self h t "" = Raise IndexError /\
  (forall attributes,
     get_queue_attributes urlparse dict_items self h t "" attributes
       = Raise IndexError) /\
  (forall attributes,
     set_queue_attributes urlparse dict_items self h t "" attributes
       = Raise IndexError).
Proof.
  intros Hitems self.
  assert (Hc : forall p,
    Urllib.url_concat "" (dict_items (dict_update p (common_params self)))
    = Raise IndexError).
  { intros p. apply url_concat_empty. by apply dict_items_common_nonempty. }
  repeat split; intros.
  - unfold listen_queue, listen_queue_params. by rewrite Hc, bind_Raise_l.
  - unfold send_message, send_message_params. by rewrite Hc, bind_Raise_l.
  - unfold delete_message, delete_message_params. by rewrite Hc, bind_Raise_l.
  - unfold delete_queue, delete_queue_params. by rewrite Hc, bind_Raise_l.
  - unfold get_queue_attributes, get_queue_attributes_params.
    by rewrite Hc, bind_Raise_l.
  - unfold set_queue_attributes, set_queue_attributes_params.
    by rewrite Hc, bind_Raise_l.
Qed.

Lemma operations_empty_queue_url_witness :
  (forall m, dict_items_sample m ≡ₚ map_to_list m) /\
  send_message Urlparse.urlparse dict_items_sample sqs0 ∅ t0 "" "hello"
    = Raise IndexError.
Proof.
  assert (H : forall m, dict_items_sample m ≡ₚ map_to_list m) by done.
  split; [exact H|].
  exact (proj1 (proj2 (operations_empty_queue_url Urlparse.urlparse dict_items_sample
                         "AKIDEXAMPLE" secret_a "us-east-1" ∅ t0 H)) "hello").
Defined.

(** ** Action and Version *)

Lemma Action_ne_Attribute_Name i : "Action" <> Attribute_Name i.
Proof.
  unfold Attribute_Name. rewrite !append_cons. intros H.
  injection H as H. discriminate H.
Qed.

Lemma Action_ne_Attribute_Value i : "Action" <> Attribute_Value i.
Proof.
  unfold Attribute_Value. rewrite !append_cons. intros H.
  injection H as H. discriminate H.
Qed.

Lemma QueueName_ne_Attribute_Name i : "QueueName" <> Attribute_Name i.
Proof. unfold Attribute_Name. rewrite append_cons. discriminate. Qed.

Lemma QueueName_ne_Attribute_Value i : "QueueName" <> Attribute_Value i.
Proof. unfold Attribute_Value. rewrite append_cons. discriminate. Qed.

(** The loop of [create_queue] writes indexed parameters only. *)
Lemma foldl_create_queue_step_other name acc l params :
  (forall i, name <> Attribute_Name i) ->
  (forall i, name <> Attribute_Value i) ->
  foldl create_queue_step acc l = Ok params ->
  exists p0, acc = Ok p0 /\ params !! name = p0 !! name.
Proof.
  intros Hn Hv. revert params.
  induction l as [|ik l IH] using rev_ind; intros params Hf.
  - simpl in Hf. by exists params.
  - rewrite foldl_app in Hf. simpl in Hf. unfold create_queue_step at 1 in Hf.
    bind_inv Hf. bind_inv Hf. destruct a0 as [key value]. injection Hf as <-.
    destruct (IH _ Ha) as (p0 & -> & Hp). exists p0. split; [done|].
    fold (Attribute_Name (fst ik)). fold (Attribute_Value (fst ik)).
    rewrite !lookup_insert_ne; [done| |]; intros E; symmetry in E.
    + by apply Hn in E.
    + by apply Hv in E.
Qed.

(** X14.  The parameters of every SQS operation hold the operation's own
    [Action] and the [Version] 2012-11-05, whatever the caller's message,
    receipt handle, queue name or attributes. *)
Theorem operations_action_version ak sk region :
  let self := SQS_init ak sk region in
  (forall wait_time max_messages visibility_timeout,
     action_version
       (listen_queue_params self wait_time max_messages visibility_timeout)
       "ReceiveMessage") /\
  (forall message_body,
     action_version (send_message_params self message_body) "SendMessage") /\
  (forall receipt_handle,
     action_version (delete_message_params self receipt_handle) "DeleteMessage") /\
  action_version (delete_queue_params self) "DeleteQueue" /\
  (forall queue_name attributes params,
     create_queue_params self queue_name attributes = Ok params ->
     action_version params "CreateQueue" /\ params !! "QueueName" = Some queue_name) /\
  (forall attributes,
     action_version (get_queue_attributes_params self attributes)
       "GetQueueAttributes") /\
  (forall attributes,
     action_version (set_queue_attributes_params self attributes)
       "SetQueueAttributes").
Proof.
  intros self. unfold action_version.
  assert (Hv : forall p : gmap string string,
    dict_update p (common_params self) !! "Version" = Some "2012-11-05").
  { intros p. unfold self. rewrite dict_update_common. apply lookup_insert_eq. }
  assert (Ha : forall (p : gmap string string) name,
    "Version" <> name -> dict_update p (common_params self) !! name = p !! name).
  { intros p name Hne. unfold self. rewrite dict_update_common.
    by rewrite lookup_insert_ne. }
  repeat split; intros.
  - unfold create_queue_params in H. bind_inv H. injection H as <-.
    rewrite Ha by done.
    destruct (foldl_create_queue_step_other "Action" _ _ _
                Action_ne_Attribute_Name Action_ne_Attribute_Value Ha0)
      as (p0 & [= <-] & ->).
    apply lookup_insert_eq.
  - unfold create_queue_params in H. bind_inv H. injection H as <-. apply Hv.
  - unfold create_queue_params in H. bind_inv H. injection H as <-.
    rewrite Ha by done.
    destruct (foldl_create_queue_step_other "QueueName" _ _ _
                QueueName_ne_Attribute_Name QueueName_ne_Attribute_Value Ha0)
      as (p0 & [= <-] & ->).
    rewrite lookup_insert_ne by done. apply lookup_singleton_eq.
  - unfold get_queue_attributes_params. rewrite Ha by done.
    destruct (foldl_get_queue_attributes
                {[ "Action" := "GetQueueAttributes" ]} attributes) as [_ H2].
    rewrite H2; [apply lookup_singleton_eq|].
    intros i _. apply Action_ne_AttributeName.
  - apply Hv.
  - unfold self. rewrite set_queue_attributes_params_eq.
    rewrite lookup_insert_ne by done.
    destruct (last attributes) as [[k v]|].
    + rewrite !lookup_insert_ne by done. apply lookup_singleton_eq.
    + apply lookup_singleton_eq.
  - apply Hv.
Qed.

(** ** Quoting loses nothing *)

Lemma unhexdigit_upper_hexdigit c :
  ascii_of_N (16 * unhexdigit_upper (Urllib.upper_hexdigit (N_of_ascii c / 16)) +
              unhexdigit_upper (Urllib.upper_hexdigit (N_of_ascii c mod 16))) = c.
Proof. destruct c as [[] [] [] [] [] [] [] []]; vm_compute; reflexivity. Qed.

Lemma always_safe_not_plus c :
  Urllib.always_safe c = true -> Ascii.eqb c "+" = false /\ Ascii.eqb c "%" = false.
Proof.
  intros H. split.
  - destruct (Ascii.eqb_spec c "+") as [->|]; [|done]. vm_compute in H. done.
  - destruct (Ascii.eqb_spec c "%") as [->|]; [|done]. vm_compute in H. done.
Qed.

Lemma unquote_plus_quote_plus s : unquote_plus (Urllib.quote_plus s) = s.
Proof.
  induction s as [|c s IH]; [done|]. cbn [Urllib.quote_plus].
  destruct (Urllib.always_safe c) eqn:Hs.
  - cbn [unquote_plus]. destruct (always_safe_not_plus _ Hs) as [-> ->].
    by rewrite IH.
  - destruct (Ascii.eqb_spec c " ") as [->|Hsp].
    + cbn [unquote_plus]. rewrite Ascii.eqb_refl. by rewrite IH.
    + cbn [unquote_plus].
      change (Ascii.eqb "%" "+") with false. change (Ascii.eqb "%" "%") with true.
      cbn match. by rewrite unhexdigit_upper_hexdigit, IH.
Qed.

Lemma quote_plus_inj s1 s2 : Urllib.quote_plus s1 = Urllib.quote_plus s2 -> s1 = s2.
Proof.
  intros H. apply (f_equal unquote_plus) in H.
  by rewrite !unquote_plus_quote_plus in H.
Qed.

(** X15.  The request URL of [send_message] determines the message: two
    calls on one queue URL (without a query string) with different message
    bodies give requests with different URLs. *)
Theorem send_message_url_injective
  urlparse (dict_items : gmap string string -> list (string * string))
  ak sk region h1 h2 t1 t2 queue_url body1 body2 r1 h1' r2 h2' :
  (forall m, dict_items m ≡ₚ map_to_list m) ->
  Py.contains "?" queue_url = false ->
  send_message urlparse dict_items (SQS_init ak sk region) h1 t1 queue_url body1
    = Ok (r1, h1') ->
  send_message urlparse dict_items (SQS_init ak sk region) h2 t2 queue_url body2
    = Ok (r2, h2') ->
  body1 <> body2 ->
  req_url r1 <> req_url r2.
Proof.
  intros Hitems Hq H1 H2 Hne E. apply Hne.
  rewrite (send_message_req_url _ _ _ _ _ _ _ _ _ _ _ Hitems Hq H1) in E.
  rewrite (send_message_req_url _ _ _ _ _ _ _ _ _ _ _ Hitems Hq H2) in E.
  apply append_inv_head, append_inv_head, append_inv_tail in E.
  by apply quote_plus_inj.
Qed.

Lemma send_message_url_injective_witness :
  exists r1 h1' r2 h2',
    send_message Urlparse.urlparse dict_items_sample sqs0 ∅ t0 queue_url0 "a b"
      = Ok (r1, h1') /\
    send_message Urlparse.urlparse dict_items_sample sqs0 ∅ t0 queue_url0 "a+b"
      = Ok (r2, h2') /\
    req_url r1 <> req_url r2.
Proof.
  assert (H : forall m, dict_items_sample m ≡ₚ map_to_list m) by done.
  assert (Hs1 : succeeds (send_message Urlparse.urlparse dict_items_sample sqs0 ∅ t0
                            queue_url0 "a b") = true)
    by (vm_compute; reflexivity).
  assert (Hs2 : succeeds (send_message Urlparse.urlparse dict_items_sample sqs0 ∅ t0
                            queue_url0 "a+b") = true)
    by (vm_compute; reflexivity).
  destruct (send_message Urlparse.urlparse dict_items_sample sqs0 ∅ t0
              queue_url0 "a b") as [[r1 h1']|e] eqn:H1; [|discriminate Hs1].
  destruct (send_message Urlparse.urlparse dict_items_sample sqs0 ∅ t0
              queue_url0 "a+b") as [[r2 h2']|e] eqn:H2; [|discriminate Hs2].
  exists r1, h1', r2, h2'. split; [reflexivity|]. split; [reflexivity|].
  apply (send_message_url_injective Urlparse.urlparse dict_items_sample
           "AKIDEXAMPLE" secret_a "us-east-1" ∅ ∅ t0 t0 queue_url0 "a b" "a+b"
           r1 h1' r2 h2' H eq_refl H1 H2).
  discriminate.
Defined.

(** ** The URL of get_queue_attributes *)

Lemma all_chars_app p a b :
  Urlparse.all_chars p (a ++ b) = Urlparse.all_chars p a && Urlparse.all_chars p b.
Proof.
  unfold Urlparse.all_chars. induction a as [|c a IH]; [done|].
  rewrite append_cons. simpl. by rewrite IH, andb_assoc.
Qed.

Lemma always_safe_str_of_N n :
  Urlparse.all_chars Urllib.always_safe (Py.str_of_N n) = true.
Proof. apply always_safe_string_of_uint. Qed.

Lemma quote_plus_AttributeName n : Urllib.quote_plus (AttributeName n) = AttributeName n.
Proof.
  apply quote_plus_safe. unfold AttributeName.
  by rewrite all_chars_app, always_safe_str_of_N.
Qed.

Lemma pair_token_AttributeName n a :
  Urllib.pair_token (AttributeName n, a) = AttributeName n ++ "=" ++ Urllib.quote_plus a.
Proof. unfold Urllib.pair_token. cbn [fst snd]. by rewrite quote_plus_AttributeName. Qed.

Lemma map_to_list_foldl_get_queue_attributes
  (p0 : gmap string string) (attributes : list string) :
  (forall i, p0 !! AttributeName i = None) ->
  map_to_list
    (foldl (fun params ia =>
              <["AttributeName." ++ Py.str_of_N (N.of_nat (fst ia + 1)) := snd ia]> params)
           p0 (imap (fun i a => (i, a)) attributes))
  ≡ₚ (imap (fun i a => (AttributeName (i + 1), a)) attributes ++ map_to_list p0)%list.
Proof.
  intros Hp0. induction attributes as [|x l IH] using rev_ind; [done|].
  destruct (foldl_get_queue_attributes p0 l) as [_ Hother]. cbv zeta in Hother.
  rewrite !imap_app, foldl_app. simpl. rewrite Nat.add_0_r.
  fold (AttributeName (length l + 1)).
  rewrite map_to_list_insert.
  - rewrite IH. solve_Permutation.
  - rewrite Hother; [apply Hp0|].
    intros i Hi E. apply AttributeName_inj in E. lia.
Qed.

Lemma get_queue_attributes_params_tokens ak sk region attributes :
  map Urllib.pair_token
      (map_to_list (get_queue_attributes_params (SQS_init ak sk region) attributes))
  ≡ₚ get_queue_attributes_tokens attributes.
Proof.
  unfold get_queue_attributes_params. rewrite dict_update_common.
  destruct (foldl_get_queue_attributes
              {[ "Action" := "GetQueueAttributes" ]} attributes) as [_ Hother].
  cbv zeta in Hother.
  rewrite map_to_list_insert.
  2:{ rewrite Hother; [by apply lookup_singleton_ne|].
      intros i _. apply Version_ne_AttributeName. }
  rewrite map_to_list_foldl_get_queue_attributes.
  2:{ intros i. apply lookup_singleton_ne, Action_ne_AttributeName. }
  rewrite map_to_list_singleton. unfold get_queue_attributes_tokens.
  cbn [map]. rewrite map_app. cbn [map].
  change (Urllib.pair_token ("Version", "2012-11-05")) with "Version=2012-11-05".
  change (Urllib.pair_token ("Action", "GetQueueAttributes"))
    with "Action=GetQueueAttributes".
  change (map Urllib.pair_token (imap (fun i a => (AttributeName (i + 1), a)) attributes))
    with (Urllib.pair_token <$> imap (fun i a => (AttributeName (i + 1), a)) attributes).
  rewrite fmap_imap.
  rewrite (imap_ext _ (fun i a => AttributeName (i + 1) ++ "=" ++ Urllib.quote_plus a))
    by (intros; apply pair_token_AttributeName).
  solve_Permutation.
Qed.

(** X16.  On a queue URL without a query string, the query parameters of
    the request of [get_queue_attributes] are Action=GetQueueAttributes,
    Version=2012-11-05 and one AttributeName.<i>=<quoted attribute> for each
    requested attribute, numbered from 1 in the order given, and they stand
    in the URL in sorted order. *)
Theorem get_queue_attributes_url
  urlparse (dict_items : gmap string string -> list (string * string))
  ak sk region h t queue_url attributes r h' :
  (forall m, dict_items m ≡ₚ map_to_list m) ->
  Py.contains "?" queue_url = false ->
  get_queue_attributes urlparse dict_items (SQS_init ak sk region) h t
    queue_url attributes = Ok (r, h') ->
  exists tokens,
    req_url r = queue_url ++ "?" ++ Py.join "&" tokens /\
    StronglySorted String.le tokens /\
    tokens ≡ₚ get_queue_attributes_tokens attributes.
Proof.
  intros Hitems Hq Hs. unfold get_queue_attributes in Hs. bind_inv Hs.
  set (params := get_queue_attributes_params (SQS_init ak sk region) attributes) in *.
  assert (Hperm : map Urllib.pair_token (dict_items params)
                  ≡ₚ get_queue_attributes_tokens attributes).
  { etrans; [|apply (get_queue_attributes_params_tokens ak sk region)].
    apply Permutation_map, Hitems. }
  assert (Hne : dict_items params <> []).
  { intros Hnil. rewrite Hnil in Hperm. by apply Permutation_nil_cons in Hperm. }
  exists (Py.sorted (map Urllib.pair_token (dict_items params))).
  split; [|split].
  - exact (signed_request_url urlparse (SQS_init ak sk region) h t queue_url
             (dict_items params) a r h' Hne Hq Ha Hs).
  - apply sorted_StronglySorted.
  - etrans; [apply sorted_Permutation|exact Hperm].
Qed.

Lemma get_queue_attributes_url_witness :
  (forall m, dict_items_sample m ≡ₚ map_to_list m) /\
  Py.contains "?" queue_url0 = false /\
  exists r h' tokens,
    get_queue_attributes Urlparse.urlparse dict_items_sample sqs0 ∅ t0 queue_url0
      ["VisibilityTimeout"; "DelaySeconds"] = Ok (r, h') /\
    req_url r = queue_url0 ++ "?" ++ Py.join "&" tokens /\
    tokens ≡ₚ ["Action=GetQueueAttributes"; "Version=2012-11-05";
               "AttributeName.1=VisibilityTimeout"; "AttributeName.2=DelaySeconds"].
Proof.
  assert (H : forall m, dict_items_sample m ≡ₚ map_to_list m) by done.
  split; [exact H|]. split; [reflexivity|].
  assert (Hs : succeeds (get_queue_attributes Urlparse.urlparse dict_items_sample sqs0 ∅
                           t0 queue_url0 ["VisibilityTimeout"; "DelaySeconds"]) = true)
    by (vm_compute; reflexivity).
  destruct (get_queue_attributes Urlparse.urlparse dict_items_sample sqs0 ∅
              t0 queue_url0 ["VisibilityTimeout"; "DelaySeconds"])
    as [[r h']|e] eqn:Hi; [|discriminate Hs].
  destruct (get_queue_attributes_url Urlparse.urlparse dict_items_sample
              "AKIDEXAMPLE" secret_a "us-east-1" ∅ t0 queue_url0
              ["VisibilityTimeout"; "DelaySeconds"] r h' H eq_refl Hi)
    as (tokens & Hu & _ & Hp).
  exists r, h', tokens. split; [reflexivity|]. split; [exact Hu|exact Hp].
Defined.

(** ** The results of SQS.parse *)

Section parse_results.

Variable fromstring : string -> option element.
Variable element_str : element -> result string.

Lemma getattr_Raise e name x : getattr e name = Raise x -> x = AttributeError.
Proof. unfold getattr. destruct (children_named name e); [|done]. by intros [= <-]. Qed.

Lemma getattr_not_empty e name c : getattr e name = Ok c -> eq_empty_str e = false.
Proof.
  unfold getattr, children_named, eq_empty_str.
  destruct (children_of e) as [|x l]; [done|]. done.
Qed.


Lemma foldl_attributes_lookup {V : Type} (f : element -> result V) l
  (d : gmap string V) :
  foldl (fun (acc : result (gmap string V)) attr =>
           d ← acc;
           value ← getattr attr "Value";
           v ← f value;
           name ← getattr attr "Name";
           n ← element_str name;
           Ok (<[n := v]> d)) (Ok ∅) l = Ok d ->
  forall n v,
    d !! n = Some v <->
    exists i attr name value,
      l !! i = Some attr /\
      getattr attr "Name" = Ok name /\
      getattr attr "Value" = Ok value /\
      element_str name = Ok n /\ f value = Ok v /\
      forall j attr' name',
        i < j -> l !! j = Some attr' -> getattr attr' "Name" = Ok name' ->
        element_str name' <> Ok n.
Proof.
  revert d. induction l as [|x l IH] using rev_ind; intros d H n v.
  { simpl in H. injection H as <-. rewrite lookup_empty. split; [done|].
    by intros (i & attr & name & value & Hi & _). }
  rewrite foldl_app in H. simpl in H.
  bind_inv H. bind_inv H. bind_inv H. bind_inv H. bind_inv H. injection H as <-.
  specialize (IH _ Ha).
  rename a into d0, a0 into value, a1 into v0, a2 into name, a3 into n0.
  destruct (decide (n0 = n)) as [En|En].
  - subst n0. rewrite lookup_insert_eq. split.
    + intros [= <-]. exists (length l), x, name, value.
      rewrite lookup_app_r, Nat.sub_diag by lia.
      repeat split; try done.
      intros j attr' name' Hj Hl. apply lookup_lt_Some in Hl.
      rewrite length_app in Hl. simpl in Hl. lia.
    + intros (i & attr & name0 & value0 & Hi & Hn & Hv & En & Ev & Hlast).
      destruct (decide (i = length l)) as [->|Hne].
      * rewrite lookup_app_r, Nat.sub_diag in Hi by lia. injection Hi as <-.
        congruence.
      * assert (i < length l).
        { apply lookup_lt_Some in Hi. rewrite length_app in Hi. simpl in Hi. lia. }
        exfalso. apply (Hlast (length l) x name); [lia| |done|done].
        by rewrite lookup_app_r, Nat.sub_diag by lia.
  - rewrite lookup_insert_ne by done. rewrite IH. split.
    + intros (i & attr & name0 & value0 & Hi & Hn & Hv & En0 & Ev & Hlast).
      exists i, attr, name0, value0.
      assert (i < length l) by (by apply lookup_lt_Some in Hi).
      rewrite lookup_app_l by done. repeat split; try done.
      intros j attr' name' Hj Hl Hn'.
      destruct (decide (j = length l)) as [->|Hne].
      * rewrite lookup_app_r, Nat.sub_diag in Hl by lia. injection Hl as <-.
        congruence.
      * apply (Hlast j attr' name' Hj); [|done].
        apply lookup_lt_Some in Hl as Hl'. rewrite length_app in Hl'. simpl in Hl'.
        by rewrite lookup_app_l in Hl by lia.
    + intros (i & attr & name0 & value0 & Hi & Hn & Hv & En0 & Ev & Hlast).
      destruct (decide (i = length l)) as [->|Hne].
      * rewrite lookup_app_r, Nat.sub_diag in Hi by lia. injection Hi as <-.
        congruence.
      * assert (i < length l).
        { apply lookup_lt_Some in Hi. rewrite length_app in Hi. simpl in Hi. lia. }
        rewrite lookup_app_l in Hi by done.
        exists i, attr, name0, value0. repeat split; try done.
        intros j attr' name' Hj Hl. apply (Hlast j attr' name' Hj).
        apply lookup_lt_Some in Hl as Hl'. by rewrite lookup_app_l.
Qed.



Lemma dispatch_found items root k :
  k ∈ items ->
  hasattr root (shape_key k) = true ->
  (forall k', k' <> k -> hasattr root (shape_key k') = false) ->
  dispatch element_str items root = extract_func element_str k root.
Proof.
  intros Hin Hk Hother. induction Hin as [k items|k k0 items Hin IH]; simpl.
  - by rewrite Hk.
  - assert (Hd : k0 = k \/ k0 <> k) by (destruct k0, k; (by left) || (by right)).
    destruct Hd as [->|Hne]; [by rewrite Hk|].
    rewrite (Hother _ Hne). by apply IH.
Qed.


(** X18.  When the root has one of the three recognised children and not
    the other two, [parse] reads that child, in whatever order the mapping
    is enumerated. *)
Theorem parse_single_shape items body root k :
  fromstring body = Some root ->
  k ∈ items ->
  hasattr root (shape_key k) = true ->
  (forall k', k' <> k -> hasattr root (shape_key k') = false) ->
  parse fromstring element_str items body = extract_func element_str k root /\
  forall items', k ∈ items' ->
    parse fromstring element_str items' body = parse fromstring element_str items body.
Proof.
  intros Hf Hin Hk Hother. unfold parse. rewrite Hf.
  rewrite (dispatch_found _ _ _ Hin Hk Hother). split; [done|].
  intros items' Hin'. by apply dispatch_found.
Qed.

(** X19.  The dictionary that [parse] returns for a GetQueueAttributes
    response maps a name to the value of the last [Attribute] element that
    has this name, and has no other entries. *)
Theorem GetQueueAttributes_last_wins root r d :
  getattr root "GetQueueAttributesResult" = Ok r ->
  _parse_GetQueueAttributesResult element_str root = Ok (PAttributes d) ->
  forall n v,
    d !! n = Some v <->
    exists i attr name value,
      children_named "Attribute" r !! i = Some attr /\
      getattr attr "Name" = Ok name /\
      getattr attr "Value" = Ok value /\
      element_str name = Ok n /\ element_str value = Ok v /\
      forall j attr' name',
        i < j -> children_named "Attribute" r !! j = Some attr' ->
        getattr attr' "Name" = Ok name' -> element_str name' <> Ok n.
Proof.
  intros Hr H. unfold _parse_GetQueueAttributesResult in H.
  rewrite Hr, bind_Ok_l in H. bind_inv H. bind_inv H. injection H as <-.
  by apply (foldl_attributes_lookup element_str).
Qed.

(** X20.  From a ReceiveMessage response [parse] reads the first
    [Message] only: two responses with the same first message give the same
    result, whatever other messages they hold; and a message without an
    [Attribute] child makes it raise [AttributeError]. *)
Theorem ReceiveMessage_first_message root root' r r' m :
  getattr root "ReceiveMessageResult" = Ok r ->
  getattr root' "ReceiveMessageResult" = Ok r' ->
  getattr r "Message" = Ok m ->
  getattr r' "Message" = Ok m ->
  _parse_ReceiveMessageResult element_str root =
    _parse_ReceiveMessageResult element_str root' /\
  (hasattr m "Attribute" = false ->
   _parse_ReceiveMessageResult element_str root = Raise AttributeError).
Proof.
  intros Hr Hr' Hm Hm'. unfold _parse_ReceiveMessageResult.
  rewrite Hr, Hr', !bind_Ok_l.
  rewrite (getattr_not_empty _ _ _ Hm), (getattr_not_empty _ _ _ Hm').
  rewrite Hm, Hm', !bind_Ok_l. split; [done|].
  intros Ha.
  assert (Hat : getattr m "Attribute" = Raise AttributeError).
  { unfold getattr, hasattr in *. by destruct (children_named "Attribute" m). }
  destruct (getattr m "Body") as [b|e] eqn:Hb.
  2:{ apply getattr_Raise in Hb as ->. by rewrite bind_Raise_l. }
  rewrite bind_Ok_l.
  destruct (getattr m "MD5OfBody") as [md|e] eqn:Hmd.
  2:{ apply getattr_Raise in Hmd as ->. by rewrite bind_Raise_l. }
  rewrite bind_Ok_l.
  destruct (getattr m "ReceiptHandle") as [rh|e] eqn:Hrh.
  2:{ apply getattr_Raise in Hrh as ->. by rewrite bind_Raise_l. }
  rewrite bind_Ok_l. by rewrite Hat, bind_Raise_l.
Qed.

End parse_results.



Lemma parse_single_shape_witness :
  CreateQueueResult ∈ response_mapping_items_cpython /\
  hasattr root_create_queue (shape_key CreateQueueResult) = true /\
  parse (fun _ => Some root_create_queue) element_str_sample
        response_mapping_items_cpython "" =
    Ok (PStr "http://sqs.us-east-1.amazonaws.com/1/q").
Proof.
  assert (Hin : CreateQueueResult ∈ response_mapping_items_cpython)
    by (unfold response_mapping_items_cpython; set_solver).
  split; [exact Hin|]. split; [reflexivity|].
  assert (Hother : forall k', k' <> CreateQueueResult ->
                     hasattr root_create_queue (shape_key k') = false)
    by (intros k' Hne; by destruct k').
  exact (proj1 (parse_single_shape (fun _ => Some root_create_queue) element_str_sample
                  response_mapping_items_cpython "" root_create_queue CreateQueueResult
                  eq_refl Hin eq_refl Hother)).
Defined.

Lemma GetQueueAttributes_last_wins_witness :
  exists d,
    _parse_GetQueueAttributesResult element_str_sample root_attributes
      = Ok (PAttributes d) /\
    d !! "VisibilityTimeout" = Some "45".
Proof.
  eexists. split; [reflexivity|].
  apply (GetQueueAttributes_last_wins element_str_sample root_attributes
           result_attributes _ eq_refl eq_refl "VisibilityTimeout" "45").
  exists 2, (attribute_element "VisibilityTimeout" "45"),
         (Element "Name" (Some "VisibilityTimeout") []),
         (Element "Value" (Some "45") []).
  repeat split.
  intros j attr' name' Hj Hl. destruct j as [|[|[|j]]]; try lia. discriminate Hl.
Defined.

Lemma ReceiveMessage_first_message_witness :
  getattr result_two_messages "Message" = Ok (message_element "hello") /\
  _parse_ReceiveMessageResult element_str_sample root_two_messages =
    _parse_ReceiveMessageResult element_str_sample root_one_message.
Proof.
  split; [reflexivity|].
  exact (proj1 (ReceiveMessage_first_message element_str_sample
                  root_two_messages root_one_message
                  result_two_messages result_one_message (message_element "hello")
                  eq_refl eq_refl eq_refl eq_refl)).
Defined.

(** ** The credentials of the operations *)

Lemma authorization_of_init urlparse h t args kw r h' :
  Py.valid_datetime t ->
  headers_ok h kw ->
  AWSRequest_init urlparse h t args kw = Ok (r, h') ->
  exists sig,
    header h' r "x-amz-date" = Some (YYYYMMDDThhmmssZ t) /\
    header h' r "Authorization" =
      Some ("AWS4-HMAC-SHA256 Credential=" ++ kw_access_key kw ++ "/" ++
            YYYYMMDD t ++ "/" ++ kw_region kw ++ "/" ++ kw_service kw ++
            "/aws4_request, SignedHeaders=host;x-amz-date, Signature=" ++ sig) /\
    String.length sig = 64.
Proof.
  intros Ht Hok Hi.
  destruct (header_after_init urlparse h t args kw r h' Hok Hi)
    as (amz & ds & sig & Ha & Hd & Hl & _ & _ & Hh & _).
  apply strftime_Ok in Ha as [Hy ->]. apply strftime_Ok in Hd as [_ ->].
  rewrite (expand_timestamp _ Ht Hy), (expand_date _ Ht Hy) in Hh.
  exists sig. unfold header. rewrite Hh. cbn [mbind option_bind].
  rewrite !dict_update_new_headers. simpl.
  rewrite authorization_header_format. done.
Qed.

(** X21.  The request of an SQS operation is signed for the service
    [sqs], and that of [create_topic] for the service [sns], in the
    client's region and under the client's access key: its [Authorization]
    header has the credential <access key>/<date>/<region>/<service>/
    aws4_request, and its headers are a dictionary that did not exist
    before the call. *)
Theorem operations_credential
  urlparse (dict_items : gmap string string -> list (string * string)) h t r h' :
  Py.valid_datetime t ->
  (forall ak sk reg full_url,
     signed_request urlparse (SQS_init ak sk reg) h t full_url = Ok (r, h') ->
     h !! req_headers r = None /\
     exists sig,
       String.length sig = 64 /\
       header h' r "Authorization" =
         Some ("AWS4-HMAC-SHA256 Credential=" ++ ak ++ "/" ++ YYYYMMDD t ++ "/" ++
               reg ++ "/sqs/aws4_request, SignedHeaders=host;x-amz-date, Signature="
               ++ sig)) /\
  (forall self name,
     create_topic urlparse dict_items self h t name = Ok (r, h') ->
     h !! req_headers r = None /\
     exists sig,
       String.length sig = 64 /\
       header h' r "Authorization" =
         Some ("AWS4-HMAC-SHA256 Credential=" ++ sns_access_key self ++ "/" ++
               YYYYMMDD t ++ "/" ++ sns_region self ++
               "/sns/aws4_request, SignedHeaders=host;x-amz-date, Signature=" ++ sig)).
Proof.
  intros Ht. split.
  - intros ak sk reg full_url Hs. unfold signed_request in Hs.
    set (kw := Kwargs (service (SQS_init ak sk reg)) (region (SQS_init ak sk reg))
                 (access_key (SQS_init ak sk reg)) (secret_key (SQS_init ak sk reg))
                 None None None) in *.
    assert (Hok : headers_ok h kw) by exact I.
    destruct (header_after_init urlparse h t [full_url] kw r h' Hok Hs)
      as (_ & _ & _ & _ & _ & _ & _ & Hr & _).
    destruct (get_headers_absent h kw eq_refl) as [Hg Hn].
    rewrite Hg in Hr. cbn [fst] in Hr. rewrite <- Hr in Hn.
    split; [exact Hn|].
    destruct (authorization_of_init urlparse h t [full_url] kw r h' Ht Hok Hs)
      as (sig & _ & Ha & Hl).
    exists sig. split; [exact Hl|]. exact Ha.
  - intros self name Hs. unfold create_topic in Hs. bind_inv Hs.
    set (kw := Kwargs "sns" (sns_region self) (sns_access_key self) (sns_secret_key self)
                 None None None) in *.
    assert (Hok : headers_ok h kw) by exact I.
    destruct (header_after_init urlparse h t [a] kw r h' Hok Hs)
      as (_ & _ & _ & _ & _ & _ & _ & Hr & _).
    destruct (get_headers_absent h kw eq_refl) as [Hg Hn].
    rewrite Hg in Hr. cbn [fst] in Hr. rewrite <- Hr in Hn.
    split; [exact Hn|].
    destruct (authorization_of_init urlparse h t [a] kw r h' Ht Hok Hs)
      as (sig & _ & Ha' & Hl).
    exists sig. split; [exact Hl|]. exact Ha'.
Qed.

Lemma operations_credential_witness :
  Py.valid_datetime t0 /\
  exists r h' sig,
    signed_request Urlparse.urlparse sqs0 ∅ t0 url0 = Ok (r, h') /\
    header h' r "Authorization" =
      Some ("AWS4-HMAC-SHA256 Credential=AKIDEXAMPLE/20150830/us-east-1/sqs/aws4_request, SignedHeaders=host;x-amz-date, Signature=" ++ sig).
Proof.
  assert (Ht : Py.valid_datetime t0) by (vm_compute; repeat split; discriminate).
  split; [exact Ht|].
  assert (Hs : succeeds (signed_request Urlparse.urlparse sqs0 ∅ t0 url0) = true)
    by (vm_compute; reflexivity).
  destruct (signed_request Urlparse.urlparse sqs0 ∅ t0 url0) as [[r h']|e] eqn:Hi;
    [|discriminate Hs].
  destruct (proj1 (operations_credential Urlparse.urlparse dict_items_sample ∅ t0 r h' Ht)
              "AKIDEXAMPLE" secret_a "us-east-1" url0 Hi) as (_ & sig & _ & Ha).
  exists r, h', sig. split; [reflexivity|exact Ha].
Defined.

(** ** What create_topic signs *)

Lemma all_chars_impl (p q : ascii -> bool) s :
  (forall x, p x = true -> q x = true) ->
  Urlparse.all_chars p s = true -> Urlparse.all_chars q s = true.
Proof.
  intros Hpq. unfold Urlparse.all_chars. induction s as [|c s IH]; [done|].
  simpl. intros H. apply andb_prop in H as [Hc Hs]. by rewrite (Hpq _ Hc), (IH Hs).
Qed.

Lemma all_chars_not_contains c s :
  Urlparse.all_chars (fun x => negb (Ascii.eqb x c)) s = true ->
  Py.contains c s = false.
Proof.
  unfold Urlparse.all_chars. induction s as [|d s IH]; [done|].
  simpl. intros H. apply andb_prop in H as [Hd Hs].
  apply negb_true_iff in Hd. by rewrite Hd, (IH Hs).
Qed.

Lemma always_safe_not_contains c s :
  Urllib.always_safe c = false ->
  Urlparse.all_chars Urllib.always_safe s = true ->
  Py.contains c s = false.
Proof.
  intros Hc Hs. apply all_chars_not_contains.
  apply (all_chars_impl Urllib.always_safe); [|done].
  intros x Hx. apply negb_true_iff.
  destruct (Ascii.eqb_spec x c) as [->|]; [congruence|done].
Qed.

Lemma break_app stop a c b :
  Urlparse.all_chars (fun x => negb (stop x)) a = true ->
  stop c = true ->
  Urlparse.break stop (a ++ String c b) = (a, String c b).
Proof.
  intros Ha Hc. unfold Urlparse.all_chars in Ha.
  induction a as [|x a IH].
  - rewrite append_nil_l. simpl. by rewrite Hc.
  - rewrite append_cons. simpl in *. apply andb_prop in Ha as [Hx Ha].
    apply negb_true_iff in Hx. by rewrite Hx, (IH Ha).
Qed.

Lemma break_none stop s :
  Urlparse.all_chars (fun x => negb (stop x)) s = true ->
  Urlparse.break stop s = (s, "").
Proof.
  unfold Urlparse.all_chars. induction s as [|x s IH]; [done|].
  simpl. intros H. apply andb_prop in H as [Hx Hs].
  apply negb_true_iff in Hx. by rewrite Hx, (IH Hs).
Qed.

Lemma contains_all_chars c s :
  Py.contains c s = false ->
  Urlparse.all_chars (fun x => negb (Ascii.eqb c x)) s = true.
Proof.
  unfold Urlparse.all_chars. induction s as [|d s IH]; [done|].
  simpl. intros H. apply orb_false_elim in H as [Hd Hs].
  rewrite (IH Hs), andb_true_r. apply negb_true_iff.
  destruct (Ascii.eqb_spec c d) as [->|]; [|done]. by rewrite Ascii.eqb_refl in Hd.
Qed.

Lemma all_chars_cons p c s :
  Urlparse.all_chars p (String c s) = p c && Urlparse.all_chars p s.
Proof. reflexivity. Qed.

Lemma always_safe_not_netloc_delim x :
  Urllib.always_safe x = true -> negb (Urlparse.is_netloc_delim x) = true.
Proof.
  intros H. apply negb_true_iff. unfold Urlparse.is_netloc_delim.
  destruct (Ascii.eqb_spec x "/") as [->|]; [done|].
  destruct (Ascii.eqb_spec x "?") as [->|]; [done|].
  destruct (Ascii.eqb_spec x "#") as [->|]; [done|]. done.
Qed.

(** [urlparse] on an HTTP URL with a host, a path and a query string. *)
Lemma urlparse_http host p q :
  Urlparse.all_chars Urllib.always_safe host = true ->
  Py.contains "?" p = false ->
  Py.contains "#" p = false ->
  Py.contains ";" p = false ->
  Py.contains "#" q = false ->
  Urlparse.urlparse ("http://" ++ host ++ String "/" p ++ String "?" q) =
  Some (mkParseResult host (String "/" p)).
Proof.
  intros Hh Hp1 Hp2 Hp3 Hq. unfold Urlparse.urlparse, Urlparse.split_scheme.
  change ("http://" ++ host ++ String "/" p ++ String "?" q)
    with (String "h" (String "t" (String "t" (String "p" (String ":"
            (String "/" (String "/" (host ++ String "/" (p ++ String "?" q))))))))).
  cbn [Urlparse.break Ascii.eqb Bool.eqb].
  change (String.eqb "http" "http") with true. cbv iota.
  rewrite break_app; [|by apply (all_chars_impl Urllib.always_safe);
                         [apply always_safe_not_netloc_delim|]|done].
  rewrite (always_safe_not_contains "[" host), (always_safe_not_contains "]" host)
    by done.
  cbn [andb orb negb].
  assert (Hb : Urlparse.break (Ascii.eqb "#") (String "/" (p ++ String "?" q))
               = (String "/" (p ++ String "?" q), "")).
  { apply break_none. rewrite all_chars_cons. apply andb_true_intro. split; [done|].
    apply contains_all_chars. rewrite contains_app, Hp2. cbn [Py.contains].
    by rewrite Hq. }
  rewrite Hb. cbn [fst].
  assert (Hc : Urlparse.break (Ascii.eqb "?") (String "/" (p ++ String "?" q))
               = (String "/" p, String "?" q)).
  { change (String "/" (p ++ String "?" q)) with (String "/" p ++ String "?" q).
    apply break_app; [|done]. rewrite all_chars_cons. apply andb_true_intro.
    split; [done|]. by apply contains_all_chars. }
  rewrite Hc. cbn [fst].
  change (Py.contains ";" (String "/" p)) with (false || Py.contains ";" p).
  rewrite Hp3. by rewrite andb_false_r.
Qed.

Lemma contains_urlencode_hash items : Py.contains "#" (Urllib.urlencode items) = false.
Proof.
  unfold Urllib.urlencode. apply contains_join; [done|]. by apply tokens_no_char.
Qed.

(** X22.  For a region of letters, digits, [_], [.] and [-], what
    [create_topic] signs is the method GET, the host
    sns.<region>.amazonaws.com, the path [/] and the sorted query string
    Action=CreateTopic&Name=<quoted name>&SignatureMethod=HmacSHA256
    &SignatureVersion=4&Version=2010-03-31, for the service [sns] in the
    client's region under the client's secret key; the [Authorization]
    header carries that signature under the client's access key. *)
Theorem create_topic_signed_values
  (dict_items : gmap string string -> list (string * string)) self h t name r h' :
  (forall m, dict_items m ≡ₚ map_to_list m) ->
  Urlparse.all_chars Urllib.always_safe (sns_region self) = true ->
  create_topic Urlparse.urlparse dict_items self h t name = Ok (r, h') ->
  exists amz ds sig,
    Py.strftime t "%Y%m%dT%H%M%SZ" = Ok amz /\
    Py.strftime t "%Y%m%d" = Ok ds /\
    request_signature
      (SigningInput (sns_secret_key self) ds amz (sns_region self) "sns" "GET" "/"
         ("Action=CreateTopic&Name=" ++ Urllib.quote_plus name ++
          "&SignatureMethod=HmacSHA256&SignatureVersion=4&Version=2010-03-31")
         ("sns." ++ sns_region self ++ ".amazonaws.com")) = Ok sig /\
    header h' r "Authorization" =
      Some (authorization_header (sns_access_key self)
              (credential_scope ds (sns_region self) "sns") sig).
Proof.
  intros Hitems Hreg Hs. unfold create_topic in Hs. bind_inv Hs.
  set (kw := Kwargs "sns" (sns_region self) (sns_access_key self) (sns_secret_key self)
               None None None) in *.
  set (base := "http://sns." ++ sns_region self ++ ".amazonaws.com/") in *.
  assert (Hp : map Urllib.pair_token (dict_items (create_topic_params name))
               ≡ₚ ["Action=CreateTopic"; "Name=" ++ Urllib.quote_plus name;
                   "SignatureMethod=HmacSHA256"; "SignatureVersion=4";
                   "Version=2010-03-31"]).
  { rewrite <- create_topic_params_items. apply Permutation_map, Hitems. }
  assert (Hne : dict_items (create_topic_params name) <> []).
  { intros E. rewrite E in Hp. by apply Permutation_nil_cons in Hp. }
  assert (Hq : Py.contains "?" base = false).
  { unfold base. rewrite !contains_app.
    by rewrite (always_safe_not_contains "?" _ eq_refl Hreg). }
  assert (Hok : headers_ok h kw) by exact I.
  destruct (authorization_after_init Urlparse.urlparse h t [a] kw r h' Hok Hs)
    as (url & pu & cq & amz & ds & sig & Hu & Hpu & Hcq & Ham & Hds & Hsig & Hh).
  injection Hu as <-.
  assert (Hf : Py.contains "?" a = true).
  { destruct (Py.contains "?" a) eqn:E; [done|].
    by rewrite (canonical_querystring_of_no_query _ E) in Hcq. }
  pose proof (url_concat_query _ _ _ Hne Hq Ha Hf) as Hfull.
  assert (Hcq' : cq = "Action=CreateTopic&Name=" ++ Urllib.quote_plus name ++
                      "&SignatureMethod=HmacSHA256&SignatureVersion=4&Version=2010-03-31").
  { rewrite Hfull in Hcq. unfold canonical_querystring_of in Hcq.
    rewrite (split_app_sep _ _ _ Hq) in Hcq.
    rewrite (split_no_sep _ _ (contains_urlencode_query _)) in Hcq.
    cbn in Hcq. injection Hcq as <-.
    rewrite (split_urlencode _ Hne), (sorted_perm _ _ Hp).
    rewrite sorted_of_StronglySorted by repeat constructor.
    cbn [Py.join]. by rewrite !append_assoc. }
  assert (Hpu' : pu = mkParseResult ("sns." ++ sns_region self ++ ".amazonaws.com") "/").
  { rewrite Hfull in Hpu. unfold base in Hpu.
    assert (E : ("http://sns." ++ sns_region self ++ ".amazonaws.com/") ++
                String "?" (Urllib.urlencode (dict_items (create_topic_params name)))
                = "http://" ++ ("sns." ++ sns_region self ++ ".amazonaws.com") ++
                  String "/" "" ++
                  String "?" (Urllib.urlencode (dict_items (create_topic_params name)))).
    { rewrite !append_assoc. reflexivity. }
    rewrite E, urlparse_http in Hpu; try done.
    - by injection Hpu as <-.
    - by rewrite !all_chars_app, Hreg.
    - apply contains_urlencode_hash. }
  subst cq pu. exists amz, ds, sig. split; [done|]. split; [done|].
  split; [exact Hsig|exact Hh].
Qed.

Lemma create_topic_signed_values_witness :
  (forall m, dict_items_sample m ≡ₚ map_to_list m) /\
  Urlparse.all_chars Urllib.always_safe (sns_region sns0) = true /\
  exists r h' sig,
    create_topic Urlparse.urlparse dict_items_sample sns0 ∅ t0 "my topic" = Ok (r, h') /\
    request_signature
      (SigningInput secret_a "20150830" "20150830T123600Z" "us-east-1" "sns" "GET" "/"
         "Action=CreateTopic&Name=my+topic&SignatureMethod=HmacSHA256&SignatureVersion=4&Version=2010-03-31"
         "sns.us-east-1.amazonaws.com") = Ok sig /\
    header h' r "Authorization" =
      Some (authorization_header "AKIDEXAMPLE"
              (credential_scope "20150830" "us-east-1" "sns") sig).
Proof.
  assert (H : forall m, dict_items_sample m ≡ₚ map_to_list m) by done.
  split; [exact H|]. split; [reflexivity|].
  assert (Hs : succeeds (create_topic Urlparse.urlparse dict_items_sample sns0 ∅ t0
                           "my topic") = true)
    by (vm_compute; reflexivity).
  destruct (create_topic Urlparse.urlparse dict_items_sample sns0 ∅ t0 "my topic")
    as [[r h']|e] eqn:Hi; [|discriminate Hs].
  destruct (create_topic_signed_values dict_items_sample sns0 ∅ t0 "my topic" r h'
              H eq_refl Hi) as (amz & ds & sig & Ha & Hd & Hsig & Hh).
  vm_compute in Ha. injection Ha as <-. vm_compute in Hd. injection Hd as <-.
  exists r, h', sig. split; [reflexivity|]. split; [exact Hsig|exact Hh].
Defined.

(** X23.  On a queue URL http://<host>/<path> (a host of letters, digits,
    [_], [.] and [-]; a path without [?], [#] and [;]), what [send_message]
    signs is the method GET, that host, that path and the sorted query
    string Action=SendMessage&MessageBody=<quoted body>&Version=2012-11-05,
    for the service [sqs] in the client's region under the client's secret
    key; the [Authorization] header carries that signature under the
    client's access key. *)
Theorem send_message_signed_values
  (dict_items : gmap string string -> list (string * string))
  ak sk reg h t host p message_body r h' :
  (forall m, dict_items m ≡ₚ map_to_list m) ->
  Urlparse.all_chars Urllib.always_safe host = true ->
  Py.contains "?" p = false ->
  Py.contains "#" p = false ->
  Py.contains ";" p = false ->
  send_message Urlparse.urlparse dict_items (SQS_init ak sk reg) h t
    ("http://" ++ host ++ String "/" p) message_body = Ok (r, h') ->
  exists amz ds sig,
    Py.strftime t "%Y%m%dT%H%M%SZ" = Ok amz /\
    Py.strftime t "%Y%m%d" = Ok ds /\
    request_signature
      (SigningInput sk ds amz reg "sqs" "GET" (String "/" p)
         ("Action=SendMessage&MessageBody=" ++ Urllib.quote_plus message_body ++
          "&Version=2012-11-05")
         host) = Ok sig /\
    header h' r "Authorization" =
      Some (authorization_header ak (credential_scope ds reg "sqs") sig).
Proof.
  intros Hitems Hhost Hp1 Hp2 Hp3 Hs. unfold send_message in Hs. bind_inv Hs.
  unfold signed_request in Hs.
  set (kw := Kwargs (service (SQS_init ak sk reg)) (region (SQS_init ak sk reg))
               (access_key (SQS_init ak sk reg)) (secret_key (SQS_init ak sk reg))
               None None None) in *.
  set (params := send_message_params (SQS_init ak sk reg) message_body) in *.
  assert (Hp : map Urllib.pair_token (dict_items params)
               ≡ₚ ["Action=SendMessage";
                   "MessageBody=" ++ Urllib.quote_plus message_body;
                   "Version=2012-11-05"]).
  { etrans; [|apply (send_message_params_items ak sk reg)].
    apply Permutation_map, Hitems. }
  clearbody params.
  assert (Hne : dict_items params <> []).
  { intros E. rewrite E in Hp. by apply Permutation_nil_cons in Hp. }
  assert (Hq : Py.contains "?" ("http://" ++ host ++ String "/" p) = false).
  { rewrite !contains_app. cbn [Py.contains].
    by rewrite (always_safe_not_contains "?" _ eq_refl Hhost), Hp1. }
  assert (Hok : headers_ok h kw) by exact I.
  destruct (authorization_after_init Urlparse.urlparse h t [a] kw r h' Hok Hs)
    as (url & pu & cq & amz & ds & sig & Hu & Hpu & Hcq & Ham & Hds & Hsig & Hh).
  injection Hu as <-.
  assert (Hf : Py.contains "?" a = true).
  { destruct (Py.contains "?" a) eqn:E; [done|].
    by rewrite (canonical_querystring_of_no_query _ E) in Hcq. }
  pose proof (url_concat_query _ _ _ Hne Hq Ha Hf) as Hfull.
  assert (Hcq' : cq = "Action=SendMessage&MessageBody=" ++
                      Urllib.quote_plus message_body ++ "&Version=2012-11-05").
  { rewrite Hfull in Hcq. unfold canonical_querystring_of in Hcq.
    rewrite (split_app_sep _ _ _ Hq) in Hcq.
    rewrite (split_no_sep _ _ (contains_urlencode_query _)) in Hcq.
    cbn in Hcq. injection Hcq as <-.
    rewrite (split_urlencode _ Hne), (sorted_perm _ _ Hp).
    rewrite sorted_of_StronglySorted by repeat constructor.
    cbn [Py.join]. by rewrite !append_assoc. }
  assert (Hpu' : pu = mkParseResult host (String "/" p)).
  { rewrite Hfull in Hpu. rewrite !append_assoc in Hpu.
    rewrite urlparse_http in Hpu; try done.
    - by injection Hpu as <-.
    - apply contains_urlencode_hash. }
  subst cq pu. exists amz, ds, sig. split; [done|]. split; [done|].
  split; [exact Hsig|exact Hh].
Qed.

Lemma send_message_signed_values_witness :
  (forall m, dict_items_sample m ≡ₚ map_to_list m) /\
  Urlparse.all_chars Urllib.always_safe "sqs.us-east-1.amazonaws.com" = true /\
  exists r h' sig,
    send_message Urlparse.urlparse dict_items_sample sqs0 ∅ t0 queue_url0 "hello"
      = Ok (r, h') /\
    request_signature
      (SigningInput secret_a "20150830" "20150830T123600Z" "us-east-1" "sqs" "GET" "/1/q"
         "Action=SendMessage&MessageBody=hello&Version=2012-11-05"
         "sqs.us-east-1.amazonaws.com") = Ok sig /\
    header h' r "Authorization" =
      Some (authorization_header "AKIDEXAMPLE"
              (credential_scope "20150830" "us-east-1" "sqs") sig).
Proof.
  assert (H : forall m, dict_items_sample m ≡ₚ map_to_list m) by done.
  split; [exact H|]. split; [reflexivity|].
  assert (Hs : succeeds (send_message Urlparse.urlparse dict_items_sample sqs0 ∅ t0
                           queue_url0 "hello") = true)
    by (vm_compute; reflexivity).
  destruct (send_message Urlparse.urlparse dict_items_sample sqs0 ∅ t0 queue_url0 "hello")
    as [[r h']|e] eqn:Hi; [|discriminate Hs].
  destruct (send_message_signed_values dict_items_sample "AKIDEXAMPLE" secret_a
              "us-east-1" ∅ t0 "sqs.us-east-1.amazonaws.com" "1/q" "hello" r h'
              H eq_refl eq_refl eq_refl eq_refl Hi)
    as (amz & ds & sig & Ha & Hd & Hsig & Hh).
  vm_compute in Ha. injection Ha as <-. vm_compute in Hd. injection Hd as <-.
  exists r, h', sig. split; [reflexivity|]. split; [exact Hsig|exact Hh].
Defined.

(** ** The URL of create_queue *)

Lemma quote_plus_Attribute_Name i : Urllib.quote_plus (Attribute_Name i) = Attribute_Name i.
Proof.
  apply quote_plus_safe. unfold Attribute_Name.
  by rewrite !all_chars_app, always_safe_str_of_N.
Qed.

Lemma quote_plus_Attribute_Value i :
  Urllib.quote_plus (Attribute_Value i) = Attribute_Value i.
Proof.
  apply quote_plus_safe. unfold Attribute_Value.
  by rewrite !all_chars_app, always_safe_str_of_N.
Qed.

(** The loop of [create_queue] over [n] keys writes the parameters
    indexed below [n] only. *)
Lemma foldl_create_queue_step_frame p0 (attributes : list (pykey * string)) params name :
  foldl create_queue_step (Ok p0) (imap (fun i kv => (i, fst kv)) attributes)
    = Ok params ->
  (forall i, i < length attributes ->
     name <> Attribute_Name i /\ name <> Attribute_Value i) ->
  params !! name = p0 !! name.
Proof.
  revert params.
  induction attributes as [|x l IH] using rev_ind; intros params Hf Hn.
  { simpl in Hf. by injection Hf as <-. }
  rewrite imap_app, foldl_app in Hf. simpl in Hf.
  unfold create_queue_step at 1 in Hf.
  bind_inv Hf. bind_inv Hf. destruct a0 as [key value]. injection Hf as <-.
  cbn [fst snd] in *. rewrite Nat.add_0_r.
  fold (Attribute_Name (length l)). fold (Attribute_Value (length l)).
  rewrite length_app in Hn. simpl in Hn.
  destruct (Hn (length l)) as [H1 H2]; [lia|].
  rewrite !lookup_insert_ne by done.
  apply IH; [done|]. intros i Hi. apply Hn. lia.
Qed.

Lemma map_to_list_foldl_create_queue_step
  p0 (attributes : list (pykey * string)) params :
  (forall i, p0 !! Attribute_Name i = None /\ p0 !! Attribute_Value i = None) ->
  foldl create_queue_step (Ok p0) (imap (fun i kv => (i, fst kv)) attributes)
    = Ok params ->
  exists pairs,
    Forall2 (fun kv p => unpack2 (fst kv) = Ok p) attributes pairs /\
    map_to_list params ≡ₚ
      (concat (imap (fun i p => [(Attribute_Name i, fst p); (Attribute_Value i, snd p)])
                    pairs) ++ map_to_list p0)%list.
Proof.
  intros Hp0. revert params.
  induction attributes as [|x l IH] using rev_ind; intros params Hf.
  { simpl in Hf. injection Hf as <-. exists []. split; [constructor|done]. }
  rewrite imap_app, foldl_app in Hf. simpl in Hf.
  unfold create_queue_step at 1 in Hf.
  bind_inv Hf. bind_inv Hf. destruct a0 as [key value]. injection Hf as <-.
  cbn [fst snd] in *. rewrite Nat.add_0_r.
  fold (Attribute_Name (length l)). fold (Attribute_Value (length l)).
  destruct (IH _ Ha) as (pairs & HF & Hperm).
  pose proof (Forall2_length _ _ _ HF) as Hlen.
  exists (pairs ++ [(key, value)])%list. split.
  { apply Forall2_app; [done|]. by repeat constructor. }
  assert (Hnone : forall name,
            name = Attribute_Name (length l) \/ name = Attribute_Value (length l) ->
            a !! name = None).
  { intros name Hname.
    rewrite (foldl_create_queue_step_frame _ _ _ name Ha).
    - destruct Hname as [-> | ->];
        [exact (proj1 (Hp0 (length l)))|exact (proj2 (Hp0 (length l)))].
    - intros i Hi. destruct Hname as [-> | ->]; split; intros E.
      + apply Attribute_Name_inj in E. lia.
      + by apply Attribute_Name_ne_Value in E.
      + symmetry in E. by apply Attribute_Name_ne_Value in E.
      + apply Attribute_Value_inj in E. lia. }
  rewrite map_to_list_insert.
  2:{ rewrite lookup_insert_ne by apply Attribute_Name_ne_Value.
      apply Hnone. by right. }
  rewrite map_to_list_insert by (apply Hnone; by left).
  rewrite Hperm, imap_app, concat_app. simpl. rewrite Nat.add_0_r, <- Hlen.
  solve_Permutation.
Qed.

Lemma create_queue_params_tokens ak sk region queue_name attributes params :
  create_queue_params (SQS_init ak sk region) queue_name attributes = Ok params ->
  exists pairs,
    Forall2 (fun kv p => unpack2 (fst kv) = Ok p) attributes pairs /\
    map Urllib.pair_token (map_to_list params) ≡ₚ create_queue_tokens queue_name pairs.
Proof.
  intros H. unfold create_queue_params in H. bind_inv H. injection H as <-.
  unfold dict_update. rewrite <- insert_union_singleton_l.
  destruct (map_to_list_foldl_create_queue_step _ _ _
              (fun i => conj
                 (eq_trans (lookup_insert_ne _ _ _ _ (Action_ne_Attribute_Name i))
                    (lookup_singleton_ne _ _ _ (QueueName_ne_Attribute_Name i)))
                 (eq_trans (lookup_insert_ne _ _ _ _ (Action_ne_Attribute_Value i))
                    (lookup_singleton_ne _ _ _ (QueueName_ne_Attribute_Value i))))
              Ha) as (pairs & HF & Hperm).
  exists pairs. split; [exact HF|].
  rewrite map_to_list_insert.
  2:{ rewrite (foldl_create_queue_step_frame _ _ _ "Version" Ha); [done|].
      intros i _. split;
        [apply Version_ne_Attribute_Name|apply Version_ne_Attribute_Value]. }
  rewrite Hperm.
  rewrite map_to_list_insert by (by rewrite lookup_singleton_ne).
  rewrite map_to_list_singleton. unfold create_queue_tokens.
  cbn [map]. rewrite map_app, concat_map. cbn [map].
  change (Urllib.pair_token ("Version", "2012-11-05")) with "Version=2012-11-05".
  change (Urllib.pair_token ("Action", "CreateQueue")) with "Action=CreateQueue".
  change (Urllib.pair_token ("QueueName", queue_name))
    with ("QueueName=" ++ Urllib.quote_plus queue_name).
  change (map (map Urllib.pair_token)
            (imap (fun i p => [(Attribute_Name i, fst p); (Attribute_Value i, snd p)]) pairs))
    with (map Urllib.pair_token <$>
            imap (fun i p => [(Attribute_Name i, fst p); (Attribute_Value i, snd p)]) pairs).
  rewrite fmap_imap.
  rewrite (imap_ext _ (fun i kv =>
             [Attribute_Name i ++ "=" ++ Urllib.quote_plus (fst kv);
              Attribute_Value i ++ "=" ++ Urllib.quote_plus (snd kv)])).
  2:{ intros i p _. unfold compose, Urllib.pair_token. cbn [map fst snd].
      by rewrite quote_plus_Attribute_Name, quote_plus_Attribute_Value. }
  solve_Permutation.
Qed.

(** X24.  For a region without a [?], when [create_queue] returns a
    request its URL is http://sqs.<region>.amazonaws.com/?<tokens>, the
    tokens in sorted order, and they are Action=CreateQueue,
    QueueName=<quoted name>, Version=2012-11-05 and, for the key of
    [attributes] at each position i (from 0), which unpacks into a pair,
    Attribute.<i>.Name=<quoted first element> and
    Attribute.<i>.Value=<quoted second element>. *)
Theorem create_queue_url
  urlparse (dict_items : gmap string string -> list (string * string))
  ak sk reg h t queue_name attributes r h' :
  (forall m, dict_items m ≡ₚ map_to_list m) ->
  Py.contains "?" reg = false ->
  create_queue urlparse dict_items (SQS_init ak sk reg) h t queue_name attributes
    = Ok (r, h') ->
  exists pairs tokens,
    Forall2 (fun kv p => unpack2 (fst kv) = Ok p) attributes pairs /\
    req_url r = "http://sqs." ++ reg ++ ".amazonaws.com/?" ++ Py.join "&" tokens /\
    StronglySorted String.le tokens /\
    tokens ≡ₚ create_queue_tokens queue_name pairs.
Proof.
  intros Hitems Hq Hs. unfold create_queue in Hs. bind_inv Hs. bind_inv Hs.
  destruct (create_queue_params_tokens ak sk reg queue_name attributes a Ha)
    as (pairs & HF & Hperm).
  assert (Hperm' : map Urllib.pair_token (dict_items a)
                   ≡ₚ create_queue_tokens queue_name pairs).
  { etrans; [|exact Hperm]. apply Permutation_map, Hitems. }
  assert (Hne : dict_items a <> []).
  { intros Hnil. rewrite Hnil in Hperm'. by apply Permutation_nil_cons in Hperm'. }
  assert (Hu : Py.contains "?" ("http://" ++ service (SQS_init ak sk reg) ++ "." ++
                                region (SQS_init ak sk reg) ++ ".amazonaws.com/") = false).
  { cbn [service region SQS_init]. by rewrite !contains_app, Hq. }
  exists pairs, (Py.sorted (map Urllib.pair_token (dict_items a))).
  split; [exact HF|]. split; [|split].
  - rewrite (signed_request_url urlparse (SQS_init ak sk reg) h t _ (dict_items a)
               a0 r h' Hne Hu Ha0 Hs).
    cbn [service region SQS_init]. by rewrite !append_assoc.
  - apply sorted_StronglySorted.
  - etrans; [apply sorted_Permutation|exact Hperm'].
Qed.

Lemma create_queue_url_witness :
  (forall m, dict_items_sample m ≡ₚ map_to_list m) /\
  Py.contains "?" "us-east-1" = false /\
  exists r h' tokens,
    create_queue Urlparse.urlparse dict_items_sample sqs0 ∅ t0 "q" attributes_pairs
      = Ok (r, h') /\
    req_url r = "http://sqs.us-east-1.amazonaws.com/?" ++ Py.join "&" tokens /\
    tokens ≡ₚ ["Action=CreateQueue"; "QueueName=q"; "Version=2012-11-05";
               "Attribute.0.Name=VisibilityTimeout"; "Attribute.0.Value=30";
               "Attribute.1.Name=a"; "Attribute.1.Value=b"].
Proof.
  assert (H : forall m, dict_items_sample m ≡ₚ map_to_list m) by done.
  split; [exact H|]. split; [reflexivity|].
  assert (Hs : succeeds (create_queue Urlparse.urlparse dict_items_sample sqs0 ∅ t0 "q"
                           attributes_pairs) = true)
    by (vm_compute; reflexivity).
  destruct (create_queue Urlparse.urlparse dict_items_sample sqs0 ∅ t0 "q"
              attributes_pairs) as [[r h']|e] eqn:Hi; [|discriminate Hs].
  destruct (create_queue_url Urlparse.urlparse dict_items_sample "AKIDEXAMPLE" secret_a
              "us-east-1" ∅ t0 "q" attributes_pairs r h' H eq_refl Hi)
    as (pairs & tokens & HF & Hu & _ & Hp).
  exists r, h', tokens. split; [reflexivity|]. split; [exact Hu|].
  unfold attributes_pairs in HF.
  apply Forall2_cons_inv_l in HF as (p1 & ps & H1 & HF & ->).
  apply Forall2_cons_inv_l in HF as (p2 & ps' & H2 & HF & ->).
  apply Forall2_nil_inv_l in HF as ->.
  injection H1 as <-. injection H2 as <-. exact Hp.
Defined.
